(** * SystemMonitor: a shallow embedding of the monitoring core

    The development follows the TypeScript class [SystemMonitor]: its
    configuration merge, the per-family collectors, the alert evaluator
    [checkAlerts], the retention sweep [cleanupOldMetrics], the queries
    [getMetrics], [getAnalysis] and [healthCheck], and the [start]/[stop]
    lifecycle.

    Modelling conventions.
    - A JavaScript [number] stored in a record is an exact rational or one
      of the three special values [NaN], [+Infinity], [-Infinity], and the
      arithmetic of the collectors, the health score and the averages is
      exact.  The trend is the exception: its verdict is read off a computed
      difference at a fixed bound, where the rounding of each operation
      decides, so [Double.calculateTrend], the function [getAnalysis] calls,
      runs in IEEE 754 binary64.  [calculateTrend] without the prefix is the
      same function over exact numbers.
    - [Date.now()] and [Math.random()] read an oracle kept in the [World];
      the events handed to the [EventEmitter] and the lines written to the
      console are appended to the world's log.  Listeners are the client's
      code and are taken to return normally.  The operations at the top
      level describe a monitor on which an ['error'] listener is registered,
      as in the tests and examples of the repository; [Emitter] runs the
      tick for either case, with Node's rule that an ['error'] event nobody
      listens to is thrown.
    - Every [await]ed provider call is replaced by its outcome, [Ok v] or
      [Err cause], supplied per call in a [Provider] record.
    - A call sequence ([Call], [runAll]) is a sequence of calls each awaited
      before the next is made, and a tick runs as a whole.  [Step] and
      [steps] also schedule the two parts of a [start()] that is not
      awaited.
    - A property of a configuration object is either present or absent;
      a property explicitly set to [undefined] is not modelled. *)

From Stdlib Require Import ZArith QArith Qround Qabs List String Bool Lia Lqa SpecFloat.
Import ListNotations.

Local Open Scope Z_scope.

(** ** JavaScript numbers *)

Module JS.

Inductive num : Type :=
  | Fin (q : Q)
  | PInf
  | NInf
  | NaN.

Definition of_Z (z : Z) : num := Fin (inject_Z z).
Definition of_nat (n : nat) : num := of_Z (Z.of_nat n).

Definition add (a b : num) : num :=
    match a, b with
    | NaN, _ | _, NaN => NaN
    | Fin x, Fin y => Fin (x + y)
    | PInf, NInf | NInf, PInf => NaN
    | PInf, _ | _, PInf => PInf
    | NInf, _ | _, NInf => NInf
    end.

Definition neg (a : num) : num :=
    match a with
    | Fin x => Fin (- x)
    | PInf => NInf
    | NInf => PInf
    | NaN => NaN
    end.

Definition sub (a b : num) : num :=
    match a, b with
    | Fin x, Fin y => Fin (x - y)
    | _, _ => add a (neg b)
    end.

  (** An infinity scaled by a finite factor: the sign follows the factor,
      and a zero factor gives [NaN]. *)
Definition scale_inf (positive : bool) (y : Q) : num :=
    match (y ?= 0)%Q with
    | Eq => NaN
    | Gt => if positive then PInf else NInf
    | Lt => if positive then NInf else PInf
    end.

Definition mul (a b : num) : num :=
    match a, b with
    | NaN, _ | _, NaN => NaN
    | Fin x, Fin y => Fin (x * y)
    | PInf, Fin y | Fin y, PInf => scale_inf true y
    | NInf, Fin y | Fin y, NInf => scale_inf false y
    | PInf, PInf | NInf, NInf => PInf
    | PInf, NInf | NInf, PInf => NInf
    end.

  (** Division; the divisor zero is the positive zero. *)
Definition div (a b : num) : num :=
    match a, b with
    | NaN, _ | _, NaN => NaN
    | Fin x, Fin y =>
        if Qeq_bool y 0 then
          match (x ?= 0)%Q with
          | Eq => NaN
          | Gt => PInf
          | Lt => NInf
          end
        else Fin (x / y)
    | Fin _, (PInf | NInf) => Fin 0
    | PInf, Fin y => if Qle_bool 0 y then PInf else NInf
    | NInf, Fin y => if Qle_bool 0 y then NInf else PInf
    | (PInf | NInf), (PInf | NInf) => NaN
    end.

  (** Ordering; [None] when an operand is [NaN]. *)
Definition cmp (a b : num) : option comparison :=
    match a, b with
    | NaN, _ | _, NaN => None
    | Fin x, Fin y => Some (x ?= y)%Q
    | PInf, PInf | NInf, NInf => Some Eq
    | PInf, _ | _, NInf => Some Gt
    | NInf, _ | _, PInf => Some Lt
    end.

  (** [a >= b], [a > b], [a < b], [a <= b]: false as soon as one side is [NaN]. *)
Definition ge (a b : num) : bool :=
    match cmp a b with Some Gt | Some Eq => true | _ => false end.
Definition gt (a b : num) : bool :=
    match cmp a b with Some Gt => true | _ => false end.
Definition lt (a b : num) : bool :=
    match cmp a b with Some Lt => true | _ => false end.
Definition le (a b : num) : bool :=
    match cmp a b with Some Lt | Some Eq => true | _ => false end.

  (** [Math.round]: the nearest integer, halves going up. *)
Definition Math_round (a : num) : num :=
    match a with
    | Fin x => of_Z (Qfloor (x + (1 # 2)))
    | _ => a
    end.

Definition Math_abs (a : num) : num :=
    match a with
    | Fin x => Fin (Qabs x)
    | PInf | NInf => PInf
    | NaN => NaN
    end.

  (** [Math.max] of two arguments; [NaN] is contagious. *)
Definition Math_max (a b : num) : num :=
    match cmp a b with
    | None => NaN
    | Some Lt => b
    | Some _ => a
    end.

  (** Truthiness of a number: [0] and [NaN] are falsy. *)
Definition truthy (a : num) : bool :=
    match a with
    | Fin x => negb (Qeq_bool x 0)
    | NaN => false
    | PInf | NInf => true
    end.

  (** [a || d] on numbers. *)
Definition or_else (a d : num) : num := if truthy a then a else d.

  (** [a.reduce((s, x) => s + x, 0)] *)
Definition sum (l : list num) : num := fold_left add l (of_Z 0).

  (** [Array.prototype.slice(start, end)], negative indices counting from
      the end; [None] stands for an omitted [end]. *)
Definition rel_index (len i : Z) : Z :=
    if i <? 0 then Z.max (len + i) 0 else Z.min i len.

Definition slice {A : Type} (start : Z) (stop : option Z) (l : list A) : list A :=
    let len := Z.of_nat (List.length l) in
    let s := rel_index len start in
    let e := match stop with None => len | Some e => rel_index len e end in
    firstn (Z.to_nat (e - s)) (skipn (Z.to_nat s) l).

  (** The predicate "is a number in the closed interval [lo, hi]". *)
Definition between (lo hi : Q) (a : num) : Prop :=
    match a with
    | Fin x => (lo <= x /\ x <= hi)%Q
    | _ => False
    end.

  (** A finite, non-negative value. *)
Definition fin_nonneg (a : num) : Prop :=
    match a with
    | Fin x => (0 <= x)%Q
    | _ => False
    end.

(** The order of the extended rationals as propositions; nothing is
    related to [NaN]. *)
Definition Le (a b : num) : Prop :=
    match a, b with
    | Fin x, Fin y => (x <= y)%Q
    | NaN, _ | _, NaN => False
    | NInf, _ => True
    | _, PInf => True
    | _, _ => False
    end.

Definition Lt (a b : num) : Prop :=
    match a, b with
    | Fin x, Fin y => (x < y)%Q
    | NaN, _ | _, NaN => False
    | NInf, NInf | PInf, PInf => False
    | NInf, _ => True
    | _, PInf => True
    | _, _ => False
    end.

End JS.

Definition num : Type := JS.num.

(** ** Configuration *)

Module Severity.
Inductive t : Type := warning | critical | emergency.

Definition rank (s : t) : nat :=
    match s with warning => 0%nat | critical => 1%nat | emergency => 2%nat end.
End Severity.

Module Thresholds.
Record t : Type := mk {
    warning : option num;
    critical : option num;
    emergency : option num
  }.

  (** The threshold configured for a severity, if the property is present. *)
Definition for_severity (th : t) (s : Severity.t) : option num :=
    match s with
    | Severity.warning => warning th
    | Severity.critical => critical th
    | Severity.emergency => emergency th
    end.
End Thresholds.

(** One family of [Required<SystemMonitorConfig>['metrics']] after the merge. *)
Module MetricConfig.
Record t : Type := mk {
    enabled : bool;
    interval : num;
    thresholds : Thresholds.t;
    retention : num
  }.
End MetricConfig.

Module MetricsConfig.
Record t : Type := mk {
    cpu : MetricConfig.t;
    memory : MetricConfig.t;
    disk : MetricConfig.t;
    network : MetricConfig.t
  }.
End MetricsConfig.

Module AlertsConfig.
Record t : Type := mk {
    enabled : bool;
    cooldownPeriod : string;
    maxAlertsPerHour : num;
    escalationEnabled : bool
  }.
End AlertsConfig.

(** [Required<SystemMonitorConfig>]: the configuration the monitor holds. *)
Module Config.
Record t : Type := mk {
    interval : num;
    enabled : bool;
    debug : bool;
    logLevel : string;
    environment : string;
    metrics : MetricsConfig.t;
    alerts : AlertsConfig.t
  }.
End Config.

(** The caller's [SystemMonitorConfig]: every property is optional. *)
Module MetricInput.
Record t : Type := mk {
    enabled : option bool;
    interval : option num;
    thresholds : option Thresholds.t;
    retention : option num
  }.
Definition empty : t := mk None None None None.
End MetricInput.

Module MetricsInput.
Record t : Type := mk {
    cpu : option MetricInput.t;
    memory : option MetricInput.t;
    disk : option MetricInput.t;
    network : option MetricInput.t
  }.
End MetricsInput.

Module AlertsInput.
Record t : Type := mk {
    enabled : option bool;
    cooldownPeriod : option string;
    maxAlertsPerHour : option num;
    escalationEnabled : option bool
  }.
End AlertsInput.

Module SystemMonitorConfig.
Record t : Type := mk {
    interval : option num;
    enabled : option bool;
    debug : option bool;
    logLevel : option string;
    environment : option string;
    metrics : option MetricsInput.t;
    alerts : option AlertsInput.t
  }.
Definition empty : t := mk None None None None None None None.
End SystemMonitorConfig.

(** [{ ...d, x }] for one property: the override when present. *)
Definition spread {A : Type} (d : A) (o : option A) : A :=
  match o with Some v => v | None => d end.

Definition num_of (z : Z) : num := JS.of_Z z.

Definition defaultConfig : Config.t :=
  let th w c e := Thresholds.mk (Some (num_of w)) (Some (num_of c)) (Some (num_of e)) in
  Config.mk (num_of 5000) true false "info" "development"
    (MetricsConfig.mk
       (MetricConfig.mk true (num_of 5000) (th 70 85 95) (num_of 7))
       (MetricConfig.mk true (num_of 5000) (th 80 90 95) (num_of 7))
       (MetricConfig.mk true (num_of 10000) (th 80 90 95) (num_of 7))
       (MetricConfig.mk true (num_of 5000) (th 1000 2000 5000) (num_of 7)))
    (AlertsConfig.mk true "5m" (num_of 20) true).

(** [{ ...defaultConfig.metrics.f, ...config.metrics?.f }] *)
Definition mergeMetric (d : MetricConfig.t) (o : option MetricInput.t) : MetricConfig.t :=
  match o with
  | None => d
  | Some c =>
      MetricConfig.mk
        (spread (MetricConfig.enabled d) (MetricInput.enabled c))
        (spread (MetricConfig.interval d) (MetricInput.interval c))
        (spread (MetricConfig.thresholds d) (MetricInput.thresholds c))
        (spread (MetricConfig.retention d) (MetricInput.retention c))
  end.

Definition mergeDefaultConfig (config : SystemMonitorConfig.t) : Config.t :=
  let d := defaultConfig in
  let dm := Config.metrics d in
  let da := Config.alerts d in
  let family (get : MetricsInput.t -> option MetricInput.t) : option MetricInput.t :=
    match SystemMonitorConfig.metrics config with
    | Some m => get m
    | None => None
    end in
  Config.mk
    (spread (Config.interval d) (SystemMonitorConfig.interval config))
    (spread (Config.enabled d) (SystemMonitorConfig.enabled config))
    (spread (Config.debug d) (SystemMonitorConfig.debug config))
    (spread (Config.logLevel d) (SystemMonitorConfig.logLevel config))
    (spread (Config.environment d) (SystemMonitorConfig.environment config))
    (MetricsConfig.mk
       (mergeMetric (MetricsConfig.cpu dm) (family MetricsInput.cpu))
       (mergeMetric (MetricsConfig.memory dm) (family MetricsInput.memory))
       (mergeMetric (MetricsConfig.disk dm) (family MetricsInput.disk))
       (mergeMetric (MetricsConfig.network dm) (family MetricsInput.network)))
    (match SystemMonitorConfig.alerts config with
     | None => da
     | Some a =>
         AlertsConfig.mk
           (spread (AlertsConfig.enabled da) (AlertsInput.enabled a))
           (spread (AlertsConfig.cooldownPeriod da) (AlertsInput.cooldownPeriod a))
           (spread (AlertsConfig.maxAlertsPerHour da) (AlertsInput.maxAlertsPerHour a))
           (spread (AlertsConfig.escalationEnabled da) (AlertsInput.escalationEnabled a))
     end).

(** The held configuration read back as a caller's object, as
    [{ ...this.config, ...newConfig }] does in [updateConfig]. *)
Definition metricAsInput (c : MetricConfig.t) : MetricInput.t :=
  MetricInput.mk (Some (MetricConfig.enabled c)) (Some (MetricConfig.interval c))
    (Some (MetricConfig.thresholds c)) (Some (MetricConfig.retention c)).

Definition metricsAsInput (m : MetricsConfig.t) : MetricsInput.t :=
  MetricsInput.mk
    (Some (metricAsInput (MetricsConfig.cpu m)))
    (Some (metricAsInput (MetricsConfig.memory m)))
    (Some (metricAsInput (MetricsConfig.disk m)))
    (Some (metricAsInput (MetricsConfig.network m))).

Definition alertsAsInput (a : AlertsConfig.t) : AlertsInput.t :=
  AlertsInput.mk (Some (AlertsConfig.enabled a)) (Some (AlertsConfig.cooldownPeriod a))
    (Some (AlertsConfig.maxAlertsPerHour a)) (Some (AlertsConfig.escalationEnabled a)).

Definition overlay {A : Type} (old : A) (new : option A) : option A :=
  match new with Some v => Some v | None => Some old end.

Definition spreadConfig (c : Config.t) (n : SystemMonitorConfig.t) : SystemMonitorConfig.t :=
  SystemMonitorConfig.mk
    (overlay (Config.interval c) (SystemMonitorConfig.interval n))
    (overlay (Config.enabled c) (SystemMonitorConfig.enabled n))
    (overlay (Config.debug c) (SystemMonitorConfig.debug n))
    (overlay (Config.logLevel c) (SystemMonitorConfig.logLevel n))
    (overlay (Config.environment c) (SystemMonitorConfig.environment n))
    (overlay (metricsAsInput (Config.metrics c)) (SystemMonitorConfig.metrics n))
    (overlay (alertsAsInput (Config.alerts c)) (SystemMonitorConfig.alerts n)).

(** ** Snapshots, alerts and reports *)

Module Cpu.
Record t : Type := mk {
    usage : num;
    cores : nat;
    temperature : option num;
    loadAverage : option (list num)
  }.
Definition zero : t := mk (num_of 0) 0%nat None None.
End Cpu.

Module Swap.
Record t : Type := mk { total : num; used : num; free : num }.
End Swap.

Module Memory.
Record t : Type := mk {
    usage : num;
    total : num;
    used : num;
    free : num;
    available : num;
    swap : option Swap.t
  }.
Definition zero : t := mk (num_of 0) (num_of 0) (num_of 0) (num_of 0) (num_of 0) None.
End Memory.

Module Device.
Record t : Type := mk {
    name : string;
    usage : num;
    total : num;
    used : num;
    free : num
  }.
End Device.

Module Disk.
Record t : Type := mk {
    usage : num;
    total : num;
    used : num;
    free : num;
    devices : list Device.t
  }.
Definition zero : t := mk (num_of 0) (num_of 0) (num_of 0) (num_of 0) [].
End Disk.

Module Iface.
Record t : Type := mk {
    name : string;
    bytesReceived : num;
    bytesSent : num;
    packetsReceived : num;
    packetsSent : num
  }.
End Iface.

Module Network.
Record t : Type := mk { interfaces : list Iface.t }.
Definition zero : t := mk [].
End Network.

Module SystemMetrics.
Record t : Type := mk {
    timestamp : Z;
    cpu : Cpu.t;
    memory : Memory.t;
    disk : Disk.t;
    network : Network.t
  }.
End SystemMetrics.

(** The template string [`${metric}-${Date.now()}-${random}`], kept in parts. *)
Module AlertId.
Record t : Type := mk { metric : string; time : Z; suffix : string }.
End AlertId.

(** The template string [`${text}: ${shown}%`], kept in parts. *)
Module Message.
Record t : Type := mk { text : string; shown : num }.
End Message.

Module Alert.
Record t : Type := mk {
    id : AlertId.t;
    timestamp : Z;
    severity : Severity.t;
    metric : string;
    value : num;
    threshold : num;
    message : Message.t;
    resolved : bool
  }.
End Alert.

Module Health.
Inductive t : Type := healthy | degraded | unhealthy.

Definition eqb (a b : t) : bool :=
    match a, b with
    | healthy, healthy | degraded, degraded | unhealthy, unhealthy => true
    | _, _ => false
    end.
End Health.

Module Trend.
Inductive t : Type := increasing | decreasing | stable.
End Trend.

Module Components.
Record t : Type := mk {
    systemMonitor : Health.t;
    cpu : Health.t;
    memory : Health.t;
    disk : Health.t;
    network : Health.t
  }.
  (** [Object.values(components)] *)
Definition values (c : t) : list Health.t :=
    [systemMonitor c; cpu c; memory c; disk c; network c].
End Components.

Module HealthMetrics.
Record t : Type := mk {
    uptime : Z;
    metricsCollected : nat;
    alertsGenerated : nat;
    lastMetricTime : option Z
  }.
End HealthMetrics.

Module HealthStatus.
Record t : Type := mk {
    status : Health.t;
    components : Components.t;
    metrics : HealthMetrics.t;
    timestamp : Z
  }.
End HealthStatus.

Module SystemStatus.
Record t : Type := mk {
    isRunning : bool;
    uptime : Z;
    startTime : Z;
    config : Config.t;
    metricsCount : nat;
    alertsCount : nat;
    lastMetricTime : option Z
  }.
End SystemStatus.

Module Summary.
Record t : Type := mk {
    overallHealth : Health.t;
    score : num;
    keyIssues : list string;
    recommendations : list string
  }.
End Summary.

Module Trends.
Record t : Type := mk { cpu : Trend.t; memory : Trend.t; disk : Trend.t }.
End Trends.

Module Averages.
Record t : Type := mk { cpu : num; memory : num; disk : num }.
End Averages.

Module Analysis.
Record t : Type := mk {
    summary : Summary.t;
    trends : Trends.t;
    averages : Averages.t
  }.
End Analysis.

(** ** The metric provider and the outside world *)

Inductive Result (A : Type) : Type :=
| Ok (v : A)
| Err (cause : string).
Arguments Ok {A} v.
Arguments Err {A} cause.

Module CurrentLoad.
  (** [cpus] is kept as its length, the only use the monitor makes of it. *)
Record t : Type := mk { currentLoad : num; cpus : nat; loadavg : option (list num) }.
End CurrentLoad.

Module CpuSpeed.
Record t : Type := mk { avg : num }.
End CpuSpeed.

Module CpuTemperature.
Record t : Type := mk { main : option num }.
End CpuTemperature.

Module Mem.
Record t : Type := mk { total : num; used : num; free : num; available : num }.
End Mem.

Module FsSize.
Record t : Type := mk { mount : string; size : num; used : num; available : num }.
End FsSize.

Module NetStats.
Record t : Type := mk {
    iface : string;
    rx_bytes : option num;
    tx_bytes : option num;
    rx_sec : option num;
    tx_sec : option num
  }.
End NetStats.

(** The outcome of each [systeminformation] call made during one operation.
    The calls of [getCpuMetrics] run concurrently under [Promise.all], so when
    both [currentLoad()] and [cpuCurrentSpeed()] reject, the provider also
    decides which rejection settles first. *)
Module Provider.
Record t : Type := mk {
    currentLoad : Result CurrentLoad.t;
    cpuCurrentSpeed : Result CpuSpeed.t;
    cpuTemperature : Result CpuTemperature.t;
    mem : Result Mem.t;
    fsSize : Result (list FsSize.t);
    networkStats : Result (list NetStats.t);
    cpuSpeedRejectsFirst : bool
  }.
End Provider.

Module Event.
Inductive t : Type :=
  | started
  | stopped
  | metrics (m : SystemMetrics.t)
  | metricsCollected (m : SystemMetrics.t)
  | alert (a : Alert.t)
  | error (message : string)
  | configUpdated (c : Config.t)
  | console_log (line : string).
End Event.

Module World.
Record t : Type := mk {
    clock : nat -> Z;          (* the successive readings of Date.now() *)
    clockReads : nat;
    entropy : nat -> string;   (* the successive Math.random() suffixes *)
    entropyReads : nat;
    nextTimer : nat;
    timers : list nat;         (* the interval timers currently armed *)
    log : list Event.t         (* oldest first *)
  }.
End World.

Definition M (A : Type) : Type := World.t -> A * World.t.

Definition ret {A : Type} (a : A) : M A := fun w => (a, w).

Definition bind {A B : Type} (m : M A) (f : A -> M B) : M B :=
  fun w => let (a, w') := m w in f a w'.

Notation "x <- m ;; k" := (bind m (fun x => k))
  (at level 61, m at next level, right associativity).
Notation "m ;;; k" := (bind m (fun _ => k))
  (at level 61, right associativity).

Definition Date_now : M Z :=
  fun w =>
    (World.clock w (World.clockReads w),
     World.mk (World.clock w) (S (World.clockReads w)) (World.entropy w)
       (World.entropyReads w) (World.nextTimer w) (World.timers w) (World.log w)).

(** [Math.random().toString(36).substr(2, 9)] *)
Definition Math_random_suffix : M string :=
  fun w =>
    (World.entropy w (World.entropyReads w),
     World.mk (World.clock w) (World.clockReads w) (World.entropy w)
       (S (World.entropyReads w)) (World.nextTimer w) (World.timers w) (World.log w)).

(** [this.emit(...)] of an event that is heard: the event joins the log
    and the call returns.  The emission of ['error'] that no listener hears
    is [Emitter.emitError] below. *)
Definition emit (e : Event.t) : M unit :=
  fun w =>
    (tt,
     World.mk (World.clock w) (World.clockReads w) (World.entropy w)
       (World.entropyReads w) (World.nextTimer w) (World.timers w)
       (World.log w ++ [e])).

Definition setInterval : M nat :=
  fun w =>
    (World.nextTimer w,
     World.mk (World.clock w) (World.clockReads w) (World.entropy w)
       (World.entropyReads w) (S (World.nextTimer w))
       (World.nextTimer w :: World.timers w) (World.log w)).

Definition clearInterval (id : nat) : M unit :=
  fun w =>
    (tt,
     World.mk (World.clock w) (World.clockReads w) (World.entropy w)
       (World.entropyReads w) (World.nextTimer w)
       (filter (fun t => negb (Nat.eqb t id)) (World.timers w)) (World.log w)).

Definition when (b : bool) (m : M unit) : M unit := if b then m else ret tt.

(** ** The monitor *)

Module SystemMonitor.
Record t : Type := mk {
    isRunning : bool;
    intervalId : option nat;
    config : Config.t;
    startTime : Z;
    metrics : list SystemMetrics.t;
    alerts : list Alert.t;
    lastNetworkStats : list NetStats.t
  }.
End SystemMonitor.

Definition cfgCpu (s : SystemMonitor.t) : MetricConfig.t :=
  MetricsConfig.cpu (Config.metrics (SystemMonitor.config s)).
Definition cfgMemory (s : SystemMonitor.t) : MetricConfig.t :=
  MetricsConfig.memory (Config.metrics (SystemMonitor.config s)).
Definition cfgDisk (s : SystemMonitor.t) : MetricConfig.t :=
  MetricsConfig.disk (Config.metrics (SystemMonitor.config s)).
Definition cfgNetwork (s : SystemMonitor.t) : MetricConfig.t :=
  MetricsConfig.network (Config.metrics (SystemMonitor.config s)).

(** [new SystemMonitor(config)]; the initial [lastNetworkStats = {}] holds
    no entry. *)
Definition constructor (config : SystemMonitorConfig.t) : SystemMonitor.t :=
  SystemMonitor.mk false None (mergeDefaultConfig config) 0 [] [] [].

(** [await monitor.start()]: the call run to its end. *)
Definition start (p : Provider.t) (s : SystemMonitor.t) : M SystemMonitor.t :=
  if SystemMonitor.isRunning s then ret s
  else
    now <- Date_now ;;
    let lastNetworkStats :=
      if MetricConfig.enabled (cfgNetwork s) then
        match Provider.networkStats p with
        | Ok stats => stats
        | Err _ => []
        end
      else SystemMonitor.lastNetworkStats s in
    id <- setInterval ;;
    when (Config.debug (SystemMonitor.config s))
         (emit (Event.console_log "SystemMonitor started")) ;;;
    emit Event.started ;;;
    ret (SystemMonitor.mk true (Some id) (SystemMonitor.config s) now
           (SystemMonitor.metrics s) (SystemMonitor.alerts s) lastNetworkStats).

(** [start] is an [async] function with one [await], at l.228, reached when
    the network family is enabled.  A caller that does not await [start()]
    gets control back there, with [isRunning] already set and the timer not
    yet armed; the rest of the body runs when the provider call settles, on
    the monitor as it is then.  The two parts are given below; [start] above
    is their composition, the call awaited to its end.  The inner
    [try]/[catch] is the [Err] case of the provider outcome; nothing in the
    body throws under the conventions of this file, so the outer [catch] has
    no case to handle. *)

(** l.234-245: arm the timer, log, signal. *)
Definition start_armTimer (s : SystemMonitor.t) : M SystemMonitor.t :=
  id <- setInterval ;;
  when (Config.debug (SystemMonitor.config s))
       (emit (Event.console_log "SystemMonitor started")) ;;;
  emit Event.started ;;;
  ret (SystemMonitor.mk (SystemMonitor.isRunning s) (Some id) (SystemMonitor.config s)
         (SystemMonitor.startTime s) (SystemMonitor.metrics s) (SystemMonitor.alerts s)
         (SystemMonitor.lastNetworkStats s)).

(** l.219-228, up to the [await]; the flag tells whether the call is
    suspended there.  With the network family disabled there is no [await]
    and the call runs to its end. *)
Definition start_beforeAwait (s : SystemMonitor.t) : M (SystemMonitor.t * bool) :=
  if SystemMonitor.isRunning s then ret (s, false)
  else
    now <- Date_now ;;
    let s1 :=
      SystemMonitor.mk true (SystemMonitor.intervalId s) (SystemMonitor.config s) now
        (SystemMonitor.metrics s) (SystemMonitor.alerts s)
        (SystemMonitor.lastNetworkStats s) in
    if MetricConfig.enabled (cfgNetwork s) then ret (s1, true)
    else s2 <- start_armTimer s1 ;; ret (s2, false).

(** l.228-245, from the settled [networkStats()] on. *)
Definition start_afterAwait (r : Result (list NetStats.t)) (s : SystemMonitor.t)
  : M SystemMonitor.t :=
  start_armTimer
    (SystemMonitor.mk (SystemMonitor.isRunning s) (SystemMonitor.intervalId s)
       (SystemMonitor.config s) (SystemMonitor.startTime s) (SystemMonitor.metrics s)
       (SystemMonitor.alerts s)
       (match r with
        | Ok stats => stats
        | Err _ => []
        end)).

Definition stop (s : SystemMonitor.t) : M SystemMonitor.t :=
  if negb (SystemMonitor.isRunning s) then ret s
  else
    match SystemMonitor.intervalId s with
    | Some id => clearInterval id
    | None => ret tt
    end ;;;
    when (Config.debug (SystemMonitor.config s))
         (emit (Event.console_log "SystemMonitor stopped")) ;;;
    emit Event.stopped ;;;
    ret (SystemMonitor.mk false None (SystemMonitor.config s)
           (SystemMonitor.startTime s) (SystemMonitor.metrics s)
           (SystemMonitor.alerts s) (SystemMonitor.lastNetworkStats s)).

(** *** Collectors *)

(** [Math.round((used / total) * 100)], over exact numbers: the quotient and
    the product are not rounded before [Math.round], so where the exact
    value lies within a rounding error of a half the binary64 run can give
    the neighbouring integer. *)
Definition percent (used total : num) : num :=
  JS.Math_round (JS.mul (JS.div used total) (num_of 100)).

(** [total > 0 ? Math.round((used / total) * 100) : 0] *)
Definition guardedPercent (used total : num) : num :=
  if JS.gt total (num_of 0) then percent used total else num_of 0.

(** [l.reduce((sum, x) => sum + f(x), 0)] *)
Definition reduceSum {A : Type} (f : A -> num) (l : list A) : num :=
  fold_left (fun sum x => JS.add sum (f x)) l (num_of 0).

(** [Promise.all([currentLoad(), cpuCurrentSpeed(), cpuTemperature().catch(() => null)])]:
    a rejection of either of the first two calls rejects the whole, with the
    cause of the rejection that settles first; the third promise never
    rejects. *)
Definition cpuReadings (p : Provider.t)
  : Result (CurrentLoad.t * CpuSpeed.t * option CpuTemperature.t) :=
  match Provider.currentLoad p, Provider.cpuCurrentSpeed p with
  | Ok load, Ok speed =>
      Ok (load, speed,
          match Provider.cpuTemperature p with
          | Ok t => Some t
          | Err _ => None
          end)
  | Err e, Ok _ => Err e
  | Ok _, Err e => Err e
  | Err eLoad, Err eSpeed =>
      Err (if Provider.cpuSpeedRejectsFirst p then eSpeed else eLoad)
  end.

Definition getCpuMetrics (p : Provider.t) (s : SystemMonitor.t) : M Cpu.t :=
  if negb (MetricConfig.enabled (cfgCpu s)) then ret Cpu.zero
  else
    match cpuReadings p with
    | Ok (cpu, _, cpuTemperature) =>
        ret (Cpu.mk
               (JS.Math_round (CurrentLoad.currentLoad cpu))
               (CurrentLoad.cpus cpu)
               (match cpuTemperature with
                | Some t =>
                    match CpuTemperature.main t with
                    | Some v => if JS.truthy v then Some v else None
                    | None => None
                    end
                | None => None
                end)
               (Some (match CurrentLoad.loadavg cpu with
                      | Some l => l
                      | None => []
                      end)))
    | Err error =>
        emit (Event.error ("Failed to get CPU metrics: " ++ error)) ;;;
        ret Cpu.zero
    end.

Definition getMemoryMetrics (p : Provider.t) (s : SystemMonitor.t) : M Memory.t :=
  if negb (MetricConfig.enabled (cfgMemory s)) then ret Memory.zero
  else
    match Provider.mem p with
    | Ok mem =>
        ret (Memory.mk
               (percent (Mem.used mem) (Mem.total mem))
               (Mem.total mem) (Mem.used mem) (Mem.free mem) (Mem.available mem)
               None)
    | Err error =>
        emit (Event.error ("Failed to get memory metrics: " ++ error)) ;;;
        ret Memory.zero
    end.

Definition getDiskMetrics (p : Provider.t) (s : SystemMonitor.t) : M Disk.t :=
  if negb (MetricConfig.enabled (cfgDisk s)) then ret Disk.zero
  else
    match Provider.fsSize p with
    | Ok fsSize =>
        let totalSize := reduceSum FsSize.size fsSize in
        let totalUsed := reduceSum FsSize.used fsSize in
        let totalFree := reduceSum FsSize.available fsSize in
        ret (Disk.mk
               (guardedPercent totalUsed totalSize)
               totalSize totalUsed totalFree
               (map (fun fs =>
                       Device.mk (FsSize.mount fs)
                         (guardedPercent (FsSize.used fs) (FsSize.size fs))
                         (FsSize.size fs) (FsSize.used fs) (FsSize.available fs))
                    fsSize))
    | Err error =>
        emit (Event.error ("Failed to get disk metrics: " ++ error)) ;;;
        ret Disk.zero
    end.

(** [x || 0] on a counter that may be [null]. *)
Definition orZero (o : option num) : num :=
  match o with
  | Some v => JS.or_else v (num_of 0)
  | None => num_of 0
  end.

(** Returns the record together with the monitor, whose [lastNetworkStats]
    is overwritten on success. *)
Definition getNetworkMetrics (p : Provider.t) (s : SystemMonitor.t)
  : M (Network.t * SystemMonitor.t) :=
  if negb (MetricConfig.enabled (cfgNetwork s)) then ret (Network.zero, s)
  else
    match Provider.networkStats p with
    | Ok networkStats =>
        _currentTime <- Date_now ;;
        let interfaces :=
          map (fun iface =>
                 Iface.mk (NetStats.iface iface)
                   (orZero (NetStats.rx_bytes iface))
                   (orZero (NetStats.tx_bytes iface))
                   (orZero (NetStats.rx_sec iface))
                   (orZero (NetStats.tx_sec iface)))
              networkStats in
        ret (Network.mk interfaces,
             SystemMonitor.mk (SystemMonitor.isRunning s) (SystemMonitor.intervalId s)
               (SystemMonitor.config s) (SystemMonitor.startTime s)
               (SystemMonitor.metrics s) (SystemMonitor.alerts s) networkStats)
    | Err error =>
        emit (Event.error ("Failed to get network metrics: " ++ error)) ;;;
        ret (Network.zero, s)
    end.

(** *** Alert evaluation *)

Definition createAlert (metric : string) (value threshold : num)
    (severity : Severity.t) (message : Message.t) : M Alert.t :=
  idTime <- Date_now ;;
  suffix <- Math_random_suffix ;;
  timestamp <- Date_now ;;
  ret (Alert.mk (AlertId.mk metric idTime suffix) timestamp severity metric
         value threshold message false).

(** [usage >= threshold] where the threshold property may be absent: the
    comparison with [undefined] is false.  Returns the threshold reached. *)
Definition reaches (usage : num) (threshold : option num) : option num :=
  match threshold with
  | Some t => if JS.ge usage t then Some t else None
  | None => None
  end.

(** One of the three blocks of [checkAlerts]; [label] is the capitalised
    family name the messages start with. *)
Definition familyAlerts (metric label : string) (cfg : MetricConfig.t) (usage : num)
  : M (list Alert.t) :=
  if MetricConfig.enabled cfg then
    let thresholds := MetricConfig.thresholds cfg in
    match reaches usage (Thresholds.emergency thresholds) with
    | Some t =>
        a <- createAlert metric usage t Severity.emergency
               (Message.mk (label ++ " usage is critically high") usage) ;;
        ret [a]
    | None =>
        match reaches usage (Thresholds.critical thresholds) with
        | Some t =>
            a <- createAlert metric usage t Severity.critical
                   (Message.mk (label ++ " usage is high") usage) ;;
            ret [a]
        | None =>
            match reaches usage (Thresholds.warning thresholds) with
            | Some t =>
                a <- createAlert metric usage t Severity.warning
                       (Message.mk (label ++ " usage is elevated") usage) ;;
                ret [a]
            | None => ret []
            end
        end
    end
  else ret [].

(** The local array [alerts] that [checkAlerts] fills. *)
Definition evaluate (metrics : SystemMetrics.t) (s : SystemMonitor.t) : M (list Alert.t) :=
  cpuAlerts <- familyAlerts "cpu" "CPU" (cfgCpu s)
                 (Cpu.usage (SystemMetrics.cpu metrics)) ;;
  memoryAlerts <- familyAlerts "memory" "Memory" (cfgMemory s)
                    (Memory.usage (SystemMetrics.memory metrics)) ;;
  diskAlerts <- familyAlerts "disk" "Disk" (cfgDisk s)
                  (Disk.usage (SystemMetrics.disk metrics)) ;;
  ret (cpuAlerts ++ memoryAlerts ++ diskAlerts).

Definition pushAlert (a : Alert.t) (s : SystemMonitor.t) : SystemMonitor.t :=
  SystemMonitor.mk (SystemMonitor.isRunning s) (SystemMonitor.intervalId s)
    (SystemMonitor.config s) (SystemMonitor.startTime s) (SystemMonitor.metrics s)
    (SystemMonitor.alerts s ++ [a]) (SystemMonitor.lastNetworkStats s).

(** [for (const alert of alerts) { this.alerts.push(alert); this.emit('alert', alert); }] *)
Fixpoint publishAlerts (alerts : list Alert.t) (s : SystemMonitor.t) : M SystemMonitor.t :=
  match alerts with
  | [] => ret s
  | a :: rest => emit (Event.alert a) ;;; publishAlerts rest (pushAlert a s)
  end.

Definition checkAlerts (metrics : SystemMetrics.t) (s : SystemMonitor.t) : M SystemMonitor.t :=
  alerts <- evaluate metrics s ;;
  publishAlerts alerts s.

(** *** Retention *)

Definition Math_max4 (a b c d : num) : num :=
  JS.Math_max (JS.Math_max (JS.Math_max a b) c) d.

(** [retention || 7] *)
Definition effectiveRetention (cfg : MetricConfig.t) : num :=
  JS.or_else (MetricConfig.retention cfg) (num_of 7).

Definition maxRetention (s : SystemMonitor.t) : num :=
  Math_max4 (effectiveRetention (cfgCpu s)) (effectiveRetention (cfgMemory s))
    (effectiveRetention (cfgDisk s)) (effectiveRetention (cfgNetwork s)).

(** [days * 24 * 60 * 60 * 1000] *)
Definition daysToMs (days : num) : num :=
  JS.mul (JS.mul (JS.mul (JS.mul days (num_of 24)) (num_of 60)) (num_of 60)) (num_of 1000).

Definition cutoffTime (now : Z) (s : SystemMonitor.t) : num :=
  JS.sub (num_of now) (daysToMs (maxRetention s)).

Definition alertCutoffTime (now : Z) : Z := now - 30 * 24 * 60 * 60 * 1000.

Definition keepMetric (cutoff : num) (m : SystemMetrics.t) : bool :=
  JS.gt (num_of (SystemMetrics.timestamp m)) cutoff.

Definition keepAlert (cutoff : Z) (a : Alert.t) : bool :=
  cutoff <? Alert.timestamp a.

(** The sweep for given clock readings: [now1] for the snapshots, [now2]
    for the alerts. *)
Definition cleanupAt (now1 now2 : Z) (s : SystemMonitor.t) : SystemMonitor.t :=
  SystemMonitor.mk (SystemMonitor.isRunning s) (SystemMonitor.intervalId s)
    (SystemMonitor.config s) (SystemMonitor.startTime s)
    (filter (keepMetric (cutoffTime now1 s)) (SystemMonitor.metrics s))
    (filter (keepAlert (alertCutoffTime now2)) (SystemMonitor.alerts s))
    (SystemMonitor.lastNetworkStats s).

Definition cleanupOldMetrics (s : SystemMonitor.t) : M SystemMonitor.t :=
  now1 <- Date_now ;;
  now2 <- Date_now ;;
  ret (cleanupAt now1 now2 s).

(** *** One tick

    A tick is taken as a whole: no other call is interleaved with its
    provider calls.  On a monitor whose ['error'] events are heard no step of
    the body throws, so the enclosing [try]/[catch] has no case to handle;
    [Emitter.collectMetrics] below has the [catch]. *)

Definition pushMetrics (m : SystemMetrics.t) (s : SystemMonitor.t) : SystemMonitor.t :=
  SystemMonitor.mk (SystemMonitor.isRunning s) (SystemMonitor.intervalId s)
    (SystemMonitor.config s) (SystemMonitor.startTime s)
    (SystemMonitor.metrics s ++ [m]) (SystemMonitor.alerts s)
    (SystemMonitor.lastNetworkStats s).

Definition collectMetrics (p : Provider.t) (s : SystemMonitor.t) : M SystemMonitor.t :=
  if negb (SystemMonitor.isRunning s) then ret s
  else
    timestamp <- Date_now ;;
    cpu <- getCpuMetrics p s ;;
    memory <- getMemoryMetrics p s ;;
    disk <- getDiskMetrics p s ;;
    ns <- getNetworkMetrics p s ;;
    let metrics := SystemMetrics.mk timestamp cpu memory disk (fst ns) in
    s1 <- cleanupOldMetrics (pushMetrics metrics (snd ns)) ;;
    s2 <- (if AlertsConfig.enabled (Config.alerts (SystemMonitor.config s1))
           then checkAlerts metrics s1 else ret s1) ;;
    emit (Event.metrics metrics) ;;;
    emit (Event.metricsCollected metrics) ;;;
    ret s2.

(** *** The tick and the ['error'] listener

    [emit('error', e)] on a Node [EventEmitter] with no listener registered
    for ['error'] does not return: it throws [e].  [emit] above is the
    emission that is heard; the module below runs the tick for either case.
    The monitor is threaded as state, so that an exception leaves it as the
    assignments made so far have left it.  With a listener the tick is
    [collectMetrics] above. *)

Module Outcome.
Inductive t (A : Type) : Type :=
| returned (a : A)
| thrown (error : string).
Arguments returned {A} a.
Arguments thrown {A} error.
End Outcome.

Module Emitter.

Definition T (A : Type) : Type :=
  SystemMonitor.t * World.t -> Outcome.t A * (SystemMonitor.t * World.t).

Definition retT {A : Type} (a : A) : T A := fun st => (Outcome.returned a, st).

Definition bindT {A B : Type} (m : T A) (f : A -> T B) : T B :=
  fun st =>
    match m st with
    | (Outcome.returned a, st') => f a st'
    | (Outcome.thrown e, st') => (Outcome.thrown e, st')
    end.

Definition throw {A : Type} (error : string) : T A := fun st => (Outcome.thrown error, st).

(** [try { body } catch (error) { handler }] *)
Definition tryCatch {A : Type} (body : T A) (handler : string -> T A) : T A :=
  fun st =>
    match body st with
    | (Outcome.returned a, st') => (Outcome.returned a, st')
    | (Outcome.thrown e, st') => handler e st'
    end.

(** A step on the world alone. *)
Definition lift {A : Type} (m : M A) : T A :=
  fun st => let (a, w') := m (snd st) in (Outcome.returned a, (fst st, w')).

(** [this] *)
Definition this : T SystemMonitor.t := fun st => (Outcome.returned (fst st), st).

Definition assign (s : SystemMonitor.t) : T unit :=
  fun st => (Outcome.returned tt, (s, snd st)).

(** A method of the model above, run on [this]. *)
Definition method (f : SystemMonitor.t -> M SystemMonitor.t) : T unit :=
  fun st => let (s', w') := f (fst st) (snd st) in (Outcome.returned tt, (s', w')).

(** [this.emit('error', new Error(message))] *)
Definition emitError (listening : bool) (message : string) : T unit :=
  if listening then lift (emit (Event.error message)) else throw message.

Notation "x <~ m ;; k" := (bindT m (fun x => k))
  (at level 61, m at next level, right associativity).
Notation "m ;;~ k" := (bindT m (fun _ => k))
  (at level 61, right associativity).

Definition getCpuMetrics (listening : bool) (p : Provider.t) : T Cpu.t :=
  s <~ this ;;
  if negb (MetricConfig.enabled (cfgCpu s)) then retT Cpu.zero
  else
    match cpuReadings p with
    | Ok (cpu, _, cpuTemperature) =>
        retT (Cpu.mk
                (JS.Math_round (CurrentLoad.currentLoad cpu))
                (CurrentLoad.cpus cpu)
                (match cpuTemperature with
                 | Some t =>
                     match CpuTemperature.main t with
                     | Some v => if JS.truthy v then Some v else None
                     | None => None
                     end
                 | None => None
                 end)
                (Some (match CurrentLoad.loadavg cpu with
                       | Some l => l
                       | None => []
                       end)))
    | Err error =>
        emitError listening ("Failed to get CPU metrics: " ++ error) ;;~
        retT Cpu.zero
    end.

Definition getMemoryMetrics (listening : bool) (p : Provider.t) : T Memory.t :=
  s <~ this ;;
  if negb (MetricConfig.enabled (cfgMemory s)) then retT Memory.zero
  else
    match Provider.mem p with
    | Ok mem =>
        retT (Memory.mk
                (percent (Mem.used mem) (Mem.total mem))
                (Mem.total mem) (Mem.used mem) (Mem.free mem) (Mem.available mem)
                None)
    | Err error =>
        emitError listening ("Failed to get memory metrics: " ++ error) ;;~
        retT Memory.zero
    end.

Definition getDiskMetrics (listening : bool) (p : Provider.t) : T Disk.t :=
  s <~ this ;;
  if negb (MetricConfig.enabled (cfgDisk s)) then retT Disk.zero
  else
    match Provider.fsSize p with
    | Ok fsSize =>
        let totalSize := reduceSum FsSize.size fsSize in
        let totalUsed := reduceSum FsSize.used fsSize in
        let totalFree := reduceSum FsSize.available fsSize in
        retT (Disk.mk
                (guardedPercent totalUsed totalSize)
                totalSize totalUsed totalFree
                (map (fun fs =>
                        Device.mk (FsSize.mount fs)
                          (guardedPercent (FsSize.used fs) (FsSize.size fs))
                          (FsSize.size fs) (FsSize.used fs) (FsSize.available fs))
                     fsSize))
    | Err error =>
        emitError listening ("Failed to get disk metrics: " ++ error) ;;~
        retT Disk.zero
    end.

Definition getNetworkMetrics (listening : bool) (p : Provider.t) : T Network.t :=
  s <~ this ;;
  if negb (MetricConfig.enabled (cfgNetwork s)) then retT Network.zero
  else
    match Provider.networkStats p with
    | Ok networkStats =>
        _currentTime <~ lift Date_now ;;
        let interfaces :=
          map (fun iface =>
                 Iface.mk (NetStats.iface iface)
                   (orZero (NetStats.rx_bytes iface))
                   (orZero (NetStats.tx_bytes iface))
                   (orZero (NetStats.rx_sec iface))
                   (orZero (NetStats.tx_sec iface)))
              networkStats in
        assign (SystemMonitor.mk (SystemMonitor.isRunning s) (SystemMonitor.intervalId s)
                  (SystemMonitor.config s) (SystemMonitor.startTime s)
                  (SystemMonitor.metrics s) (SystemMonitor.alerts s) networkStats) ;;~
        retT (Network.mk interfaces)
    | Err error =>
        emitError listening ("Failed to get network metrics: " ++ error) ;;~
        retT Network.zero
    end.

(** l.268-294 *)
Definition collectMetrics (listening : bool) (p : Provider.t) : T unit :=
  s <~ this ;;
  if negb (SystemMonitor.isRunning s) then retT tt
  else
    tryCatch
      (timestamp <~ lift Date_now ;;
       cpu <~ getCpuMetrics listening p ;;
       memory <~ getMemoryMetrics listening p ;;
       disk <~ getDiskMetrics listening p ;;
       network <~ getNetworkMetrics listening p ;;
       let metrics := SystemMetrics.mk timestamp cpu memory disk network in
       method (fun s0 => ret (pushMetrics metrics s0)) ;;~
       method cleanupOldMetrics ;;~
       s1 <~ this ;;
       (if AlertsConfig.enabled (Config.alerts (SystemMonitor.config s1))
        then method (checkAlerts metrics) else retT tt) ;;~
       lift (emit (Event.metrics metrics)) ;;~
       lift (emit (Event.metricsCollected metrics)))
      (fun error => emitError listening error).

(** The timer callback of l.234-240; an exception it lets through is an
    unhandled rejection. *)
Definition onInterval (listening : bool) (p : Provider.t) : T unit :=
  tryCatch (collectMetrics listening p) (fun error => emitError listening error).

End Emitter.

(** *** Queries *)

Module TimeRange.
Record t : Type := mk { from : num; to : num }.
End TimeRange.

Definition inRange (r : TimeRange.t) (m : SystemMetrics.t) : bool :=
  JS.ge (num_of (SystemMetrics.timestamp m)) (TimeRange.from r)
  && JS.le (num_of (SystemMetrics.timestamp m)) (TimeRange.to r).

Definition getMetrics (timeRange : option TimeRange.t) (s : SystemMonitor.t)
  : list SystemMetrics.t :=
  match timeRange with
  | None => SystemMonitor.metrics s
  | Some r => filter (inRange r) (SystemMonitor.metrics s)
  end.

Definition getAlerts (s : SystemMonitor.t) : list Alert.t := SystemMonitor.alerts s.

Definition getStatus (s : SystemMonitor.t) : M SystemStatus.t :=
  uptime <- (if SystemMonitor.isRunning s
             then now <- Date_now ;; ret (now - SystemMonitor.startTime s)
             else ret 0) ;;
  ret (SystemStatus.mk (SystemMonitor.isRunning s) uptime (SystemMonitor.startTime s)
         (SystemMonitor.config s)
         (List.length (SystemMonitor.metrics s))
         (List.length (SystemMonitor.alerts s))
         (match SystemMonitor.metrics s with
          | [] => None
          | _ =>
              option_map SystemMetrics.timestamp
                (nth_error (SystemMonitor.metrics s)
                   (List.length (SystemMonitor.metrics s) - 1))
          end)).

(** *** Analysis *)

(** [l.reduce((sum, m) => sum + f(m), 0) / l.length] *)
Definition average {A : Type} (f : A -> num) (l : list A) : num :=
  JS.div (reduceSum f l) (JS.of_nat (List.length l)).

Definition cpuUsage (m : SystemMetrics.t) : num := Cpu.usage (SystemMetrics.cpu m).
Definition memoryUsage (m : SystemMetrics.t) : num := Memory.usage (SystemMetrics.memory m).
Definition diskUsage (m : SystemMetrics.t) : num := Disk.usage (SystemMetrics.disk m).

(** [this.metrics.slice(-5)] *)
Definition healthWindow (s : SystemMonitor.t) : list SystemMetrics.t :=
  JS.slice (-5) None (SystemMonitor.metrics s).

(** [this.metrics.slice(-10)] *)
Definition trendWindow (s : SystemMonitor.t) : list SystemMetrics.t :=
  JS.slice (-10) None (SystemMonitor.metrics s).

Definition calculateOverallHealth (s : SystemMonitor.t) : Health.t :=
  let recentMetrics := healthWindow s in
  match recentMetrics with
  | [] => Health.healthy
  | _ =>
      let avgCpu := average cpuUsage recentMetrics in
      let avgMemory := average memoryUsage recentMetrics in
      let avgDisk := average diskUsage recentMetrics in
      if JS.ge avgCpu (num_of 90) || JS.ge avgMemory (num_of 95) || JS.ge avgDisk (num_of 95)
      then Health.unhealthy
      else if JS.ge avgCpu (num_of 80) || JS.ge avgMemory (num_of 85) || JS.ge avgDisk (num_of 85)
      then Health.degraded
      else Health.healthy
  end.

(** [Math.max(0, 100 - avg)] *)
Definition familyScore (avg : num) : num :=
  JS.Math_max (num_of 0) (JS.sub (num_of 100) avg).

Definition calculateHealthScore (s : SystemMonitor.t) : num :=
  let recentMetrics := healthWindow s in
  match recentMetrics with
  | [] => num_of 100
  | _ =>
      let avgCpu := average cpuUsage recentMetrics in
      let avgMemory := average memoryUsage recentMetrics in
      let avgDisk := average diskUsage recentMetrics in
      let cpuScore := familyScore avgCpu in
      let memoryScore := familyScore avgMemory in
      let diskScore := familyScore avgDisk in
      JS.Math_round (JS.div (JS.add (JS.add cpuScore memoryScore) diskScore) (num_of 3))
  end.

(** The shared shape of [identifyKeyIssues] and [generateRecommendations]:
    one text per family whose window average reaches 80 / 85 / 85. *)
Definition perFamilyTexts (cpuText memoryText diskText : string) (s : SystemMonitor.t)
  : list string :=
  let recentMetrics := healthWindow s in
  match recentMetrics with
  | [] => []
  | _ =>
      (if JS.ge (average cpuUsage recentMetrics) (num_of 80) then [cpuText] else [])
      ++ (if JS.ge (average memoryUsage recentMetrics) (num_of 85) then [memoryText] else [])
      ++ (if JS.ge (average diskUsage recentMetrics) (num_of 85) then [diskText] else [])
  end.

Definition identifyKeyIssues : SystemMonitor.t -> list string :=
  perFamilyTexts "High CPU usage detected" "High memory usage detected"
    "High disk usage detected".

Definition generateRecommendations : SystemMonitor.t -> list string :=
  perFamilyTexts "Consider optimizing CPU-intensive processes"
    "Consider increasing memory or optimizing memory usage"
    "Consider cleaning up disk space or expanding storage".

(** [Math.floor(values.length / 2)] *)
Definition halfLength (values : list num) : Z := Z.of_nat (List.length values) / 2.

(** [xs.reduce((a, b) => a + b, 0) / xs.length] *)
Definition mean (xs : list num) : num := average (fun x => x) xs.

(** l.597-609 over exact numbers. *)
Definition calculateTrend (values : list num) : Trend.t :=
  if (List.length values <? 2)%nat then Trend.stable
  else
    let firstHalf := JS.slice 0 (Some (halfLength values)) values in
    let secondHalf := JS.slice (halfLength values) None values in
    let firstAvg := mean firstHalf in
    let secondAvg := mean secondHalf in
    let diff := JS.sub secondAvg firstAvg in
    if JS.lt (JS.Math_abs diff) (num_of 5) then Trend.stable
    else if JS.gt diff (num_of 0) then Trend.increasing else Trend.decreasing.

(** *** The trend as it runs: binary64

    The verdict of [calculateTrend] is read off the computed difference of
    two computed means, so it depends on how each operation rounds.  The
    module below runs l.597-609 on IEEE 754 binary64 values, with the
    Standard Library's executable specification of the format ([prec = 53],
    [emax = 1024], rounding to nearest, ties to even); this is the function
    [getAnalysis] calls.  A number stored in a snapshot enters it as the
    double nearest to it, which is the number itself for every integer below
    2^53 in magnitude, hence for every usage [Math.round] has produced. *)

Module Double.

Definition t : Type := spec_float.

Definition prec : Z := 53.
Definition emax : Z := 1024.

Definition of_Z (z : Z) : t := binary_normalize prec emax z 0 false.
Definition of_nat (n : nat) : t := of_Z (Z.of_nat n).

(** The double nearest to [n / d], by the division of the format. *)
Definition nearest (negative : bool) (n d : positive) : t :=
  let '(m, e, l) := SFdiv_core_binary prec emax (Zpos n) 0 (Zpos d) 0 in
  binary_round_aux prec emax negative m e l.

Definition of_Q (q : Q) : t :=
  match Qden q with
  | xH => of_Z (Qnum q)
  | d =>
      match Qnum q with
      | Z0 => S754_zero false
      | Zpos n => nearest false n d
      | Zneg n => nearest true n d
      end
  end.

Definition of_num (a : num) : t :=
  match a with
  | JS.Fin q => of_Q q
  | JS.PInf => S754_infinity false
  | JS.NInf => S754_infinity true
  | JS.NaN => S754_nan
  end.

Definition add (a b : t) : t := SFadd prec emax a b.
Definition sub (a b : t) : t := SFsub prec emax a b.
Definition div (a b : t) : t := SFdiv prec emax a b.

(** [a < b] and [a > b]: false as soon as an operand is NaN. *)
Definition lt (a b : t) : bool := SFltb a b.
Definition gt (a b : t) : bool := SFltb b a.

Definition Math_abs (a : t) : t := SFabs a.

(** [Math.floor(values.length / 2)] *)
Definition halfLength (values : list t) : Z := Z.of_nat (List.length values) / 2.

(** [xs.reduce((a, b) => a + b, 0)] *)
Definition sum (xs : list t) : t := fold_left add xs (of_Z 0).

(** [xs.reduce((a, b) => a + b, 0) / xs.length] *)
Definition mean (xs : list t) : t := div (sum xs) (of_nat (List.length xs)).

Definition calculateTrend (values : list t) : Trend.t :=
  if (List.length values <? 2)%nat then Trend.stable
  else
    let firstHalf := JS.slice 0 (Some (halfLength values)) values in
    let secondHalf := JS.slice (halfLength values) None values in
    let firstAvg := mean firstHalf in
    let secondAvg := mean secondHalf in
    let diff := sub secondAvg firstAvg in
    if lt (Math_abs diff) (of_Z 5) then Trend.stable
    else if gt diff (of_Z 0) then Trend.increasing else Trend.decreasing.

End Double.

(** [null] is [None]. *)
Definition getAnalysis (s : SystemMonitor.t) : option Analysis.t :=
  match SystemMonitor.metrics s with
  | [] => None
  | _ =>
      let recentMetrics := trendWindow s in
      let cpuValues := map cpuUsage recentMetrics in
      let memoryValues := map memoryUsage recentMetrics in
      let diskValues := map diskUsage recentMetrics in
      Some (Analysis.mk
              (Summary.mk (calculateOverallHealth s) (calculateHealthScore s)
                 (identifyKeyIssues s) (generateRecommendations s))
              (Trends.mk (Double.calculateTrend (map Double.of_num cpuValues))
                 (Double.calculateTrend (map Double.of_num memoryValues))
                 (Double.calculateTrend (map Double.of_num diskValues)))
              (Averages.mk (mean cpuValues) (mean memoryValues) (mean diskValues)))
  end.

Definition updateConfig (newConfig : SystemMonitorConfig.t) (s : SystemMonitor.t)
  : M SystemMonitor.t :=
  let config := mergeDefaultConfig (spreadConfig (SystemMonitor.config s) newConfig) in
  emit (Event.configUpdated config) ;;;
  ret (SystemMonitor.mk (SystemMonitor.isRunning s) (SystemMonitor.intervalId s)
         config (SystemMonitor.startTime s) (SystemMonitor.metrics s)
         (SystemMonitor.alerts s) (SystemMonitor.lastNetworkStats s)).

(** *** Health check *)

(** [if (usage >= hi) c = 'unhealthy'; else if (usage >= lo) c = 'degraded';]
    over the initial ['healthy']. *)
Definition grade (usage : num) (hi lo : Z) : Health.t :=
  if JS.ge usage (num_of hi) then Health.unhealthy
  else if JS.ge usage (num_of lo) then Health.degraded
  else Health.healthy.

(** [componentHealths.includes(h)] *)
Definition includes (h : Health.t) (l : list Health.t) : bool :=
  existsb (Health.eqb h) l.

Definition healthCheck (s : SystemMonitor.t) : M HealthStatus.t :=
  let recentMetrics := JS.slice (-1) None (SystemMonitor.metrics s) in
  let lastMetric := hd_error recentMetrics in
  uptime <- (if SystemMonitor.isRunning s
             then now <- Date_now ;; ret (now - SystemMonitor.startTime s)
             else ret 0) ;;
  timestamp <- Date_now ;;
  let systemMonitor :=
    if SystemMonitor.isRunning s then Health.healthy else Health.unhealthy in
  let figures :=
    HealthMetrics.mk uptime (List.length (SystemMonitor.metrics s))
      (List.length (SystemMonitor.alerts s))
      (option_map SystemMetrics.timestamp lastMetric) in
  match lastMetric with
  | None =>
      ret (HealthStatus.mk Health.healthy
             (Components.mk systemMonitor Health.healthy Health.healthy
                Health.healthy Health.healthy)
             figures timestamp)
  | Some m =>
      let components :=
        Components.mk systemMonitor
          (grade (cpuUsage m) 90 80) (grade (memoryUsage m) 95 85)
          (grade (diskUsage m) 95 85) Health.healthy in
      let componentHealths := Components.values components in
      let status :=
        if includes Health.unhealthy componentHealths then Health.unhealthy
        else if includes Health.degraded componentHealths then Health.degraded
        else Health.healthy in
      ret (HealthStatus.mk status components figures timestamp)
  end.

(** ** Lifecycle *)

Module Lifecycle.
Inductive t : Type := Stopped | Running.
End Lifecycle.

Definition lifecycle (s : SystemMonitor.t) : Lifecycle.t :=
  if SystemMonitor.isRunning s then Lifecycle.Running else Lifecycle.Stopped.

(** The calls that change a monitor: the public mutators and the timer
    callback. *)
Module Call.
Inductive t : Type :=
| start (p : Provider.t)
| stop
| tick (p : Provider.t)
| updateConfig (newConfig : SystemMonitorConfig.t).
End Call.

Definition run (c : Call.t) (s : SystemMonitor.t) : M SystemMonitor.t :=
  match c with
  | Call.start p => start p s
  | Call.stop => stop s
  | Call.tick p => collectMetrics p s
  | Call.updateConfig n => updateConfig n s
  end.

(** The lifecycle automaton: [start] leads to [Running], [stop] to
    [Stopped], every other call stays where it is. *)
Definition next (c : Call.t) (l : Lifecycle.t) : Lifecycle.t :=
  match c with
  | Call.start _ => Lifecycle.Running
  | Call.stop => Lifecycle.Stopped
  | Call.tick _ | Call.updateConfig _ => l
  end.

Fixpoint runAll (cs : list Call.t) (s : SystemMonitor.t) : M SystemMonitor.t :=
  match cs with
  | [] => ret s
  | c :: rest => s' <- run c s ;; runAll rest s'
  end.

(** The two shapes a monitor takes: stopped with no timer, or running
    with its timer armed. *)
Definition wellFormed (s : SystemMonitor.t) : Prop :=
  match SystemMonitor.isRunning s, SystemMonitor.intervalId s with
  | false, None => True
  | true, Some _ => True
  | _, _ => False
  end.

(** ** Vocabulary of the statements *)

Module Family.
Inductive t : Type := cpu | memory | disk | network.

(** The string an alert of the family carries in its [metric] field. *)
Definition name (f : t) : string :=
    match f with
    | cpu => "cpu"
    | memory => "memory"
    | disk => "disk"
    | network => "network"
    end.
End Family.

Definition familyConfig (f : Family.t) (s : SystemMonitor.t) : MetricConfig.t :=
  match f with
  | Family.cpu => cfgCpu s
  | Family.memory => cfgMemory s
  | Family.disk => cfgDisk s
  | Family.network => cfgNetwork s
  end.

(** The usage percentage a snapshot records for a family; the network
    record has none. *)
Definition familyUsage (f : Family.t) (m : SystemMetrics.t) : option num :=
  match f with
  | Family.cpu => Some (cpuUsage m)
  | Family.memory => Some (memoryUsage m)
  | Family.disk => Some (diskUsage m)
  | Family.network => None
  end.

(** "The usage meets or exceeds the threshold of this severity." *)
Definition meets (usage : num) (th : Thresholds.t) (sev : Severity.t) : Prop :=
  match Thresholds.for_severity th sev with
  | Some t => JS.Le t usage
  | None => False
  end.

Definition alertsOf (f : Family.t) (l : list Alert.t) : list Alert.t :=
  filter (fun a => String.eqb (Alert.metric a) (Family.name f)) l.

(** What one family block of [checkAlerts] leaves in the local array. *)
Definition familyVerdict (metric : string) (cfg : MetricConfig.t) (usage : num)
    (als : list Alert.t) : Prop :=
  let th := MetricConfig.thresholds cfg in
  (als = [] /\
   (MetricConfig.enabled cfg = false \/ forall sev, ~ meets usage th sev))
  \/
  (exists a, als = [a] /\ MetricConfig.enabled cfg = true /\
     Alert.metric a = metric /\ Alert.value a = usage /\
     Thresholds.for_severity th (Alert.severity a) = Some (Alert.threshold a) /\
     JS.Le (Alert.threshold a) usage /\
     forall sev, (Severity.rank (Alert.severity a) < Severity.rank sev)%nat ->
                 ~ meets usage th sev).

(** Order-preserving sub-sequence. *)
Inductive Subseq {A : Type} : list A -> list A -> Prop :=
| Subseq_nil : Subseq [] []
| Subseq_skip : forall x l1 l2, Subseq l1 l2 -> Subseq l1 (x :: l2)
| Subseq_keep : forall x l1 l2, Subseq l1 l2 -> Subseq (x :: l1) (x :: l2).

(** The events a computation adds to the log. *)
Definition emitted {A : Type} (m : M A) (w : World.t) : list Event.t :=
  skipn (List.length (World.log w)) (World.log (snd (m w))).

(** The arithmetic mean over the rationals, as the specification words it. *)
Definition Qsum (qs : list Q) : Q := fold_left Qplus qs (inject_Z 0).

Definition Qmean (qs : list Q) : Q := (Qsum qs / inject_Z (Z.of_nat (List.length qs)))%Q.

(** The family's provider call failed, with this cause. *)
Definition cpuFailure (p : Provider.t) : option string :=
  match cpuReadings p with Ok _ => None | Err e => Some e end.

Definition failure {A : Type} (r : Result A) : option string :=
  match r with Ok _ => None | Err e => Some e end.

(** The [error] event a family's collector emits: one when the family is
    enabled and its provider call failed, none otherwise. *)
Definition errorEvents (label : string) (enabled : bool) (fail : option string)
  : list Event.t :=
  if enabled then
    match fail with
    | Some e => [Event.error ("Failed to get " ++ label ++ " metrics: " ++ e)]
    | None => []
    end
  else [].

Definition isErrorEvent (e : Event.t) : Prop :=
  match e with Event.error _ => True | _ => False end.

Definition isAlertEvent (e : Event.t) : Prop :=
  match e with Event.alert _ => True | _ => False end.

(** The snapshot a tick assembles: the clock reading and, in the order the
    collectors run, what each of them returns. *)
Definition tickSnapshot (p : Provider.t) (s : SystemMonitor.t) (w : World.t)
  : SystemMetrics.t :=
  let rt := Date_now w in
  let rc := getCpuMetrics p s (snd rt) in
  let rm := getMemoryMetrics p s (snd rc) in
  let rd := getDiskMetrics p s (snd rm) in
  let rn := getNetworkMetrics p s (snd rd) in
  SystemMetrics.mk (fst rt) (fst rc) (fst rm) (fst rd) (fst (fst rn)).

(** The verdict on the difference of the two means. *)
Definition verdictOn (diff : num) : Trend.t :=
  if JS.lt (JS.Math_abs diff) (num_of 5) then Trend.stable
  else if JS.gt diff (num_of 0) then Trend.increasing else Trend.decreasing.

(** Every usage of the snapshot is a finite, non-negative number. *)
Definition validUsages (m : SystemMetrics.t) : Prop :=
  JS.fin_nonneg (cpuUsage m) /\ JS.fin_nonneg (memoryUsage m) /\ JS.fin_nonneg (diskUsage m).

(** The retention horizon read literally: the largest configured
    [retention], without the [|| 7] fallback. *)
Definition configuredMaxRetention (s : SystemMonitor.t) : num :=
  Math_max4 (MetricConfig.retention (cfgCpu s)) (MetricConfig.retention (cfgMemory s))
    (MetricConfig.retention (cfgDisk s)) (MetricConfig.retention (cfgNetwork s)).

Definition configuredCutoff (now : Z) (s : SystemMonitor.t) : num :=
  JS.sub (num_of now) (daysToMs (configuredMaxRetention s)).

(** ** Sample data *)

Definition world0 : World.t :=
  World.mk (fun n => 1700000000000 + 5000 * Z.of_nat n) 0
    (fun _ => "k3x9q2m1a"%string) 0 0 [] [].

(** The readings the test-suite mocks: load 25.5 on one core, 4 GB used of
    8 GB, one file system half full, one interface. *)
Definition sampleProvider : Provider.t :=
  Provider.mk
    (Ok (CurrentLoad.mk (JS.Fin (51 # 2)) 1
           (Some [JS.Fin (12 # 10); JS.Fin (15 # 10); JS.Fin (18 # 10)])))
    (Ok (CpuSpeed.mk (num_of 2400)))
    (Ok (CpuTemperature.mk (Some (JS.Fin (452 # 10)))))
    (Ok (Mem.mk (num_of 8589934592) (num_of 4294967296) (num_of 4294967296)
           (num_of 4294967296)))
    (Ok [FsSize.mk "/" (num_of 100000000000) (num_of 50000000000) (num_of 50000000000)])
    (Ok [NetStats.mk "eth0" (Some (num_of 1000000)) (Some (num_of 500000))
           (Some (num_of 1000)) (Some (num_of 500))])
    false.

Definition withMem (r : Result Mem.t) (p : Provider.t) : Provider.t :=
  Provider.mk (Provider.currentLoad p) (Provider.cpuCurrentSpeed p)
    (Provider.cpuTemperature p) r (Provider.fsSize p) (Provider.networkStats p)
    (Provider.cpuSpeedRejectsFirst p).

Definition withCurrentLoad (r : Result CurrentLoad.t) (p : Provider.t) : Provider.t :=
  Provider.mk r (Provider.cpuCurrentSpeed p) (Provider.cpuTemperature p)
    (Provider.mem p) (Provider.fsSize p) (Provider.networkStats p)
    (Provider.cpuSpeedRejectsFirst p).

Definition withFsSize (r : Result (list FsSize.t)) (p : Provider.t) : Provider.t :=
  Provider.mk (Provider.currentLoad p) (Provider.cpuCurrentSpeed p)
    (Provider.cpuTemperature p) (Provider.mem p) r (Provider.networkStats p)
    (Provider.cpuSpeedRejectsFirst p).

(** A memory reading with nothing installed and nothing used. *)
Definition zeroTotalProvider : Provider.t :=
  withMem (Ok (Mem.mk (num_of 0) (num_of 0) (num_of 0) (num_of 0))) sampleProvider.

(** A file system of size zero, as pseudo file systems report. *)
Definition zeroSizeProvider : Provider.t :=
  withFsSize (Ok [FsSize.mk "/proc" (num_of 0) (num_of 0) (num_of 0)]) sampleProvider.

Definition defaultMonitor : SystemMonitor.t := constructor SystemMonitorConfig.empty.

(** The monitor after [start()] and one tick. *)
Definition afterOneTick (p : Provider.t) : SystemMonitor.t * World.t :=
  runAll [Call.start p; Call.tick p] defaultMonitor world0.

(** The monitor and the world right after [start()]. *)
Definition runningMonitor : SystemMonitor.t := fst (start sampleProvider defaultMonitor world0).
Definition runningWorld : World.t := snd (start sampleProvider defaultMonitor world0).

Definition withCpuTemperature (r : Result CpuTemperature.t) (p : Provider.t) : Provider.t :=
  Provider.mk (Provider.currentLoad p) (Provider.cpuCurrentSpeed p) r
    (Provider.mem p) (Provider.fsSize p) (Provider.networkStats p)
    (Provider.cpuSpeedRejectsFirst p).

(** The load of the alert scenario: 90 percent. *)
Definition busyProvider : Provider.t :=
  withCurrentLoad (Ok (CurrentLoad.mk (num_of 90) 1 None)) sampleProvider.

Definition failingCpuProvider : Provider.t :=
  withCurrentLoad (Err "Error: System call failed") sampleProvider.

Definition dayMs : Z := 24 * 60 * 60 * 1000.

(** [new SystemMonitor({ metrics: { cpu: {retention: 1}, memory: {retention: 1},
    disk: {retention: 1}, network: {retention: 0} } })] *)
Definition shortRetentionConfig : SystemMonitorConfig.t :=
  let days d := Some (MetricInput.mk None None None (Some (num_of d))) in
  SystemMonitorConfig.mk None None None None None
    (Some (MetricsInput.mk (days 1) (days 1) (days 1) (days 0))) None.

Definition snapshotAt (t : Z) : SystemMetrics.t :=
  SystemMetrics.mk t Cpu.zero Memory.zero Disk.zero Network.zero.

(** A monitor holding one snapshot taken on day 8. *)
Definition shortRetentionMonitor : SystemMonitor.t :=
  pushMetrics (snapshotAt (8 * dayMs)) (constructor shortRetentionConfig).

(** A monitor holding three snapshots, taken at 100, 200 and 300. *)
Definition threeSnapshotMonitor : SystemMonitor.t :=
  pushMetrics (snapshotAt 300)
    (pushMetrics (snapshotAt 200) (pushMetrics (snapshotAt 100) defaultMonitor)).

(** The snapshot of a tick under a load of 90 percent. *)
Definition busySnapshot : SystemMetrics.t :=
  tickSnapshot busyProvider runningMonitor runningWorld.

(** ** Vocabulary of the further properties *)

(** What a computation that neither arms nor clears a timer may do to the
    world: read the clock and the random source, and append to the log. *)
Definition advances (w w' : World.t) : Prop :=
  World.clock w' = World.clock w
  /\ (World.clockReads w <= World.clockReads w')%nat
  /\ World.entropy w' = World.entropy w
  /\ (World.entropyReads w <= World.entropyReads w')%nat
  /\ World.nextTimer w' = World.nextTimer w
  /\ World.timers w' = World.timers w
  /\ exists added, World.log w' = World.log w ++ added.

(** The monitor owns the armed timers of its world: none when stopped,
    exactly its own when running. *)
Definition ownsTimers (s : SystemMonitor.t) (w : World.t) : Prop :=
  match SystemMonitor.isRunning s, SystemMonitor.intervalId s with
  | false, None => World.timers w = []
  | true, Some id => World.timers w = [id]
  | _, _ => False
  end.

(** A clock that never goes back. *)
Definition monotoneClock (w : World.t) : Prop :=
  forall i j, (i <= j)%nat -> World.clock w i <= World.clock w j.

(** Snapshots in non-decreasing order of time. *)
Inductive Chronological : list SystemMetrics.t -> Prop :=
| Chronological_nil : Chronological []
| Chronological_cons : forall m l,
    Forall (fun m' => SystemMetrics.timestamp m <= SystemMetrics.timestamp m') l ->
    Chronological l -> Chronological (m :: l).

(** The shape of every alert [createAlert] builds for [checkAlerts]. *)
Definition alertWellFormed (a : Alert.t) : Prop :=
  Alert.resolved a = false
  /\ AlertId.metric (Alert.id a) = Alert.metric a
  /\ Message.shown (Alert.message a) = Alert.value a
  /\ JS.Le (Alert.threshold a) (Alert.value a)
  /\ (Alert.metric a = "cpu" \/ Alert.metric a = "memory" \/ Alert.metric a = "disk")%string.

(** Provider readings as an operating system reports them: a load between
    0 and 100, used memory within a positive total, used space within the
    size of each file system. *)
Definition withinWhole (used total : num) : Prop :=
  match used, total with
  | JS.Fin u, JS.Fin t => (0 <= u /\ u <= t)%Q
  | _, _ => False
  end.

Definition saneProvider (p : Provider.t) : Prop :=
  (forall load, Provider.currentLoad p = Ok load ->
     JS.between 0 100 (CurrentLoad.currentLoad load))
  /\ (forall mem, Provider.mem p = Ok mem ->
        withinWhole (Mem.used mem) (Mem.total mem)
        /\ JS.Lt (num_of 0) (Mem.total mem))
  /\ (forall fs, Provider.fsSize p = Ok fs ->
        Forall (fun f => withinWhole (FsSize.used f) (FsSize.size f)) fs).

Definition usagesInRange (m : SystemMetrics.t) : Prop :=
  JS.between 0 100 (cpuUsage m) /\ JS.between 0 100 (memoryUsage m)
  /\ JS.between 0 100 (diskUsage m)
  /\ Forall (fun d => JS.between 0 100 (Device.usage d)) (Disk.devices (SystemMetrics.disk m)).

(** Every tick of the sequence meets sane readings. *)
Definition saneCalls (cs : list Call.t) : Prop :=
  Forall (fun c => match c with Call.tick p => saneProvider p | _ => True end) cs.

Definition isTick (c : Call.t) : bool :=
  match c with Call.tick _ => true | _ => false end.

(** A counter as the network collector passes it through. *)
Definition passedThrough (reported : option num) (recorded : num) : Prop :=
  match reported with
  | Some v => if JS.truthy v then recorded = v else recorded = num_of 0
  | None => recorded = num_of 0
  end.

Definition ifacePassedThrough (r : NetStats.t) (i : Iface.t) : Prop :=
  Iface.name i = NetStats.iface r
  /\ passedThrough (NetStats.rx_bytes r) (Iface.bytesReceived i)
  /\ passedThrough (NetStats.tx_bytes r) (Iface.bytesSent i)
  /\ passedThrough (NetStats.rx_sec r) (Iface.packetsReceived i)
  /\ passedThrough (NetStats.tx_sec r) (Iface.packetsSent i).

(** The worst of a list of component states. *)
Definition worst (l : list Health.t) : Health.t :=
  if includes Health.unhealthy l then Health.unhealthy
  else if includes Health.degraded l then Health.degraded
  else Health.healthy.

(** The caller's object for one family, if any. *)
Definition familyInput (f : Family.t) (config : SystemMonitorConfig.t)
  : option MetricInput.t :=
  match SystemMonitorConfig.metrics config with
  | None => None
  | Some m =>
      match f with
      | Family.cpu => MetricsInput.cpu m
      | Family.memory => MetricsInput.memory m
      | Family.disk => MetricsInput.disk m
      | Family.network => MetricsInput.network m
      end
  end.

Definition familyOf (f : Family.t) (m : MetricsConfig.t) : MetricConfig.t :=
  match f with
  | Family.cpu => MetricsConfig.cpu m
  | Family.memory => MetricsConfig.memory m
  | Family.disk => MetricsConfig.disk m
  | Family.network => MetricsConfig.network m
  end.

(** [new SystemMonitor({ metrics: { cpu: { thresholds: { warning: 50 } } } })] *)
Definition warningOnlyConfig : SystemMonitorConfig.t :=
  SystemMonitorConfig.mk None None None None None
    (Some (MetricsInput.mk
             (Some (MetricInput.mk None None
                      (Some (Thresholds.mk (Some (num_of 50)) None None)) None))
             None None None))
    None.

(** [{ metrics: { cpu: { enabled: false } } }] *)
Definition cpuOffUpdate : SystemMonitorConfig.t :=
  SystemMonitorConfig.mk None None None None None
    (Some (MetricsInput.mk (Some (MetricInput.mk (Some false) None None None))
             None None None))
    None.

(** A stopped monitor that still holds the snapshot of an idle host. *)
Definition stoppedWithHistory : SystemMonitor.t :=
  fst (runAll [Call.start sampleProvider; Call.tick sampleProvider; Call.stop]
         defaultMonitor world0).

(** The first answer of [networkStats()]: the rates are [null]. *)
Definition firstCallProvider : Provider.t :=
  Provider.mk (Provider.currentLoad sampleProvider) (Provider.cpuCurrentSpeed sampleProvider)
    (Provider.cpuTemperature sampleProvider) (Provider.mem sampleProvider)
    (Provider.fsSize sampleProvider)
    (Ok [NetStats.mk "eth0" (Some (num_of 1000000)) (Some (num_of 500000)) None None])
    (Provider.cpuSpeedRejectsFirst sampleProvider).

(** Two file systems: one half full, one pseudo file system of size 0. *)
Definition twoDiskProvider : Provider.t :=
  withFsSize
    (Ok [FsSize.mk "/" (num_of 100) (num_of 50) (num_of 50);
         FsSize.mk "/proc" (num_of 0) (num_of 0) (num_of 0)])
    sampleProvider.

(** The alerts carried by the [alert] events of a trace, in order. *)
Definition alertsIn (trace : list Event.t) : list Alert.t :=
  flat_map (fun e => match e with Event.alert a => [a] | _ => [] end) trace.

(** No stored snapshot is dated after the next clock reading. *)
Definition notFromTheFuture (s : SystemMonitor.t) (w : World.t) : Prop :=
  Forall (fun m => SystemMetrics.timestamp m <= World.clock w (World.clockReads w))
    (SystemMonitor.metrics s).

(** A load of 97 percent on the sample host. *)
Definition overloadedProvider : Provider.t :=
  withCurrentLoad (Ok (CurrentLoad.mk (num_of 97) 1 None)) sampleProvider.

(** A store in time order, under a clock that never goes back. *)
Definition inOrder (s : SystemMonitor.t) (w : World.t) : Prop :=
  monotoneClock w /\ Chronological (SystemMonitor.metrics s) /\ notFromTheFuture s w.

(** A host whose sensor reads 0 degrees. *)
Definition freezingProvider : Provider.t :=
  withCpuTemperature (Ok (CpuTemperature.mk (Some (num_of 0)))) sampleProvider.

(** A started monitor after one tick under a load of 97 percent. *)
Definition overloadedMonitor : SystemMonitor.t :=
  fst (afterOneTick overloadedProvider).

(** The message of the first error a tick has to report; the families are
    collected in the order cpu, memory, disk, network. *)
Definition firstFailure (p : Provider.t) (s : SystemMonitor.t) : option string :=
  match
    errorEvents "CPU" (MetricConfig.enabled (cfgCpu s)) (cpuFailure p)
    ++ errorEvents "memory" (MetricConfig.enabled (cfgMemory s)) (failure (Provider.mem p))
    ++ errorEvents "disk" (MetricConfig.enabled (cfgDisk s)) (failure (Provider.fsSize p))
    ++ errorEvents "network" (MetricConfig.enabled (cfgNetwork s))
         (failure (Provider.networkStats p))
  with
  | Event.error message :: _ => Some message
  | _ => None
  end.

(** ** Calls that are not awaited

    What the event loop can run on a monitor, one step at a time: the
    synchronous calls [stop()] and [updateConfig()], a tick, and the two
    parts of a [start()] call, the second of which runs when the provider
    call of the first has settled.  A [Task] is the monitor together with the
    number of [start()] calls suspended at their [await]. *)
Module Step.
Inductive t : Type :=
| startCalled
| startResumed (r : Result (list NetStats.t))
| stop
| tick (p : Provider.t)
| updateConfig (newConfig : SystemMonitorConfig.t).
End Step.

Module Task.
Record t : Type := mk { monitor : SystemMonitor.t; suspended : nat }.
End Task.

Definition step (c : Step.t) (t : Task.t) : M Task.t :=
  match c with
  | Step.startCalled =>
      r <- start_beforeAwait (Task.monitor t) ;;
      ret (Task.mk (fst r) (if snd r then S (Task.suspended t) else Task.suspended t))
  | Step.startResumed r =>
      match Task.suspended t with
      | O => ret t
      | S k => s' <- start_afterAwait r (Task.monitor t) ;; ret (Task.mk s' k)
      end
  | Step.stop => s' <- stop (Task.monitor t) ;; ret (Task.mk s' (Task.suspended t))
  | Step.tick p =>
      s' <- collectMetrics p (Task.monitor t) ;; ret (Task.mk s' (Task.suspended t))
  | Step.updateConfig n =>
      s' <- updateConfig n (Task.monitor t) ;; ret (Task.mk s' (Task.suspended t))
  end.

Fixpoint steps (cs : list Step.t) (t : Task.t) : M Task.t :=
  match cs with
  | [] => ret t
  | c :: rest => t' <- step c t ;; steps rest t'
  end.

(** The steps of a call that is awaited: [await start()] is the first part
    of [start] followed at once by the second. *)
Definition awaited (c : Call.t) : list Step.t :=
  match c with
  | Call.start p => [Step.startCalled; Step.startResumed (Provider.networkStats p)]
  | Call.stop => [Step.stop]
  | Call.tick p => [Step.tick p]
  | Call.updateConfig n => [Step.updateConfig n]
  end.

(** A schedule in which [stop()] is never called while a [start()] is
    suspended. *)
Fixpoint noStopWhileSuspended (cs : list Step.t) (t : Task.t) (w : World.t) : Prop :=
  match cs with
  | [] => True
  | c :: rest =>
      (c = Step.stop -> Task.suspended t = 0%nat)
      /\ noStopWhileSuspended rest (fst (step c t w)) (snd (step c t w))
  end.

(** The timers of a task: those its monitor owns when no [start()] is
    suspended; none, on a monitor already marked running, while one is. *)
Definition timersInHand (t : Task.t) (w : World.t) : Prop :=
  match Task.suspended t with
  | 0%nat => ownsTimers (Task.monitor t) w
  | 1%nat =>
      SystemMonitor.isRunning (Task.monitor t) = true
      /\ SystemMonitor.intervalId (Task.monitor t) = None
      /\ World.timers w = []
  | _ => False
  end.

(** [start()] not awaited, [stop()], then the rest of [start()]. *)
Definition stopDuringStart (r : Result (list NetStats.t)) : list Step.t :=
  [Step.startCalled; Step.stop; Step.startResumed r].

(** ** Exact sums in binary64 *)

(** The same double, field by field. *)
Definition sameDouble (a b : Double.t) : bool :=
  match a, b with
  | S754_zero s, S754_zero s' => Bool.eqb s s'
  | S754_infinity s, S754_infinity s' => Bool.eqb s s'
  | S754_nan, S754_nan => true
  | S754_finite s m e, S754_finite s' m' e' =>
      Bool.eqb s s' && Pos.eqb m m' && Z.eqb e e'
  | _, _ => false
  end.

(** A test on every pair of naturals up to [A] and [B]. *)
Definition allPairs (f : nat -> nat -> bool) (A B : nat) : bool :=
  forallb (fun a => forallb (f a) (seq 0 (S B))) (seq 0 (S A)).

(** Adding these two integers is exact. *)
Definition additionExact (a b : nat) : bool :=
  sameDouble (Double.add (Double.of_nat a) (Double.of_nat b)) (Double.of_nat (a + b)).

(** The sum of a list of integers. *)
Definition Zsum (zs : list Z) : Z := fold_left Z.add zs 0.

(** A usage as an operating system reports it after rounding: an integer
    between 0 and 100. *)
Definition wholePercent (z : Z) : Prop := 0 <= z <= 100.

(** * Properties *)

Module JSFacts.

Ltac qcase x y :=
  let E := fresh "E" in
  destruct (Qcompare x y) eqn:E;
  [ apply Qeq_alt in E | apply Qlt_alt in E | apply Qgt_alt in E ].

Lemma ge_Le (a b : num) : JS.ge a b = true <-> JS.Le b a.
Proof.
  destruct a as [x| | |], b as [y| | |]; unfold JS.ge; simpl;
    try (split; (discriminate || tauto || reflexivity)).
  all: match goal with |- context [Qcompare ?u ?v] => qcase u v end;
    split; intros H; try reflexivity; try discriminate; lra.
Qed.

Lemma le_Le (a b : num) : JS.le a b = true <-> JS.Le a b.
Proof.
  destruct a as [x| | |], b as [y| | |]; unfold JS.le; simpl;
    try (split; (discriminate || tauto || reflexivity)).
  all: match goal with |- context [Qcompare ?u ?v] => qcase u v end;
    split; intros H; try reflexivity; try discriminate; lra.
Qed.

Lemma gt_Lt (a b : num) : JS.gt a b = true <-> JS.Lt b a.
Proof.
  destruct a as [x| | |], b as [y| | |]; unfold JS.gt; simpl;
    try (split; (discriminate || tauto || reflexivity)).
  all: match goal with |- context [Qcompare ?u ?v] => qcase u v end;
    split; intros H; try reflexivity; try discriminate; lra.
Qed.

Lemma lt_Lt (a b : num) : JS.lt a b = true <-> JS.Lt a b.
Proof.
  destruct a as [x| | |], b as [y| | |]; unfold JS.lt; simpl;
    try (split; (discriminate || tauto || reflexivity)).
  all: match goal with |- context [Qcompare ?u ?v] => qcase u v end;
    split; intros H; try reflexivity; try discriminate; lra.
Qed.

Lemma ge_false_iff (a b : num) : JS.ge a b = false <-> ~ JS.Le b a.
Proof.
  rewrite <- ge_Le. destruct (JS.ge a b); split; intros; congruence.
Qed.

Lemma Le_Lt_dichotomy (a b : num) :
  a <> JS.NaN -> b <> JS.NaN -> JS.Le a b \/ JS.Lt b a.
Proof.
  destruct a as [x| | |], b as [y| | |]; simpl; intros Ha Hb;
    try congruence; try tauto.
  destruct (Qlt_le_dec y x); tauto.
Qed.

Lemma Le_Lt_exclusive (a b : num) : JS.Le a b -> JS.Lt b a -> False.
Proof.
  destruct a as [x| | |], b as [y| | |]; simpl; try tauto. lra.
Qed.

End JSFacts.

Module Rounding.

Lemma round_value (x : Q) :
  JS.Math_round (JS.Fin x) = JS.of_Z (Qfloor (x + (1 # 2))).
Proof. reflexivity. Qed.

(** The rounded value is the integer nearest to [x], halves going up. *)
Lemma round_nearest (x : Q) :
  (x - (1 # 2) < inject_Z (Qfloor (x + (1 # 2))) /\
   inject_Z (Qfloor (x + (1 # 2))) <= x + (1 # 2))%Q.
Proof.
  pose proof (Qfloor_le (x + (1 # 2))) as Hle.
  pose proof (Qlt_floor (x + (1 # 2))) as Hlt.
  rewrite inject_Z_plus in Hlt. change (inject_Z 1) with 1%Q in Hlt.
  set (z := inject_Z (Qfloor (x + (1 # 2)))) in *. split; lra.
Qed.

Lemma round_bounds (x : Q) (lo hi : Z) :
  (inject_Z lo <= x)%Q -> (x <= inject_Z hi)%Q ->
  lo <= Qfloor (x + (1 # 2)) <= hi.
Proof.
  intros Hlo Hhi.
  destruct (round_nearest x) as [H1 H2].
  split.
  - assert (H : (inject_Z (lo - 1) < inject_Z (Qfloor (x + (1 # 2))))%Q).
    { unfold Z.sub. rewrite inject_Z_plus. change (inject_Z (- (1))) with (- (1))%Q.
      set (z := inject_Z (Qfloor (x + (1 # 2)))) in *. lra. }
    rewrite <- Zlt_Qlt in H. lia.
  - assert (H : (inject_Z (Qfloor (x + (1 # 2))) < inject_Z (hi + 1))%Q).
    { rewrite inject_Z_plus. change (inject_Z 1) with 1%Q.
      set (z := inject_Z (Qfloor (x + (1 # 2)))) in *. lra. }
    rewrite <- Zlt_Qlt in H. lia.
Qed.

Lemma round_between (x : Q) :
  (0 <= x)%Q -> (x <= 100)%Q -> JS.between 0 100 (JS.Math_round (JS.Fin x)).
Proof.
  intros H0 H100.
  destruct (round_bounds x 0 100) as [Ha Hb]; auto.
  simpl. split.
  - change 0%Q with (inject_Z 0). rewrite <- Zle_Qle. exact Ha.
  - change 100%Q with (inject_Z 100). rewrite <- Zle_Qle. exact Hb.
Qed.

Lemma percent_Fin (u t : Q) :
  (0 < t)%Q ->
  percent (JS.Fin u) (JS.Fin t) =
  JS.of_Z (Qfloor (u / t * inject_Z 100 + (1 # 2))).
Proof.
  intros Ht. unfold percent. simpl.
  destruct (Qeq_bool t 0) eqn:E.
  - apply Qeq_bool_iff in E. lra.
  - reflexivity.
Qed.

(** A ratio of a part to a positive whole is a percentage in [0, 100]. *)
Lemma percent_between (u t : Q) :
  (0 <= u)%Q -> (u <= t)%Q -> (0 < t)%Q ->
  JS.between 0 100 (percent (JS.Fin u) (JS.Fin t)).
Proof.
  intros H0 Hut Ht. rewrite percent_Fin by assumption.
  apply (round_between (u / t * inject_Z 100)).
  - apply Qmult_le_0_compat; [ | discriminate ].
    apply Qle_shift_div_l; lra.
  - assert (H : (u / t <= 1)%Q) by (apply Qle_shift_div_r; lra).
    change (inject_Z 100) with 100%Q. lra.
Qed.

Lemma guardedPercent_positive (u t : Q) :
  (0 < t)%Q -> guardedPercent (JS.Fin u) (JS.Fin t) = percent (JS.Fin u) (JS.Fin t).
Proof.
  intros Ht. unfold guardedPercent.
  destruct (JS.gt (JS.Fin t) (num_of 0)) eqn:E; [ reflexivity | ].
  assert (H : JS.gt (JS.Fin t) (num_of 0) = true).
  { apply JSFacts.gt_Lt. simpl. exact Ht. }
  congruence.
Qed.

Lemma guardedPercent_zero (u : num) : guardedPercent u (num_of 0) = num_of 0.
Proof. reflexivity. Qed.

End Rounding.

Module Windows.

Section Slices.
Context {A : Type}.

Lemma firstn_whole (n : nat) (l : list A) :
    (List.length l <= n)%nat -> firstn n l = l.
  Proof. intros H. apply firstn_all2. exact H. Qed.

  (** [l.slice(-k)] keeps the last [k] elements. *)
Lemma slice_last (k : Z) (l : list A) :
    0 < k -> JS.slice (- k) None l = skipn (List.length l - Z.to_nat k) l.
  Proof.
    intros Hk. unfold JS.slice, JS.rel_index.
    destruct (- k <? 0) eqn:E; [ | apply Z.ltb_ge in E; lia ].
    replace (Z.to_nat (Z.max (Z.of_nat (List.length l) + - k) 0))
      with (List.length l - Z.to_nat k)%nat by lia.
    apply firstn_whole. rewrite length_skipn. lia.
  Qed.

  (** [l.slice(0, h)] is the prefix of length [h]. *)
Lemma slice_prefix (h : Z) (l : list A) :
    0 <= h <= Z.of_nat (List.length l) ->
    JS.slice 0 (Some h) l = firstn (Z.to_nat h) l.
  Proof.
    intros Hh. unfold JS.slice, JS.rel_index.
    change (0 <? 0) with false. cbv iota.
    destruct (h <? 0) eqn:E; [ apply Z.ltb_lt in E; lia | ].
    replace (Z.min 0 (Z.of_nat (List.length l))) with 0 by lia.
    simpl skipn. f_equal. lia.
  Qed.

  (** [l.slice(h)] drops the first [h] elements. *)
Lemma slice_suffix (h : Z) (l : list A) :
    0 <= h <= Z.of_nat (List.length l) ->
    JS.slice h None l = skipn (Z.to_nat h) l.
  Proof.
    intros Hh. unfold JS.slice, JS.rel_index.
    destruct (h <? 0) eqn:E; [ apply Z.ltb_lt in E; lia | ].
    replace (Z.min h (Z.of_nat (List.length l))) with h by lia.
    apply firstn_whole. rewrite length_skipn. lia.
  Qed.

Lemma slice_last_nonempty (k : Z) (l : list A) :
    0 < k -> l <> [] -> JS.slice (- k) None l <> [].
  Proof.
    intros Hk Hl. rewrite slice_last by assumption.
    intros H. apply (f_equal (@List.length A)) in H.
    rewrite length_skipn in H.
    destruct l; [ congruence | cbn [List.length] in H; lia ].
  Qed.

Lemma slice_last_empty (k : Z) : JS.slice (- k) None (@nil A) = [].
  Proof. unfold JS.slice. simpl. rewrite skipn_nil. apply firstn_nil. Qed.

Lemma In_skipn (n : nat) (l : list A) (x : A) : In x (skipn n l) -> In x l.
  Proof.
    revert l. induction n as [| n IH]; intros [| y l] H; simpl in *; auto.
  Qed.

Lemma Forall_slice_last (P : A -> Prop) (k : Z) (l : list A) :
    0 < k -> Forall P l -> Forall P (JS.slice (- k) None l).
  Proof.
    intros Hk H. rewrite slice_last by assumption.
    rewrite Forall_forall in *. intros x Hx. apply H. eapply In_skipn; eauto.
  Qed.
End Slices.

Section Sums.
Context {A : Type} (f : A -> num).

Lemma fold_add_nonneg (l : list A) (acc : Q) :
    Forall (fun x => JS.fin_nonneg (f x)) l -> (0 <= acc)%Q ->
    exists q, fold_left (fun sum x => JS.add sum (f x)) l (JS.Fin acc) = JS.Fin q
              /\ (0 <= q)%Q.
  Proof.
    intros H. revert acc. induction H as [| x l Hx _ IH]; intros acc Hacc.
    - exists acc. split; [ reflexivity | exact Hacc ].
    - simpl. destruct (f x) as [v| | |]; simpl in Hx; try contradiction.
      simpl. apply IH. lra.
  Qed.

  (** The mean of finitely many non-negative numbers is a non-negative number. *)
Lemma average_nonneg (l : list A) :
    l <> [] -> Forall (fun x => JS.fin_nonneg (f x)) l ->
    JS.fin_nonneg (average f l).
  Proof.
    intros Hl H.
    destruct (fold_add_nonneg l (inject_Z 0) H) as [q [Hq Hq0]]; [ discriminate | ].
    unfold average, reduceSum, num_of, JS.of_Z. rewrite Hq.
    unfold JS.of_nat, JS.of_Z. simpl.
    assert (Hn : (0 < inject_Z (Z.of_nat (List.length l)))%Q).
    { change 0%Q with (inject_Z 0). rewrite <- Zlt_Qlt.
      destruct l; [ congruence | simpl; lia ]. }
    destruct (Qeq_bool (inject_Z (Z.of_nat (List.length l))) 0) eqn:E.
    - apply Qeq_bool_iff in E. lra.
    - simpl. apply Qle_shift_div_l; lra.
  Qed.
End Sums.

Lemma fold_add_Fin (qs : list Q) (acc : Q) :
  fold_left (fun sum x => JS.add sum x) (map JS.Fin qs) (JS.Fin acc)
  = JS.Fin (fold_left Qplus qs acc).
Proof.
  revert acc. induction qs as [| q qs IH]; intros acc; simpl; [ reflexivity | apply IH ].
Qed.

(** On numbers that are all finite, the code's mean is the arithmetic mean. *)
Lemma mean_Fin (qs : list Q) :
  qs <> [] -> mean (map JS.Fin qs) = JS.Fin (Qmean qs).
Proof.
  intros Hq. unfold mean, average, reduceSum, num_of, JS.of_Z.
  rewrite fold_add_Fin. rewrite length_map.
  unfold JS.of_nat, JS.of_Z. simpl.
  destruct (Qeq_bool (inject_Z (Z.of_nat (List.length qs))) 0) eqn:E.
  - apply Qeq_bool_iff in E.
    assert (Hn : (0 < inject_Z (Z.of_nat (List.length qs)))%Q).
    { change 0%Q with (inject_Z 0). rewrite <- Zlt_Qlt.
      destruct qs; [ congruence | simpl; lia ]. }
    lra.
  - reflexivity.
Qed.

End Windows.

Module AlertFacts.

Lemma reaches_Some (usage : num) (o : option num) (t : num) :
  reaches usage o = Some t -> o = Some t /\ JS.Le t usage.
Proof.
  unfold reaches. destruct o as [t'|]; [ | discriminate ].
  destruct (JS.ge usage t') eqn:E; [ | discriminate ].
  intros H. injection H as <-. split; [ reflexivity | ].
  apply JSFacts.ge_Le. exact E.
Qed.

Lemma reaches_None (usage : num) (o : option num) :
  reaches usage o = None -> forall t, o = Some t -> ~ JS.Le t usage.
Proof.
  unfold reaches. intros H t ->.
  destruct (JS.ge usage t) eqn:E; [ discriminate | ].
  apply JSFacts.ge_false_iff. exact E.
Qed.

Lemma not_meets (usage : num) (th : Thresholds.t) (sev : Severity.t) :
  reaches usage (Thresholds.for_severity th sev) = None -> ~ meets usage th sev.
Proof.
  intros H. unfold meets.
  destruct (Thresholds.for_severity th sev) as [t|] eqn:E; [ | tauto ].
  eapply reaches_None; eauto.
Qed.

Lemma familyAlerts_verdict metric label cfg usage w :
  familyVerdict metric cfg usage (fst (familyAlerts metric label cfg usage w)).
Proof.
  unfold familyVerdict, familyAlerts.
  destruct (MetricConfig.enabled cfg); [ | left; auto ].
  set (th := MetricConfig.thresholds cfg).
  destruct (reaches usage (Thresholds.emergency th)) as [t|] eqn:Ee.
  { apply reaches_Some in Ee as [Ht Hle]. right. eexists. split; [ reflexivity | ].
    cbn. repeat split; auto. intros [] Hr; cbn in Hr; lia. }
  destruct (reaches usage (Thresholds.critical th)) as [t|] eqn:Ec.
  { apply reaches_Some in Ec as [Ht Hle]. right. eexists. split; [ reflexivity | ].
    cbn. repeat split; auto. intros [] Hr; cbn in Hr; try lia.
    apply not_meets. exact Ee. }
  destruct (reaches usage (Thresholds.warning th)) as [t|] eqn:Ew.
  { apply reaches_Some in Ew as [Ht Hle]. right. eexists. split; [ reflexivity | ].
    cbn. repeat split; auto. intros [] Hr; cbn in Hr; try lia;
      apply not_meets; assumption. }
  left. split; [ reflexivity | ]. right. intros []; apply not_meets; assumption.
Qed.

Lemma evaluate_parts (m : SystemMetrics.t) (s : SystemMonitor.t) (w : World.t) :
  exists w1 w2,
    fst (evaluate m s w) =
      fst (familyAlerts "cpu" "CPU" (cfgCpu s) (cpuUsage m) w)
      ++ fst (familyAlerts "memory" "Memory" (cfgMemory s) (memoryUsage m) w1)
      ++ fst (familyAlerts "disk" "Disk" (cfgDisk s) (diskUsage m) w2).
Proof.
  unfold evaluate, bind, cpuUsage, memoryUsage, diskUsage.
  destruct (familyAlerts "cpu" "CPU" _ _ w) as [a w1].
  destruct (familyAlerts "memory" "Memory" _ _ w1) as [b w2] eqn:Eb.
  destruct (familyAlerts "disk" "Disk" _ _ w2) as [c w3] eqn:Ec.
  exists w1, w2. rewrite Eb, Ec. reflexivity.
Qed.

Lemma alertsOf_app (f : Family.t) (l1 l2 : list Alert.t) :
  alertsOf f (l1 ++ l2) = alertsOf f l1 ++ alertsOf f l2.
Proof. apply filter_app. Qed.

Lemma verdict_metric metric cfg usage als :
  familyVerdict metric cfg usage als -> Forall (fun a => Alert.metric a = metric) als.
Proof.
  intros [[-> _] | [a [-> [_ [Hm _]]]]]; [ constructor | ].
  constructor; [ exact Hm | constructor ].
Qed.

Lemma alertsOf_same (f : Family.t) (als : list Alert.t) :
  Forall (fun a => Alert.metric a = Family.name f) als -> alertsOf f als = als.
Proof.
  induction 1 as [| a l Ha _ IH]; [ reflexivity | ].
  unfold alertsOf in *. simpl. rewrite Ha, String.eqb_refl, IH. reflexivity.
Qed.

Lemma alertsOf_other (f : Family.t) (metric : string) (als : list Alert.t) :
  metric <> Family.name f ->
  Forall (fun a => Alert.metric a = metric) als -> alertsOf f als = [].
Proof.
  intros Hne. induction 1 as [| a l Ha _ IH]; [ reflexivity | ].
  unfold alertsOf in *. simpl. rewrite Ha.
  destruct (String.eqb metric (Family.name f)) eqn:E.
  - apply String.eqb_eq in E. contradiction.
  - exact IH.
Qed.

(** The alerts of one family among those of an evaluation are exactly what
    that family's block produced. *)
Lemma alertsOf_evaluate (f : Family.t) (m : SystemMetrics.t) (s : SystemMonitor.t)
    (w : World.t) :
  match familyUsage f m with
  | Some u =>
      familyVerdict (Family.name f) (familyConfig f s) u
        (alertsOf f (fst (evaluate m s w)))
  | None => alertsOf f (fst (evaluate m s w)) = []
  end.
Proof.
  destruct (evaluate_parts m s w) as [w1 [w2 ->]].
  pose proof (familyAlerts_verdict "cpu" "CPU" (cfgCpu s) (cpuUsage m) w) as Hc.
  pose proof (familyAlerts_verdict "memory" "Memory" (cfgMemory s) (memoryUsage m) w1) as Hm.
  pose proof (familyAlerts_verdict "disk" "Disk" (cfgDisk s) (diskUsage m) w2) as Hd.
  pose proof (verdict_metric _ _ _ _ Hc) as Mc.
  pose proof (verdict_metric _ _ _ _ Hm) as Mm.
  pose proof (verdict_metric _ _ _ _ Hd) as Md.
  rewrite !alertsOf_app.
  destruct f; simpl familyUsage; cbv iota.
  - rewrite (alertsOf_same Family.cpu _ Mc).
    rewrite (alertsOf_other Family.cpu "memory" _ ltac:(discriminate) Mm).
    rewrite (alertsOf_other Family.cpu "disk" _ ltac:(discriminate) Md).
    rewrite !app_nil_r. exact Hc.
  - rewrite (alertsOf_other Family.memory "cpu" _ ltac:(discriminate) Mc).
    rewrite (alertsOf_same Family.memory _ Mm).
    rewrite (alertsOf_other Family.memory "disk" _ ltac:(discriminate) Md).
    rewrite app_nil_r. exact Hm.
  - rewrite (alertsOf_other Family.disk "cpu" _ ltac:(discriminate) Mc).
    rewrite (alertsOf_other Family.disk "memory" _ ltac:(discriminate) Mm).
    rewrite (alertsOf_same Family.disk _ Md). exact Hd.
  - rewrite (alertsOf_other Family.network "cpu" _ ltac:(discriminate) Mc).
    rewrite (alertsOf_other Family.network "memory" _ ltac:(discriminate) Mm).
    rewrite (alertsOf_other Family.network "disk" _ ltac:(discriminate) Md).
    reflexivity.
Qed.

Lemma publishAlerts_alerts (als : list Alert.t) (s : SystemMonitor.t) (w : World.t) :
  SystemMonitor.alerts (fst (publishAlerts als s w)) = SystemMonitor.alerts s ++ als
  /\ World.log (snd (publishAlerts als s w)) = World.log w ++ map Event.alert als.
Proof.
  revert s w. induction als as [| a als IH]; intros s w.
  - simpl. rewrite !app_nil_r. split; reflexivity.
  - simpl. unfold bind. simpl.
    destruct (IH (pushAlert a s)
                (World.mk (World.clock w) (World.clockReads w) (World.entropy w)
                   (World.entropyReads w) (World.nextTimer w) (World.timers w)
                   (World.log w ++ [Event.alert a]))) as [H1 H2].
    rewrite H1, H2. simpl. rewrite <- !app_assoc. split; reflexivity.
Qed.

End AlertFacts.

Module AlertPublication.

Lemma skipn_app_exact {A : Type} (l x : list A) : skipn (List.length l) (l ++ x) = x.
Proof. induction l as [| a l IH]; simpl; auto. Qed.

Lemma familyAlerts_log metric label cfg usage w :
  World.log (snd (familyAlerts metric label cfg usage w)) = World.log w.
Proof.
  unfold familyAlerts.
  destruct (MetricConfig.enabled cfg); [ | reflexivity ].
  destruct (reaches usage (Thresholds.emergency _)); [ reflexivity | ].
  destruct (reaches usage (Thresholds.critical _)); [ reflexivity | ].
  destruct (reaches usage (Thresholds.warning _)); reflexivity.
Qed.

Lemma evaluate_log (m : SystemMetrics.t) (s : SystemMonitor.t) (w : World.t) :
  World.log (snd (evaluate m s w)) = World.log w.
Proof.
  unfold evaluate, bind.
  destruct (familyAlerts "cpu" "CPU" _ _ w) as [a w1] eqn:Ea.
  destruct (familyAlerts "memory" "Memory" _ _ w1) as [b w2] eqn:Eb.
  destruct (familyAlerts "disk" "Disk" _ _ w2) as [c w3] eqn:Ec.
  simpl.
  apply (f_equal snd) in Ea, Eb, Ec. simpl in Ea, Eb, Ec. subst w1 w2 w3.
  rewrite !familyAlerts_log. reflexivity.
Qed.

(** [checkAlerts] appends the evaluated alerts to the alert list and emits
    one [alert] event for each, in order. *)
Lemma checkAlerts_publishes (m : SystemMetrics.t) (s : SystemMonitor.t) (w : World.t) :
  SystemMonitor.alerts (fst (checkAlerts m s w))
    = SystemMonitor.alerts s ++ fst (evaluate m s w)
  /\ emitted (checkAlerts m s) w = map Event.alert (fst (evaluate m s w)).
Proof.
  unfold emitted, checkAlerts, bind.
  pose proof (evaluate_log m s w) as Hlog.
  destruct (evaluate m s w) as [als w1]. simpl in *.
  destruct (AlertFacts.publishAlerts_alerts als s w1) as [H1 H2].
  rewrite H1, H2, Hlog. split; [ reflexivity | apply skipn_app_exact ].
Qed.

End AlertPublication.

(** C2: for every snapshot and configuration, one evaluation produces at most
    one alert per family; an alert produced for a family carries that family's
    usage and the threshold of its severity, the usage meets that threshold
    (threshold <= usage, inclusive) and meets no threshold of a higher
    severity; when the usage meets no threshold, the family gets no alert;
    when the family is enabled and some threshold is met, it gets exactly one.
    [checkAlerts] stores and emits exactly the alerts evaluated. *)
Theorem checkAlerts_one_alert_per_family_at_highest_severity
    (m : SystemMetrics.t) (s : SystemMonitor.t) (w : World.t) (f : Family.t) :
  let new := fst (evaluate m s w) in
  let cfg := familyConfig f s in
  let th := MetricConfig.thresholds cfg in
  (List.length (alertsOf f new) <= 1)%nat
  /\ Forall (fun a =>
       exists u, familyUsage f m = Some u
         /\ MetricConfig.enabled cfg = true
         /\ Alert.value a = u
         /\ Thresholds.for_severity th (Alert.severity a) = Some (Alert.threshold a)
         /\ JS.Le (Alert.threshold a) u
         /\ forall sev, (Severity.rank (Alert.severity a) < Severity.rank sev)%nat ->
                        ~ meets u th sev)
       (alertsOf f new)
  /\ (forall u, familyUsage f m = Some u ->
        (forall sev, ~ meets u th sev) -> alertsOf f new = [])
  /\ (forall u sev, familyUsage f m = Some u -> MetricConfig.enabled cfg = true ->
        meets u th sev -> List.length (alertsOf f new) = 1%nat)
  /\ SystemMonitor.alerts (fst (checkAlerts m s w)) = SystemMonitor.alerts s ++ new
  /\ emitted (checkAlerts m s) w = map Event.alert new.
Proof.
  intros new cfg th.
  pose proof (AlertFacts.alertsOf_evaluate f m s w) as H.
  fold new in H.
  destruct (AlertPublication.checkAlerts_publishes m s w) as [P1 P2].
  fold new in P1, P2.
  destruct (familyUsage f m) as [u|] eqn:Eu.
  - destruct H as [[Hnil Hwhy] | [a [Hone [Hen [Hmet [Hval [Hth [Hle Hmax]]]]]]]].
    + rewrite Hnil. simpl. repeat split; auto.
      intros u' sev Hu' Hen Hmeets. injection Hu' as <-.
      destruct Hwhy as [Hoff | Hno]; [ fold cfg in Hoff; congruence | ].
      exfalso. exact (Hno sev Hmeets).
    + rewrite Hone. simpl. repeat split; auto.
      * constructor; [ | constructor ]. exists u. repeat split; auto.
      * intros u' Hu' Hno. injection Hu' as <-. exfalso.
        apply (Hno (Alert.severity a)). unfold meets. fold cfg th in Hth.
        rewrite Hth. exact Hle.
  - rewrite H. simpl. repeat split; auto; intros; discriminate.
Qed.

(** C10: every alert an evaluation produces names cpu, memory or disk in its
    metric field; none names the network family, whatever the network
    configuration, and so no [alert] event for the network is emitted. *)
Theorem alerts_never_name_network
    (m : SystemMetrics.t) (s : SystemMonitor.t) (w : World.t) :
  let new := fst (evaluate m s w) in
  Forall (fun a =>
            (Alert.metric a = "cpu" \/ Alert.metric a = "memory" \/ Alert.metric a = "disk")%string
            /\ Alert.metric a <> "network"%string) new
  /\ alertsOf Family.network new = []
  /\ emitted (checkAlerts m s) w = map Event.alert new.
Proof.
  intros new. split; [ | split ].
  - subst new. destruct (AlertFacts.evaluate_parts m s w) as [w1 [w2 ->]].
    pose proof (AlertFacts.verdict_metric _ _ _ _
                  (AlertFacts.familyAlerts_verdict "cpu" "CPU" (cfgCpu s) (cpuUsage m) w)) as Mc.
    pose proof (AlertFacts.verdict_metric _ _ _ _
                  (AlertFacts.familyAlerts_verdict "memory" "Memory" (cfgMemory s) (memoryUsage m) w1)) as Mm.
    pose proof (AlertFacts.verdict_metric _ _ _ _
                  (AlertFacts.familyAlerts_verdict "disk" "Disk" (cfgDisk s) (diskUsage m) w2)) as Md.
    rewrite !Forall_app. repeat split.
    + eapply Forall_impl; [ | exact Mc ]. cbv beta. intros a ->.
      split; [ auto | discriminate ].
    + eapply Forall_impl; [ | exact Mm ]. cbv beta. intros a ->.
      split; [ auto | discriminate ].
    + eapply Forall_impl; [ | exact Md ]. cbv beta. intros a ->.
      split; [ auto | discriminate ].
  - exact (AlertFacts.alertsOf_evaluate Family.network m s w).
  - apply AlertPublication.checkAlerts_publishes.
Qed.

Module StoreFacts.

Lemma filter_Subseq {A : Type} (keep : A -> bool) (l : list A) :
  Subseq (filter keep l) l.
Proof.
  induction l as [| x l IH]; simpl; [ constructor | ].
  destruct (keep x); constructor; exact IH.
Qed.

Lemma inRange_spec (r : TimeRange.t) (m : SystemMetrics.t) :
  inRange r m = true <->
  JS.Le (TimeRange.from r) (num_of (SystemMetrics.timestamp m))
  /\ JS.Le (num_of (SystemMetrics.timestamp m)) (TimeRange.to r).
Proof.
  unfold inRange. rewrite andb_true_iff, JSFacts.ge_Le, JSFacts.le_Le. tauto.
Qed.

(** Between integer bounds the comparison is the one of the integers. *)
Lemma Le_of_Z (a b : Z) : JS.Le (num_of a) (num_of b) <-> a <= b.
Proof. simpl. rewrite <- Zle_Qle. tauto. Qed.

Lemma Lt_of_Z (a b : Z) : JS.Lt (num_of a) (num_of b) <-> a < b.
Proof. simpl. rewrite <- Zlt_Qlt. tauto. Qed.

End StoreFacts.

(** C3: without a range [getMetrics] returns the stored snapshots in their
    stored order; with a range [from, to] it returns the order-preserving
    subsequence made of exactly the snapshots with from <= timestamp <= to,
    both ends included. *)
Theorem getMetrics_range_query (s : SystemMonitor.t) :
  getMetrics None s = SystemMonitor.metrics s
  /\ (forall r : TimeRange.t,
        Subseq (getMetrics (Some r) s) (SystemMonitor.metrics s)
        /\ getMetrics (Some r) s = filter (inRange r) (SystemMonitor.metrics s)
        /\ forall m, In m (getMetrics (Some r) s) <->
              In m (SystemMonitor.metrics s)
              /\ JS.Le (TimeRange.from r) (num_of (SystemMetrics.timestamp m))
              /\ JS.Le (num_of (SystemMetrics.timestamp m)) (TimeRange.to r))
  /\ (forall (a b : Z) (m : SystemMetrics.t),
        In m (getMetrics (Some (TimeRange.mk (num_of a) (num_of b))) s) <->
        In m (SystemMonitor.metrics s) /\ a <= SystemMetrics.timestamp m <= b).
Proof.
  split; [ reflexivity | split ].
  - intros r. simpl.
    split; [ apply StoreFacts.filter_Subseq | ].
    split; [ reflexivity | ].
    intros m. rewrite filter_In, StoreFacts.inRange_spec. tauto.
  - intros a b m. simpl. rewrite filter_In, StoreFacts.inRange_spec.
    cbn [TimeRange.from TimeRange.to].
    rewrite !StoreFacts.Le_of_Z. tauto.
Qed.

Module RetentionFacts.

Lemma or_else_not_NaN (a : num) (d : Q) : JS.or_else a (JS.Fin d) <> JS.NaN.
Proof. unfold JS.or_else. destruct a; simpl; try discriminate. destruct (negb _); discriminate. Qed.

Lemma Math_max_not_NaN (a b : num) :
  a <> JS.NaN -> b <> JS.NaN -> JS.Math_max a b <> JS.NaN.
Proof.
  unfold JS.Math_max.
  destruct a, b; simpl; intros Ha Hb; try congruence;
    match goal with |- context [Qcompare ?x ?y] => destruct (Qcompare x y) end;
    discriminate.
Qed.

Lemma maxRetention_not_NaN (s : SystemMonitor.t) : maxRetention s <> JS.NaN.
Proof.
  unfold maxRetention, Math_max4, effectiveRetention, num_of, JS.of_Z.
  repeat apply Math_max_not_NaN; apply or_else_not_NaN.
Qed.

Lemma daysToMs_not_NaN (d : num) : d <> JS.NaN -> daysToMs d <> JS.NaN.
Proof. destruct d; simpl; intros H; congruence || discriminate. Qed.

Lemma cutoffTime_not_NaN (now : Z) (s : SystemMonitor.t) : cutoffTime now s <> JS.NaN.
Proof.
  unfold cutoffTime.
  pose proof (daysToMs_not_NaN _ (maxRetention_not_NaN s)) as H.
  destruct (daysToMs (maxRetention s)); simpl; congruence || discriminate.
Qed.

(** With a finite horizon of [d] days the cut-off is [now - d * 86400000]. *)
Lemma cutoffTime_finite (now : Z) (s : SystemMonitor.t) (d : Q) :
  maxRetention s = JS.Fin d ->
  exists c, cutoffTime now s = JS.Fin c /\ (c == inject_Z now - d * 86400000)%Q.
Proof.
  intros H. unfold cutoffTime. rewrite H. simpl. eexists. split; [ reflexivity | ].
  change (inject_Z 24) with 24%Q. change (inject_Z 60) with 60%Q.
  change (inject_Z 1000) with 1000%Q. ring.
Qed.

Lemma keepMetric_spec (cutoff : num) (m : SystemMetrics.t) :
  keepMetric cutoff m = true <-> JS.Lt cutoff (num_of (SystemMetrics.timestamp m)).
Proof. unfold keepMetric. apply JSFacts.gt_Lt. Qed.

Lemma keepAlert_spec (cutoff : Z) (a : Alert.t) :
  keepAlert cutoff a = true <-> cutoff < Alert.timestamp a.
Proof. unfold keepAlert. apply Z.ltb_lt. Qed.

(** When every configured retention is a non-zero number the [|| 7]
    fallback is idle and the horizon is the largest configured value. *)
Lemma maxRetention_configured (s : SystemMonitor.t) :
  JS.truthy (MetricConfig.retention (cfgCpu s)) = true ->
  JS.truthy (MetricConfig.retention (cfgMemory s)) = true ->
  JS.truthy (MetricConfig.retention (cfgDisk s)) = true ->
  JS.truthy (MetricConfig.retention (cfgNetwork s)) = true ->
  maxRetention s = configuredMaxRetention s.
Proof.
  intros H1 H2 H3 H4.
  unfold maxRetention, configuredMaxRetention, effectiveRetention, JS.or_else.
  rewrite H1, H2, H3, H4. reflexivity.
Qed.

Lemma cleanupOldMetrics_reads (s : SystemMonitor.t) (w : World.t) :
  fst (cleanupOldMetrics s w)
    = cleanupAt (World.clock w (World.clockReads w))
        (World.clock w (S (World.clockReads w))) s
  /\ World.log (snd (cleanupOldMetrics s w)) = World.log w.
Proof. split; reflexivity. Qed.

End RetentionFacts.



Module CollectorFacts.

Lemma getCpuMetrics_log p s w :
  World.log (snd (getCpuMetrics p s w))
  = World.log w ++ errorEvents "CPU" (MetricConfig.enabled (cfgCpu s)) (cpuFailure p).
Proof.
  unfold getCpuMetrics, errorEvents, cpuFailure.
  destruct (MetricConfig.enabled (cfgCpu s)); simpl; [ | now rewrite app_nil_r ].
  destruct (cpuReadings p) as [[[cpu speed] temp] | e]; simpl;
    [ now rewrite app_nil_r | reflexivity ].
Qed.

Lemma getMemoryMetrics_log p s w :
  World.log (snd (getMemoryMetrics p s w))
  = World.log w
    ++ errorEvents "memory" (MetricConfig.enabled (cfgMemory s)) (failure (Provider.mem p)).
Proof.
  unfold getMemoryMetrics, errorEvents, failure.
  destruct (MetricConfig.enabled (cfgMemory s)); simpl; [ | now rewrite app_nil_r ].
  destruct (Provider.mem p) as [mem | e]; simpl;
    [ now rewrite app_nil_r | reflexivity ].
Qed.

Lemma getDiskMetrics_log p s w :
  World.log (snd (getDiskMetrics p s w))
  = World.log w
    ++ errorEvents "disk" (MetricConfig.enabled (cfgDisk s)) (failure (Provider.fsSize p)).
Proof.
  unfold getDiskMetrics, errorEvents, failure.
  destruct (MetricConfig.enabled (cfgDisk s)); simpl; [ | now rewrite app_nil_r ].
  destruct (Provider.fsSize p) as [fs | e]; simpl;
    [ now rewrite app_nil_r | reflexivity ].
Qed.

Lemma getNetworkMetrics_log p s w :
  World.log (snd (getNetworkMetrics p s w))
  = World.log w
    ++ errorEvents "network" (MetricConfig.enabled (cfgNetwork s))
         (failure (Provider.networkStats p)).
Proof.
  unfold getNetworkMetrics, errorEvents, failure.
  destruct (MetricConfig.enabled (cfgNetwork s)); simpl; [ | now rewrite app_nil_r ].
  destruct (Provider.networkStats p) as [ns | e]; simpl;
    [ now rewrite app_nil_r | reflexivity ].
Qed.

(** A disabled family, and a family whose provider call failed, contribute
    the zero-value record. *)
Lemma getCpuMetrics_zero p s w :
  MetricConfig.enabled (cfgCpu s) = false \/ cpuFailure p <> None ->
  fst (getCpuMetrics p s w) = Cpu.zero.
Proof.
  unfold getCpuMetrics, cpuFailure. intros [-> | H]; [ reflexivity | ].
  destruct (MetricConfig.enabled (cfgCpu s)); [ | reflexivity ]. simpl.
  destruct (cpuReadings p) as [[[cpu speed] temp] | e]; [ congruence | reflexivity ].
Qed.

Lemma getMemoryMetrics_zero p s w :
  MetricConfig.enabled (cfgMemory s) = false \/ failure (Provider.mem p) <> None ->
  fst (getMemoryMetrics p s w) = Memory.zero.
Proof.
  unfold getMemoryMetrics, failure. intros [-> | H]; [ reflexivity | ].
  destruct (MetricConfig.enabled (cfgMemory s)); [ | reflexivity ]. simpl.
  destruct (Provider.mem p); [ congruence | reflexivity ].
Qed.

Lemma getDiskMetrics_zero p s w :
  MetricConfig.enabled (cfgDisk s) = false \/ failure (Provider.fsSize p) <> None ->
  fst (getDiskMetrics p s w) = Disk.zero.
Proof.
  unfold getDiskMetrics, failure. intros [-> | H]; [ reflexivity | ].
  destruct (MetricConfig.enabled (cfgDisk s)); [ | reflexivity ]. simpl.
  destruct (Provider.fsSize p); [ congruence | reflexivity ].
Qed.

Lemma getNetworkMetrics_zero p s w :
  MetricConfig.enabled (cfgNetwork s) = false
  \/ failure (Provider.networkStats p) <> None ->
  fst (fst (getNetworkMetrics p s w)) = Network.zero.
Proof.
  unfold getNetworkMetrics, failure. intros [-> | H]; [ reflexivity | ].
  destruct (MetricConfig.enabled (cfgNetwork s)); [ | reflexivity ]. simpl.
  destruct (Provider.networkStats p); [ congruence | reflexivity ].
Qed.

(** Each record depends on the provider only through the family's own calls,
    and not on the world. *)
Lemma getCpuMetrics_own p p' s w w' :
  cpuReadings p' = cpuReadings p ->
  fst (getCpuMetrics p' s w') = fst (getCpuMetrics p s w).
Proof.
  unfold getCpuMetrics. intros ->.
  destruct (MetricConfig.enabled (cfgCpu s)); [ | reflexivity ]. simpl.
  destruct (cpuReadings p) as [[[cpu speed] temp] | e]; reflexivity.
Qed.

Lemma getMemoryMetrics_own p p' s w w' :
  Provider.mem p' = Provider.mem p ->
  fst (getMemoryMetrics p' s w') = fst (getMemoryMetrics p s w).
Proof.
  unfold getMemoryMetrics. intros ->.
  destruct (MetricConfig.enabled (cfgMemory s)); [ | reflexivity ]. simpl.
  destruct (Provider.mem p); reflexivity.
Qed.

Lemma getDiskMetrics_own p p' s w w' :
  Provider.fsSize p' = Provider.fsSize p ->
  fst (getDiskMetrics p' s w') = fst (getDiskMetrics p s w).
Proof.
  unfold getDiskMetrics. intros ->.
  destruct (MetricConfig.enabled (cfgDisk s)); [ | reflexivity ]. simpl.
  destruct (Provider.fsSize p); reflexivity.
Qed.

Lemma getNetworkMetrics_own p p' s w w' :
  Provider.networkStats p' = Provider.networkStats p ->
  fst (fst (getNetworkMetrics p' s w')) = fst (fst (getNetworkMetrics p s w)).
Proof.
  unfold getNetworkMetrics. intros ->.
  destruct (MetricConfig.enabled (cfgNetwork s)); [ | reflexivity ]. simpl.
  destruct (Provider.networkStats p); reflexivity.
Qed.

(** The monitor comes out of the network collector with only
    [lastNetworkStats] possibly changed. *)
Lemma getNetworkMetrics_monitor p s w :
  let s' := snd (fst (getNetworkMetrics p s w)) in
  SystemMonitor.isRunning s' = SystemMonitor.isRunning s
  /\ SystemMonitor.intervalId s' = SystemMonitor.intervalId s
  /\ SystemMonitor.config s' = SystemMonitor.config s
  /\ SystemMonitor.startTime s' = SystemMonitor.startTime s
  /\ SystemMonitor.metrics s' = SystemMonitor.metrics s
  /\ SystemMonitor.alerts s' = SystemMonitor.alerts s.
Proof.
  unfold getNetworkMetrics.
  destruct (MetricConfig.enabled (cfgNetwork s)); simpl; [ | tauto ].
  destruct (Provider.networkStats p); simpl; tauto.
Qed.

(** With both required cpu calls answered the record keeps the rounded load
    and the core count; a failing temperature call leaves the temperature out. *)
Lemma getCpuMetrics_tolerates p s w (load : CurrentLoad.t) (speed : CpuSpeed.t) :
  MetricConfig.enabled (cfgCpu s) = true ->
  Provider.currentLoad p = Ok load -> Provider.cpuCurrentSpeed p = Ok speed ->
  cpuFailure p = None
  /\ Cpu.usage (fst (getCpuMetrics p s w)) = JS.Math_round (CurrentLoad.currentLoad load)
  /\ Cpu.cores (fst (getCpuMetrics p s w)) = CurrentLoad.cpus load
  /\ (failure (Provider.cpuTemperature p) <> None ->
      Cpu.temperature (fst (getCpuMetrics p s w)) = None).
Proof.
  intros He Hl Hs. unfold cpuFailure, getCpuMetrics, cpuReadings, failure.
  rewrite He, Hl, Hs. cbn. repeat split.
  destruct (Provider.cpuTemperature p); [ congruence | reflexivity ].
Qed.

End CollectorFacts.

Module TickFacts.

Lemma publishAlerts_monitor (als : list Alert.t) (s : SystemMonitor.t) (w : World.t) :
  let s' := fst (publishAlerts als s w) in
  SystemMonitor.isRunning s' = SystemMonitor.isRunning s
  /\ SystemMonitor.intervalId s' = SystemMonitor.intervalId s
  /\ SystemMonitor.config s' = SystemMonitor.config s
  /\ SystemMonitor.startTime s' = SystemMonitor.startTime s
  /\ SystemMonitor.metrics s' = SystemMonitor.metrics s.
Proof.
  revert s w. induction als as [| a als IH]; intros s w; simpl; [ tauto | ].
  unfold bind. simpl. apply (IH (pushAlert a s)).
Qed.

Lemma checkAlerts_monitor (m : SystemMetrics.t) (s : SystemMonitor.t) (w : World.t) :
  let s' := fst (checkAlerts m s w) in
  SystemMonitor.isRunning s' = SystemMonitor.isRunning s
  /\ SystemMonitor.intervalId s' = SystemMonitor.intervalId s
  /\ SystemMonitor.config s' = SystemMonitor.config s
  /\ SystemMonitor.startTime s' = SystemMonitor.startTime s
  /\ SystemMonitor.metrics s' = SystemMonitor.metrics s.
Proof.
  unfold checkAlerts, bind. destruct (evaluate m s w) as [als w1].
  apply publishAlerts_monitor.
Qed.

Lemma checkAlerts_log (m : SystemMetrics.t) (s : SystemMonitor.t) (w : World.t) :
  World.log (snd (checkAlerts m s w))
  = World.log w ++ map Event.alert (fst (evaluate m s w)).
Proof.
  unfold checkAlerts, bind.
  pose proof (AlertPublication.evaluate_log m s w) as Hlog.
  destruct (evaluate m s w) as [als w1]. simpl in *.
  destruct (AlertFacts.publishAlerts_alerts als s w1) as [_ H]. rewrite H, Hlog.
  reflexivity.
Qed.

Lemma Forall_alert_events (als : list Alert.t) :
  Forall isAlertEvent (map Event.alert als).
Proof. induction als; simpl; constructor; simpl; auto. Qed.

(** One tick of a running monitor, laid out. *)
Lemma collectMetrics_running (p : Provider.t) (s : SystemMonitor.t) (w : World.t) :
  SystemMonitor.isRunning s = true ->
  let snap := tickSnapshot p s w in
  exists (alertEvents : list Event.t) (now1 : Z),
    Forall isAlertEvent alertEvents
    /\ emitted (collectMetrics p s) w =
         errorEvents "CPU" (MetricConfig.enabled (cfgCpu s)) (cpuFailure p)
         ++ errorEvents "memory" (MetricConfig.enabled (cfgMemory s))
              (failure (Provider.mem p))
         ++ errorEvents "disk" (MetricConfig.enabled (cfgDisk s))
              (failure (Provider.fsSize p))
         ++ errorEvents "network" (MetricConfig.enabled (cfgNetwork s))
              (failure (Provider.networkStats p))
         ++ alertEvents
         ++ [Event.metrics snap; Event.metricsCollected snap]
    /\ SystemMonitor.metrics (fst (collectMetrics p s w))
       = filter (keepMetric (cutoffTime now1 s)) (SystemMonitor.metrics s ++ [snap])
    /\ SystemMonitor.isRunning (fst (collectMetrics p s w)) = true
    /\ SystemMonitor.intervalId (fst (collectMetrics p s w)) = SystemMonitor.intervalId s.
Proof.
  intros Hrun snap. subst snap.
  unfold emitted, tickSnapshot.
  remember (collectMetrics p s w) as r eqn:E.
  unfold collectMetrics in E. rewrite Hrun in E. cbn [negb] in E. unfold bind in E.
  destruct (Date_now w) as [t w0] eqn:Et.
  assert (L0 : World.log w0 = World.log w).
  { apply (f_equal snd) in Et. simpl in Et. subst w0. reflexivity. }
  cbn [fst snd] in *.
  pose proof (CollectorFacts.getCpuMetrics_log p s w0) as Lc.
  destruct (getCpuMetrics p s w0) as [cpu w1]. cbn [fst snd] in *.
  pose proof (CollectorFacts.getMemoryMetrics_log p s w1) as Lm.
  destruct (getMemoryMetrics p s w1) as [mem w2]. cbn [fst snd] in *.
  pose proof (CollectorFacts.getDiskMetrics_log p s w2) as Ld.
  destruct (getDiskMetrics p s w2) as [dsk w3]. cbn [fst snd] in *.
  pose proof (CollectorFacts.getNetworkMetrics_log p s w3) as Ln.
  pose proof (CollectorFacts.getNetworkMetrics_monitor p s w3) as Mn.
  destruct (getNetworkMetrics p s w3) as [[net sn] w4]. cbn [fst snd] in *.
  destruct Mn as [Mrun [Mid [Mcfg [Mst [Mmet Mal]]]]].
  set (snap := SystemMetrics.mk t cpu mem dsk net) in *.
  pose proof (RetentionFacts.cleanupOldMetrics_reads (pushMetrics snap sn) w4) as [Cs Cl].
  destruct (cleanupOldMetrics (pushMetrics snap sn) w4) as [s1 w5]. cbn [fst snd] in *.
  assert (Hs1 : SystemMonitor.isRunning s1 = true
                /\ SystemMonitor.intervalId s1 = SystemMonitor.intervalId s
                /\ SystemMonitor.metrics s1
                   = filter (keepMetric (cutoffTime (World.clock w4 (World.clockReads w4)) s))
                       (SystemMonitor.metrics s ++ [snap])).
  { subst s1. unfold cleanupAt, pushMetrics. cbn. rewrite Mrun, Mid, Mmet.
    repeat split; auto. unfold cutoffTime, maxRetention, cfgCpu, cfgMemory, cfgDisk, cfgNetwork.
    cbn. rewrite Mcfg. reflexivity. }
  destruct Hs1 as [R1 [I1 M1]].
  exists (if AlertsConfig.enabled (Config.alerts (SystemMonitor.config s1))
          then map Event.alert (fst (evaluate snap s1 w5)) else []),
         (World.clock w4 (World.clockReads w4)).
  pose proof (checkAlerts_monitor snap s1 w5) as Ma.
  pose proof (checkAlerts_log snap s1 w5) as La.
  destruct (AlertsConfig.enabled (Config.alerts (SystemMonitor.config s1))).
  - destruct (checkAlerts snap s1 w5) as [s2 w6]. cbn [fst snd] in *.
    destruct Ma as [Ra [Ia [_ [_ Mma]]]].
    subst r. cbn.
    split; [ apply Forall_alert_events | ].
    split.
    { rewrite La, Cl, Ln, Ld, Lm, Lc, L0.
      rewrite <- !app_assoc. rewrite AlertPublication.skipn_app_exact.
      reflexivity. }
    rewrite Mma, Ra, Ia. auto.
  - subst r. cbn. split; [ constructor | ].
    split.
    { rewrite Cl, Ln, Ld, Lm, Lc, L0.
      rewrite <- !app_assoc. rewrite AlertPublication.skipn_app_exact.
      reflexivity. }
    auto.
Qed.

Lemma collectMetrics_stopped (p : Provider.t) (s : SystemMonitor.t) (w : World.t) :
  SystemMonitor.isRunning s = false -> collectMetrics p s w = (s, w).
Proof. intros H. unfold collectMetrics. rewrite H. reflexivity. Qed.

End TickFacts.

Module ListenerFacts.

(** With a listener, or when the family's call does not fail, the collector
    returns what the collector of the listening monitor returns and leaves
    the monitor alone. *)
Lemma getCpuMetrics_returns (listening : bool) p s w :
  listening = true \/ MetricConfig.enabled (cfgCpu s) = false \/ cpuFailure p = None ->
  Emitter.getCpuMetrics listening p (s, w)
  = (Outcome.returned (fst (getCpuMetrics p s w)), (s, snd (getCpuMetrics p s w))).
Proof.
  unfold Emitter.getCpuMetrics, getCpuMetrics, cpuFailure, Emitter.bindT, Emitter.this.
  cbn [fst snd].
  destruct (MetricConfig.enabled (cfgCpu s)); cbn [negb]; [ | reflexivity ].
  destruct (cpuReadings p) as [[[cpu speed] temp] | e]; [ reflexivity | ].
  intros [-> | [H | H]]; try discriminate. reflexivity.
Qed.

Lemma getMemoryMetrics_returns (listening : bool) p s w :
  listening = true \/ MetricConfig.enabled (cfgMemory s) = false
  \/ failure (Provider.mem p) = None ->
  Emitter.getMemoryMetrics listening p (s, w)
  = (Outcome.returned (fst (getMemoryMetrics p s w)), (s, snd (getMemoryMetrics p s w))).
Proof.
  unfold Emitter.getMemoryMetrics, getMemoryMetrics, failure, Emitter.bindT, Emitter.this.
  cbn [fst snd].
  destruct (MetricConfig.enabled (cfgMemory s)); cbn [negb]; [ | reflexivity ].
  destruct (Provider.mem p) as [mem | e]; [ reflexivity | ].
  intros [-> | [H | H]]; try discriminate. reflexivity.
Qed.

Lemma getDiskMetrics_returns (listening : bool) p s w :
  listening = true \/ MetricConfig.enabled (cfgDisk s) = false
  \/ failure (Provider.fsSize p) = None ->
  Emitter.getDiskMetrics listening p (s, w)
  = (Outcome.returned (fst (getDiskMetrics p s w)), (s, snd (getDiskMetrics p s w))).
Proof.
  unfold Emitter.getDiskMetrics, getDiskMetrics, failure, Emitter.bindT, Emitter.this.
  cbn [fst snd].
  destruct (MetricConfig.enabled (cfgDisk s)); cbn [negb]; [ | reflexivity ].
  destruct (Provider.fsSize p) as [fs | e]; [ reflexivity | ].
  intros [-> | [H | H]]; try discriminate. reflexivity.
Qed.

Lemma getNetworkMetrics_returns (listening : bool) p s w :
  listening = true \/ MetricConfig.enabled (cfgNetwork s) = false
  \/ failure (Provider.networkStats p) = None ->
  Emitter.getNetworkMetrics listening p (s, w)
  = (Outcome.returned (fst (fst (getNetworkMetrics p s w))),
     (snd (fst (getNetworkMetrics p s w)), snd (getNetworkMetrics p s w))).
Proof.
  unfold Emitter.getNetworkMetrics, getNetworkMetrics, failure, Emitter.bindT, Emitter.this.
  cbn [fst snd].
  destruct (MetricConfig.enabled (cfgNetwork s)); cbn [negb]; [ | reflexivity ].
  destruct (Provider.networkStats p) as [stats | e]; [ reflexivity | ].
  intros [-> | [H | H]]; try discriminate. reflexivity.
Qed.

(** Without a listener a failing call of an enabled family makes the
    collector throw the error it meant to emit, before anything changes. *)
Lemma getCpuMetrics_throws p s w e :
  MetricConfig.enabled (cfgCpu s) = true -> cpuFailure p = Some e ->
  Emitter.getCpuMetrics false p (s, w)
  = (Outcome.thrown ("Failed to get CPU metrics: " ++ e)%string, (s, w)).
Proof.
  unfold Emitter.getCpuMetrics, cpuFailure, Emitter.bindT, Emitter.this.
  cbn [fst snd]. intros -> H. cbn [negb].
  destruct (cpuReadings p) as [[[cpu speed] temp] | e']; [ discriminate | ].
  injection H as <-. reflexivity.
Qed.

Lemma getMemoryMetrics_throws p s w e :
  MetricConfig.enabled (cfgMemory s) = true -> failure (Provider.mem p) = Some e ->
  Emitter.getMemoryMetrics false p (s, w)
  = (Outcome.thrown ("Failed to get memory metrics: " ++ e)%string, (s, w)).
Proof.
  unfold Emitter.getMemoryMetrics, failure, Emitter.bindT, Emitter.this.
  cbn [fst snd]. intros -> H. cbn [negb].
  destruct (Provider.mem p) as [mem | e']; [ discriminate | ].
  injection H as <-. reflexivity.
Qed.

Lemma getDiskMetrics_throws p s w e :
  MetricConfig.enabled (cfgDisk s) = true -> failure (Provider.fsSize p) = Some e ->
  Emitter.getDiskMetrics false p (s, w)
  = (Outcome.thrown ("Failed to get disk metrics: " ++ e)%string, (s, w)).
Proof.
  unfold Emitter.getDiskMetrics, failure, Emitter.bindT, Emitter.this.
  cbn [fst snd]. intros -> H. cbn [negb].
  destruct (Provider.fsSize p) as [fs | e']; [ discriminate | ].
  injection H as <-. reflexivity.
Qed.

Lemma getNetworkMetrics_throws p s w e :
  MetricConfig.enabled (cfgNetwork s) = true ->
  failure (Provider.networkStats p) = Some e ->
  Emitter.getNetworkMetrics false p (s, w)
  = (Outcome.thrown ("Failed to get network metrics: " ++ e)%string, (s, w)).
Proof.
  unfold Emitter.getNetworkMetrics, failure, Emitter.bindT, Emitter.this.
  cbn [fst snd]. intros -> H. cbn [negb].
  destruct (Provider.networkStats p) as [stats | e']; [ discriminate | ].
  injection H as <-. reflexivity.
Qed.

End ListenerFacts.

Module TickOutcome.

Lemma firstFailure_None p s :
  firstFailure p s = None ->
  (MetricConfig.enabled (cfgCpu s) = false \/ cpuFailure p = None)
  /\ (MetricConfig.enabled (cfgMemory s) = false \/ failure (Provider.mem p) = None)
  /\ (MetricConfig.enabled (cfgDisk s) = false \/ failure (Provider.fsSize p) = None)
  /\ (MetricConfig.enabled (cfgNetwork s) = false
      \/ failure (Provider.networkStats p) = None).
Proof.
  unfold firstFailure, errorEvents.
  destruct (MetricConfig.enabled (cfgCpu s)), (cpuFailure p),
    (MetricConfig.enabled (cfgMemory s)), (failure (Provider.mem p)),
    (MetricConfig.enabled (cfgDisk s)), (failure (Provider.fsSize p)),
    (MetricConfig.enabled (cfgNetwork s)), (failure (Provider.networkStats p));
    cbn; intros H; try discriminate; repeat split; auto.
Qed.

(** A tick that has no error to report, or whose errors are heard, returns,
    and is the tick of the listening monitor. *)
Lemma collectMetrics_returns (listening : bool) p s w :
  SystemMonitor.isRunning s = true ->
  listening = true \/ firstFailure p s = None ->
  Emitter.collectMetrics listening p (s, w) = (Outcome.returned tt, collectMetrics p s w).
Proof.
  intros Hrun Hl.
  assert (Hc : listening = true \/ MetricConfig.enabled (cfgCpu s) = false
               \/ cpuFailure p = None)
    by (destruct Hl as [-> | H]; [ left; reflexivity
                                 | right; apply (firstFailure_None p s H) ]).
  assert (Hm : listening = true \/ MetricConfig.enabled (cfgMemory s) = false
               \/ failure (Provider.mem p) = None)
    by (destruct Hl as [-> | H]; [ left; reflexivity
                                 | right; apply (firstFailure_None p s H) ]).
  assert (Hd : listening = true \/ MetricConfig.enabled (cfgDisk s) = false
               \/ failure (Provider.fsSize p) = None)
    by (destruct Hl as [-> | H]; [ left; reflexivity
                                 | right; apply (firstFailure_None p s H) ]).
  assert (Hn : listening = true \/ MetricConfig.enabled (cfgNetwork s) = false
               \/ failure (Provider.networkStats p) = None)
    by (destruct Hl as [-> | H]; [ left; reflexivity
                                 | right; apply (firstFailure_None p s H) ]).
  unfold Emitter.collectMetrics, collectMetrics.
  unfold Emitter.bindT at 1. unfold Emitter.this at 1. cbn [fst snd].
  rewrite Hrun. cbn [negb].
  unfold Emitter.tryCatch, bind.
  unfold Emitter.bindT at 1. unfold Emitter.lift at 1. cbn [fst snd].
  destruct (Date_now w) as [timestamp w1].
  unfold Emitter.bindT at 1.
  rewrite (ListenerFacts.getCpuMetrics_returns listening p s w1 Hc).
  destruct (getCpuMetrics p s w1) as [cpu w2]. cbn [fst snd].
  unfold Emitter.bindT at 1.
  rewrite (ListenerFacts.getMemoryMetrics_returns listening p s w2 Hm).
  destruct (getMemoryMetrics p s w2) as [memory w3]. cbn [fst snd].
  unfold Emitter.bindT at 1.
  rewrite (ListenerFacts.getDiskMetrics_returns listening p s w3 Hd).
  destruct (getDiskMetrics p s w3) as [disk w4]. cbn [fst snd].
  unfold Emitter.bindT at 1.
  rewrite (ListenerFacts.getNetworkMetrics_returns listening p s w4 Hn).
  destruct (getNetworkMetrics p s w4) as [[network s0] w5]. cbn [fst snd].
  unfold Emitter.bindT, Emitter.method, Emitter.this, Emitter.lift, Emitter.retT, ret.
  cbn [fst snd].
  destruct (cleanupOldMetrics _ w5) as [s1 w6]. cbn [fst snd].
  destruct (AlertsConfig.enabled (Config.alerts (SystemMonitor.config s1))).
  - cbn [fst snd]. destruct (checkAlerts _ s1 w6) as [s2 w7]. unfold emit. cbn. reflexivity.
  - unfold emit. cbn. reflexivity.
Qed.

Lemma quiet_cpu p s w :
  MetricConfig.enabled (cfgCpu s) = false \/ cpuFailure p = None ->
  snd (getCpuMetrics p s w) = w.
Proof.
  unfold getCpuMetrics, cpuFailure.
  destruct (MetricConfig.enabled (cfgCpu s)); cbn [negb]; [ | reflexivity ].
  destruct (cpuReadings p) as [[[cpu speed] temp] | e]; [ reflexivity | ].
  intros [H | H]; discriminate.
Qed.

Lemma quiet_memory p s w :
  MetricConfig.enabled (cfgMemory s) = false \/ failure (Provider.mem p) = None ->
  snd (getMemoryMetrics p s w) = w.
Proof.
  unfold getMemoryMetrics, failure.
  destruct (MetricConfig.enabled (cfgMemory s)); cbn [negb]; [ | reflexivity ].
  destruct (Provider.mem p) as [mem | e]; [ reflexivity | ].
  intros [H | H]; discriminate.
Qed.

Lemma quiet_disk p s w :
  MetricConfig.enabled (cfgDisk s) = false \/ failure (Provider.fsSize p) = None ->
  snd (getDiskMetrics p s w) = w.
Proof.
  unfold getDiskMetrics, failure.
  destruct (MetricConfig.enabled (cfgDisk s)); cbn [negb]; [ | reflexivity ].
  destruct (Provider.fsSize p) as [fs | e]; [ reflexivity | ].
  intros [H | H]; discriminate.
Qed.

(** Without a listener, a tick that has an error to report throws it at the
    first failing family: only the timestamp has been read, the monitor is
    as the tick found it, nothing has joined the log. *)
Lemma collectMetrics_throws p s w message :
  SystemMonitor.isRunning s = true ->
  firstFailure p s = Some message ->
  Emitter.collectMetrics false p (s, w)
  = (Outcome.thrown message, (s, snd (Date_now w))).
Proof.
  intros Hrun Hf.
  unfold Emitter.collectMetrics.
  unfold Emitter.bindT at 1. unfold Emitter.this at 1. cbn [fst snd].
  rewrite Hrun. cbn [negb].
  unfold Emitter.tryCatch.
  unfold Emitter.bindT at 1. unfold Emitter.lift at 1. cbn [fst snd].
  destruct (Date_now w) as [timestamp w1]. cbn [snd].
  unfold firstFailure, errorEvents in Hf.
  (* cpu *)
  unfold Emitter.bindT at 1.
  destruct (MetricConfig.enabled (cfgCpu s)) eqn:Ec;
    [ destruct (cpuFailure p) as [e|] eqn:Fc | ].
  { rewrite (ListenerFacts.getCpuMetrics_throws p s w1 e Ec Fc).
    cbn in Hf. injection Hf as <-. reflexivity. }
  all: rewrite (ListenerFacts.getCpuMetrics_returns false p s w1)
         by (right; first [ left; exact Ec | right; exact Fc ]);
       rewrite (quiet_cpu p s w1) by (first [ left; exact Ec | right; exact Fc ]);
       cbn [fst snd]; cbn [app] in Hf.
  (* memory *)
  all: unfold Emitter.bindT at 1;
       destruct (MetricConfig.enabled (cfgMemory s)) eqn:Em;
         [ destruct (failure (Provider.mem p)) as [e|] eqn:Fm | ].
  1, 4: rewrite (ListenerFacts.getMemoryMetrics_throws p s w1 e Em Fm);
        cbn in Hf; injection Hf as <-; reflexivity.
  all: rewrite (ListenerFacts.getMemoryMetrics_returns false p s w1)
         by (right; first [ left; exact Em | right; exact Fm ]);
       rewrite (quiet_memory p s w1) by (first [ left; exact Em | right; exact Fm ]);
       cbn [fst snd]; cbn [app] in Hf.
  (* disk *)
  all: unfold Emitter.bindT at 1;
       destruct (MetricConfig.enabled (cfgDisk s)) eqn:Ed;
         [ destruct (failure (Provider.fsSize p)) as [e|] eqn:Fd | ].
  1, 4, 7, 10: rewrite (ListenerFacts.getDiskMetrics_throws p s w1 e Ed Fd);
        cbn in Hf; injection Hf as <-; reflexivity.
  all: rewrite (ListenerFacts.getDiskMetrics_returns false p s w1)
         by (right; first [ left; exact Ed | right; exact Fd ]);
       rewrite (quiet_disk p s w1) by (first [ left; exact Ed | right; exact Fd ]);
       cbn [fst snd]; cbn [app] in Hf.
  (* network *)
  all: unfold Emitter.bindT at 1;
       destruct (MetricConfig.enabled (cfgNetwork s)) eqn:En;
         [ destruct (failure (Provider.networkStats p)) as [e|] eqn:Fn | ];
       try discriminate.
  all: rewrite (ListenerFacts.getNetworkMetrics_throws p s w1 e En Fn);
       cbn in Hf; injection Hf as <-; reflexivity.
Qed.

(** The timer callback adds nothing: what the tick throws, its handler
    throws again. *)
Lemma onInterval_collectMetrics (listening : bool) p s w :
  Emitter.onInterval listening p (s, w) = Emitter.collectMetrics listening p (s, w).
Proof.
  unfold Emitter.onInterval, Emitter.tryCatch.
  destruct (SystemMonitor.isRunning s) eqn:Hrun.
  - destruct listening.
    + rewrite (collectMetrics_returns true p s w Hrun) by (left; reflexivity). reflexivity.
    + destruct (firstFailure p s) as [message|] eqn:Hf.
      * rewrite (collectMetrics_throws p s w message Hrun Hf). reflexivity.
      * rewrite (collectMetrics_returns false p s w Hrun) by (right; exact Hf). reflexivity.
  - unfold Emitter.collectMetrics, Emitter.bindT, Emitter.this. cbn [fst snd].
    rewrite Hrun. reflexivity.
Qed.

End TickOutcome.

(** The tick of a monitor whose errors are heard: the snapshot is assembled
    and emitted whatever the provider calls did; a family that is disabled,
    or whose provider call failed, contributes its zero-value record; a
    failure of an enabled family also emits an [error] event naming the
    family and the cause; each family's record is the one its own provider
    calls determine. *)
Lemma listening_tick_survives_failures
    (p : Provider.t) (s : SystemMonitor.t) (w : World.t) :
  SystemMonitor.isRunning s = true ->
  let snap := tickSnapshot p s w in
  let trace := emitted (collectMetrics p s) w in
  (exists alertEvents,
      Forall isAlertEvent alertEvents
      /\ trace =
           errorEvents "CPU" (MetricConfig.enabled (cfgCpu s)) (cpuFailure p)
           ++ errorEvents "memory" (MetricConfig.enabled (cfgMemory s))
                (failure (Provider.mem p))
           ++ errorEvents "disk" (MetricConfig.enabled (cfgDisk s))
                (failure (Provider.fsSize p))
           ++ errorEvents "network" (MetricConfig.enabled (cfgNetwork s))
                (failure (Provider.networkStats p))
           ++ alertEvents
           ++ [Event.metrics snap; Event.metricsCollected snap])
  /\ SystemMonitor.isRunning (fst (collectMetrics p s w)) = true
  /\ ((MetricConfig.enabled (cfgCpu s) = false \/ cpuFailure p <> None ->
       SystemMetrics.cpu snap = Cpu.zero)
      /\ (forall e, MetricConfig.enabled (cfgCpu s) = true -> cpuFailure p = Some e ->
            In (Event.error ("Failed to get CPU metrics: " ++ e)) trace)
      /\ (forall p' w', cpuReadings p' = cpuReadings p ->
            SystemMetrics.cpu snap = fst (getCpuMetrics p' s w'))
      /\ (forall load speed, MetricConfig.enabled (cfgCpu s) = true ->
            Provider.currentLoad p = Ok load -> Provider.cpuCurrentSpeed p = Ok speed ->
            cpuFailure p = None
            /\ Cpu.usage (SystemMetrics.cpu snap)
               = JS.Math_round (CurrentLoad.currentLoad load)
            /\ Cpu.cores (SystemMetrics.cpu snap) = CurrentLoad.cpus load
            /\ (failure (Provider.cpuTemperature p) <> None ->
                Cpu.temperature (SystemMetrics.cpu snap) = None)))
  /\ ((MetricConfig.enabled (cfgMemory s) = false \/ failure (Provider.mem p) <> None ->
       SystemMetrics.memory snap = Memory.zero)
      /\ (forall e, MetricConfig.enabled (cfgMemory s) = true ->
            failure (Provider.mem p) = Some e ->
            In (Event.error ("Failed to get memory metrics: " ++ e)) trace)
      /\ (forall p' w', Provider.mem p' = Provider.mem p ->
            SystemMetrics.memory snap = fst (getMemoryMetrics p' s w')))
  /\ ((MetricConfig.enabled (cfgDisk s) = false \/ failure (Provider.fsSize p) <> None ->
       SystemMetrics.disk snap = Disk.zero)
      /\ (forall e, MetricConfig.enabled (cfgDisk s) = true ->
            failure (Provider.fsSize p) = Some e ->
            In (Event.error ("Failed to get disk metrics: " ++ e)) trace)
      /\ (forall p' w', Provider.fsSize p' = Provider.fsSize p ->
            SystemMetrics.disk snap = fst (getDiskMetrics p' s w')))
  /\ ((MetricConfig.enabled (cfgNetwork s) = false
       \/ failure (Provider.networkStats p) <> None ->
       SystemMetrics.network snap = Network.zero)
      /\ (forall e, MetricConfig.enabled (cfgNetwork s) = true ->
            failure (Provider.networkStats p) = Some e ->
            In (Event.error ("Failed to get network metrics: " ++ e)) trace)
      /\ (forall p' w', Provider.networkStats p' = Provider.networkStats p ->
            SystemMetrics.network snap = fst (fst (getNetworkMetrics p' s w'))))
  /\ (Cpu.usage Cpu.zero = num_of 0 /\ Memory.usage Memory.zero = num_of 0
      /\ Disk.usage Disk.zero = num_of 0 /\ Disk.devices Disk.zero = []
      /\ Network.interfaces Network.zero = []).
Proof.
  intros Hrun snap trace.
  destruct (TickFacts.collectMetrics_running p s w Hrun)
    as [alertEvents [now1 [Hal [Htrace [_ [Hstill _]]]]]].
  fold snap in Htrace. fold trace in Htrace.
  split; [ exists alertEvents; split; assumption | ].
  split; [ exact Hstill | ].
  split; [ | split; [ | split; [ | split ] ] ].
  - split; [ | split; [ | split ] ].
    + intros H. apply (CollectorFacts.getCpuMetrics_zero p s _ H).
    + intros e He Hf. rewrite Htrace, He, Hf. simpl. left. reflexivity.
    + intros p' w' Hp. symmetry. apply CollectorFacts.getCpuMetrics_own. exact Hp.
    + intros load speed He Hl Hs. unfold snap, tickSnapshot. cbn [SystemMetrics.cpu].
      apply (CollectorFacts.getCpuMetrics_tolerates p s _ load speed); assumption.
  - split; [ | split ].
    + intros H. apply (CollectorFacts.getMemoryMetrics_zero p s _ H).
    + intros e He Hf. rewrite Htrace, He, Hf.
      apply in_or_app. right. simpl. left. reflexivity.
    + intros p' w' Hp. symmetry. apply CollectorFacts.getMemoryMetrics_own. exact Hp.
  - split; [ | split ].
    + intros H. apply (CollectorFacts.getDiskMetrics_zero p s _ H).
    + intros e He Hf. rewrite Htrace, He, Hf.
      apply in_or_app. right. apply in_or_app. right. simpl. left. reflexivity.
    + intros p' w' Hp. symmetry. apply CollectorFacts.getDiskMetrics_own. exact Hp.
  - split; [ | split ].
    + intros H. apply (CollectorFacts.getNetworkMetrics_zero p s _ H).
    + intros e He Hf. rewrite Htrace, He, Hf.
      apply in_or_app. right. apply in_or_app. right. apply in_or_app. right.
      simpl. left. reflexivity.
    + intros p' w' Hp. symmetry. apply CollectorFacts.getNetworkMetrics_own. exact Hp.
  - repeat split.
Qed.





Module LifecycleFacts.

Lemma start_running (p : Provider.t) (s : SystemMonitor.t) (w : World.t) :
  SystemMonitor.isRunning s = true -> start p s w = (s, w).
Proof. intros H. unfold start. rewrite H. reflexivity. Qed.

Lemma stop_stopped (s : SystemMonitor.t) (w : World.t) :
  SystemMonitor.isRunning s = false -> stop s w = (s, w).
Proof. intros H. unfold stop. rewrite H. reflexivity. Qed.

Lemma start_result (p : Provider.t) (s : SystemMonitor.t) (w : World.t) :
  SystemMonitor.isRunning s = false ->
  SystemMonitor.isRunning (fst (start p s w)) = true
  /\ SystemMonitor.intervalId (fst (start p s w)) = Some (World.nextTimer w)
  /\ SystemMonitor.startTime (fst (start p s w)) = World.clock w (World.clockReads w)
  /\ SystemMonitor.metrics (fst (start p s w)) = SystemMonitor.metrics s
  /\ SystemMonitor.alerts (fst (start p s w)) = SystemMonitor.alerts s
  /\ In Event.started (emitted (start p s) w)
  /\ In (World.nextTimer w) (World.timers (snd (start p s w))).
Proof.
  intros H. unfold emitted, start. rewrite H. unfold bind, when.
  destruct (Config.debug (SystemMonitor.config s)); cbn;
    rewrite ?AlertPublication.skipn_app_exact;
    repeat split; auto.
  - rewrite <- app_assoc. rewrite AlertPublication.skipn_app_exact.
    simpl. auto.
  - simpl. auto.
Qed.

Lemma stop_result (s : SystemMonitor.t) (w : World.t) :
  SystemMonitor.isRunning s = true ->
  SystemMonitor.isRunning (fst (stop s w)) = false
  /\ SystemMonitor.intervalId (fst (stop s w)) = None
  /\ SystemMonitor.metrics (fst (stop s w)) = SystemMonitor.metrics s
  /\ SystemMonitor.alerts (fst (stop s w)) = SystemMonitor.alerts s
  /\ In Event.stopped (emitted (stop s) w)
  /\ (forall id, SystemMonitor.intervalId s = Some id ->
                 ~ In id (World.timers (snd (stop s w)))).
Proof.
  intros H. unfold emitted, stop. rewrite H. unfold bind, when. cbn [negb].
  destruct (SystemMonitor.intervalId s) as [id|];
    destruct (Config.debug (SystemMonitor.config s)); cbn;
    rewrite ?AlertPublication.skipn_app_exact;
    repeat split; auto; try (simpl; auto; fail);
    try (rewrite <- app_assoc; rewrite AlertPublication.skipn_app_exact; simpl; auto; fail);
    try (intros id' Hid; discriminate);
    intros id' Hid Hin; injection Hid as <-;
    apply filter_In in Hin as [_ Hne]; rewrite Nat.eqb_refl in Hne; discriminate.
Qed.

Lemma run_lifecycle (c : Call.t) (s : SystemMonitor.t) (w : World.t) :
  lifecycle (fst (run c s w)) = next c (lifecycle s).
Proof.
  unfold lifecycle. destruct c as [p | | p | n]; simpl.
  - destruct (SystemMonitor.isRunning s) eqn:E.
    + rewrite start_running by assumption. simpl. rewrite E. reflexivity.
    + destruct (start_result p s w E) as [-> _]. reflexivity.
  - destruct (SystemMonitor.isRunning s) eqn:E.
    + destruct (stop_result s w E) as [-> _]. reflexivity.
    + rewrite stop_stopped by assumption. simpl. rewrite E. reflexivity.
  - destruct (SystemMonitor.isRunning s) eqn:E.
    + destruct (TickFacts.collectMetrics_running p s w E) as [_ [_ [_ [_ [_ [-> _]]]]]].
      reflexivity.
    + rewrite TickFacts.collectMetrics_stopped by assumption. simpl. rewrite E.
      reflexivity.
  - reflexivity.
Qed.

Lemma run_wellFormed (c : Call.t) (s : SystemMonitor.t) (w : World.t) :
  wellFormed s -> wellFormed (fst (run c s w)).
Proof.
  unfold wellFormed. intros H. destruct c as [p | | p | n]; simpl.
  - destruct (SystemMonitor.isRunning s) eqn:E.
    + rewrite start_running by assumption. simpl. rewrite E. exact H.
    + destruct (start_result p s w E) as [-> [-> _]]. exact I.
  - destruct (SystemMonitor.isRunning s) eqn:E.
    + destruct (stop_result s w E) as [-> [-> _]]. exact I.
    + rewrite stop_stopped by assumption. simpl. rewrite E. exact H.
  - destruct (SystemMonitor.isRunning s) eqn:E.
    + destruct (TickFacts.collectMetrics_running p s w E) as [_ [_ [_ [_ [_ [-> ->]]]]]].
      exact H.
    + rewrite TickFacts.collectMetrics_stopped by assumption. simpl. rewrite E.
      exact H.
  - exact H.
Qed.

End LifecycleFacts.

(** C8: [start] on a running monitor and [stop] on a stopped monitor return
    at once: the monitor (running flag, timer, start time, snapshots, alerts)
    and the world (clock, timers, emitted events) are unchanged and no error
    is raised.  The lifecycle has the two states Stopped and Running: a new
    monitor is Stopped, [start] leads to Running, [stop] to Stopped, ticks
    and configuration updates stay in the current state; a stopped monitor
    holds no timer and a running one holds its timer. *)
Theorem start_stop_idempotent_two_state_lifecycle
    (p : Provider.t) (s : SystemMonitor.t) (w : World.t) :
  (SystemMonitor.isRunning s = true -> start p s w = (s, w))
  /\ (SystemMonitor.isRunning s = false -> stop s w = (s, w))
  /\ (lifecycle s = Lifecycle.Stopped \/ lifecycle s = Lifecycle.Running)
  /\ (forall c, lifecycle (fst (run c s w)) = next c (lifecycle s))
  /\ (forall c, wellFormed s -> wellFormed (fst (run c s w)))
  /\ (forall config, lifecycle (constructor config) = Lifecycle.Stopped
                     /\ wellFormed (constructor config)).
Proof.
  split; [ apply LifecycleFacts.start_running | ].
  split; [ apply LifecycleFacts.stop_stopped | ].
  split; [ unfold lifecycle; destruct (SystemMonitor.isRunning s); auto | ].
  split; [ intros c; apply LifecycleFacts.run_lifecycle | ].
  split; [ intros c; apply LifecycleFacts.run_wellFormed | ].
  intros config. split; [ reflexivity | exact I ].
Qed.

(** A second [start()] on the started sample monitor, and a [stop()] on the
    fresh one, change nothing. *)
Lemma start_stop_idempotent_witness :
  start sampleProvider runningMonitor runningWorld = (runningMonitor, runningWorld)
  /\ stop defaultMonitor world0 = (defaultMonitor, world0).
Proof.
  destruct (start_stop_idempotent_two_state_lifecycle sampleProvider runningMonitor
              runningWorld) as [Hstart _].
  destruct (start_stop_idempotent_two_state_lifecycle sampleProvider defaultMonitor
              world0) as [_ [Hstop _]].
  split; [ apply Hstart; reflexivity | apply Hstop; reflexivity ].
Defined.

(** C9: on a monitor that is not running and holds no snapshot, as every
    monitor is before [start], [healthCheck] reports the overall status
    healthy, the systemMonitor component unhealthy and the cpu, memory, disk
    and network components healthy. *)
Theorem healthCheck_before_start (s : SystemMonitor.t) (w : World.t) :
  SystemMonitor.isRunning s = false ->
  SystemMonitor.metrics s = [] ->
  let h := fst (healthCheck s w) in
  HealthStatus.status h = Health.healthy
  /\ Components.systemMonitor (HealthStatus.components h) = Health.unhealthy
  /\ Components.cpu (HealthStatus.components h) = Health.healthy
  /\ Components.memory (HealthStatus.components h) = Health.healthy
  /\ Components.disk (HealthStatus.components h) = Health.healthy
  /\ Components.network (HealthStatus.components h) = Health.healthy
  /\ HealthMetrics.uptime (HealthStatus.metrics h) = 0
  /\ HealthMetrics.metricsCollected (HealthStatus.metrics h) = 0%nat
  /\ HealthMetrics.lastMetricTime (HealthStatus.metrics h) = None.
Proof.
  intros Hrun Hmet. unfold healthCheck. rewrite Hrun, Hmet.
  cbn. repeat split.
Qed.

(** The monitor built by [new SystemMonitor()] meets the two conditions. *)
Lemma healthCheck_before_start_witness :
  SystemMonitor.isRunning defaultMonitor = false
  /\ SystemMonitor.metrics defaultMonitor = []
  /\ HealthStatus.status (fst (healthCheck defaultMonitor world0)) = Health.healthy
  /\ Components.systemMonitor
       (HealthStatus.components (fst (healthCheck defaultMonitor world0)))
     = Health.unhealthy.
Proof.
  split; [ reflexivity | ]. split; [ reflexivity | ].
  destruct (healthCheck_before_start defaultMonitor world0 eq_refl eq_refl)
    as [Hs [Hc _]].
  split; assumption.
Defined.

Module AnalysisFacts.

Lemma familyScore_between (avg : num) :
  JS.fin_nonneg avg -> JS.between 0 100 (familyScore avg).
Proof.
  destruct avg as [a| | |]; simpl; try contradiction. intros Ha.
  unfold familyScore, JS.Math_max. simpl.
  match goal with |- context [Qcompare ?u ?v] => JSFacts.qcase u v end;
    simpl; change (inject_Z 0) with 0%Q in *; change (inject_Z 100) with 100%Q in *;
    split; lra.
Qed.

(** The score of three family scores in [0, 100] is in [0, 100]. *)
Lemma score_between (a b c : num) :
  JS.between 0 100 a -> JS.between 0 100 b -> JS.between 0 100 c ->
  JS.between 0 100 (JS.Math_round (JS.div (JS.add (JS.add a b) c) (num_of 3))).
Proof.
  destruct a as [x| | |], b as [y| | |], c as [z| | |]; simpl; try tauto.
  intros [Hx0 Hx1] [Hy0 Hy1] [Hz0 Hz1].
  apply (Rounding.round_between ((x + y + z) / inject_Z 3)).
  - apply Qle_shift_div_l; [ reflexivity | ]. change (inject_Z 3) with 3%Q. lra.
  - apply Qle_shift_div_r; [ reflexivity | ]. change (inject_Z 3) with 3%Q. lra.
Qed.

Lemma healthWindow_last5 (s : SystemMonitor.t) :
  healthWindow s
  = skipn (List.length (SystemMonitor.metrics s) - 5) (SystemMonitor.metrics s).
Proof. unfold healthWindow. apply (Windows.slice_last 5). lia. Qed.

Lemma trendWindow_last10 (s : SystemMonitor.t) :
  trendWindow s
  = skipn (List.length (SystemMonitor.metrics s) - 10) (SystemMonitor.metrics s).
Proof. unfold trendWindow. apply (Windows.slice_last 10). lia. Qed.

Lemma healthWindow_nonempty (s : SystemMonitor.t) :
  SystemMonitor.metrics s <> [] -> healthWindow s <> [].
Proof. intros H. unfold healthWindow. apply (Windows.slice_last_nonempty 5); [ lia | exact H ]. Qed.

Lemma calculateHealthScore_valid (s : SystemMonitor.t) :
  Forall validUsages (healthWindow s) ->
  JS.between 0 100 (calculateHealthScore s).
Proof.
  intros H. unfold calculateHealthScore.
  destruct (healthWindow s) as [| m W] eqn:E.
  - simpl. split; discriminate.
  - assert (Hne : m :: W <> []) by discriminate.
    apply score_between; apply familyScore_between; apply Windows.average_nonneg;
      try exact Hne;
      (eapply Forall_impl; [ | exact H ]); intros x [Hc [Hm Hd]]; assumption.
Qed.

Lemma orb3_true (a b c : bool) :
  a || b || c = true <-> a = true \/ b = true \/ c = true.
Proof. destruct a, b, c; simpl; intuition discriminate. Qed.

(** The three-way verdict of two successive tests. *)
Lemma verdict_cases (u d : bool) (U D : Prop) :
  (u = true <-> U) -> (d = true <-> D) ->
  let h := if u then Health.unhealthy else if d then Health.degraded else Health.healthy in
  (h = Health.unhealthy <-> U)
  /\ (h = Health.degraded <-> ~ U /\ D)
  /\ (h = Health.healthy <-> ~ U /\ ~ D).
Proof.
  intros HU HD. destruct u, d; simpl; intuition (discriminate || auto).
Qed.

End AnalysisFacts.

(** C5 (defect shared with C1): after one tick in which the provider reports
    zero total memory, the store is not empty, the analyzer answers, and the
    health score it reports is NaN, which is not a number in [0, 100]: the
    unguarded memory ratio of that snapshot is NaN and the average, the
    family score and the rounded mean inherit it. *)
Theorem health_score_not_a_number_after_zero_total_memory :
  SystemMonitor.metrics (fst (afterOneTick zeroTotalProvider)) <> []
  /\ map memoryUsage (SystemMonitor.metrics (fst (afterOneTick zeroTotalProvider)))
     = [JS.NaN]
  /\ option_map (fun a => Summary.score (Analysis.summary a))
       (getAnalysis (fst (afterOneTick zeroTotalProvider))) = Some JS.NaN
  /\ ~ JS.between 0 100 (calculateHealthScore (fst (afterOneTick zeroTotalProvider))).
Proof.
  split; [ vm_compute; discriminate | ].
  split; [ vm_compute; reflexivity | ].
  split; [ vm_compute; reflexivity | ].
  assert (H : calculateHealthScore (fst (afterOneTick zeroTotalProvider)) = JS.NaN)
    by (vm_compute; reflexivity).
  rewrite H. simpl. tauto.
Qed.

(** The analyzer on any store.  It returns none on an empty store and an
    analysis otherwise.  Over the window of the last five snapshots and its
    per-family averages, the overall health is unhealthy iff avg cpu >= 90
    or avg memory >= 95 or avg disk >= 95, degraded iff that fails and
    avg cpu >= 80 or avg memory >= 85 or avg disk >= 85, healthy otherwise;
    the score is round((cpuScore + memoryScore + diskScore) / 3) with each
    family score max(0, 100 - avg); on an empty window the health is healthy
    and the score 100.  The score lies in [0, 100] as soon as every usage in
    the window is a finite, non-negative number. *)
Theorem analysis_health_and_score (s : SystemMonitor.t) :
  let W := healthWindow s in
  let avgCpu := average cpuUsage W in
  let avgMemory := average memoryUsage W in
  let avgDisk := average diskUsage W in
  let U := JS.Le (num_of 90) avgCpu \/ JS.Le (num_of 95) avgMemory
           \/ JS.Le (num_of 95) avgDisk in
  let D := JS.Le (num_of 80) avgCpu \/ JS.Le (num_of 85) avgMemory
           \/ JS.Le (num_of 85) avgDisk in
  (SystemMonitor.metrics s = [] -> getAnalysis s = None)
  /\ (SystemMonitor.metrics s <> [] ->
      W <> []
      /\ exists a, getAnalysis s = Some a
           /\ Summary.overallHealth (Analysis.summary a) = calculateOverallHealth s
           /\ Summary.score (Analysis.summary a) = calculateHealthScore s)
  /\ W = skipn (List.length (SystemMonitor.metrics s) - 5) (SystemMonitor.metrics s)
  /\ (W <> [] ->
      (calculateOverallHealth s = Health.unhealthy <-> U)
      /\ (calculateOverallHealth s = Health.degraded <-> ~ U /\ D)
      /\ (calculateOverallHealth s = Health.healthy <-> ~ U /\ ~ D)
      /\ calculateHealthScore s
         = JS.Math_round
             (JS.div
                (JS.add (JS.add (JS.Math_max (num_of 0) (JS.sub (num_of 100) avgCpu))
                           (JS.Math_max (num_of 0) (JS.sub (num_of 100) avgMemory)))
                   (JS.Math_max (num_of 0) (JS.sub (num_of 100) avgDisk)))
                (num_of 3)))
  /\ (W = [] ->
      calculateOverallHealth s = Health.healthy /\ calculateHealthScore s = num_of 100)
  /\ (Forall validUsages W -> JS.between 0 100 (calculateHealthScore s)).
Proof.
  intros W avgCpu avgMemory avgDisk U D.
  split.
  { intros H. unfold getAnalysis. rewrite H. reflexivity. }
  split.
  { intros H. split; [ apply AnalysisFacts.healthWindow_nonempty; exact H | ].
    unfold getAnalysis. destruct (SystemMonitor.metrics s); [ congruence | ].
    eexists. split; [ reflexivity | ]. split; reflexivity. }
  split; [ apply AnalysisFacts.healthWindow_last5 | ].
  split.
  { intros HW. unfold calculateOverallHealth, calculateHealthScore.
    fold W. destruct W as [| m W'] eqn:EW; [ congruence | ].
    fold avgCpu avgMemory avgDisk.
    assert (HU : JS.ge avgCpu (num_of 90) || JS.ge avgMemory (num_of 95)
                 || JS.ge avgDisk (num_of 95) = true <-> U).
    { rewrite AnalysisFacts.orb3_true, !JSFacts.ge_Le. reflexivity. }
    assert (HD : JS.ge avgCpu (num_of 80) || JS.ge avgMemory (num_of 85)
                 || JS.ge avgDisk (num_of 85) = true <-> D).
    { rewrite AnalysisFacts.orb3_true, !JSFacts.ge_Le. reflexivity. }
    destruct (AnalysisFacts.verdict_cases _ _ U D HU HD) as [H1 [H2 H3]].
    split; [ exact H1 | ]. split; [ exact H2 | ]. split; [ exact H3 | reflexivity ]. }
  split.
  { intros HW. unfold calculateOverallHealth, calculateHealthScore. fold W.
    rewrite HW. split; reflexivity. }
  apply AnalysisFacts.calculateHealthScore_valid.
Qed.

(** After one tick on the sample readings every usage in the window is a
    finite non-negative number, and the score, 58, is in range. *)
Lemma analysis_health_and_score_witness :
  Forall validUsages (healthWindow (fst (afterOneTick sampleProvider)))
  /\ JS.between 0 100 (calculateHealthScore (fst (afterOneTick sampleProvider)))
  /\ calculateHealthScore (fst (afterOneTick sampleProvider)) = num_of 58.
Proof.
  assert (V : Forall validUsages (healthWindow (fst (afterOneTick sampleProvider)))).
  { vm_compute. constructor; [ | constructor ].
    repeat split; discriminate. }
  split; [ exact V | ].
  split; [ | vm_compute; reflexivity ].
  destruct (analysis_health_and_score (fst (afterOneTick sampleProvider)))
    as [_ [_ [_ [_ [_ H]]]]].
  exact (H V).
Defined.

Module TrendFacts.

Lemma halfLength_nat (values : list num) :
  Z.to_nat (halfLength values) = (List.length values / 2)%nat.
Proof.
  unfold halfLength. change 2 with (Z.of_nat 2).
  rewrite <- Nat2Z.inj_div. apply Nat2Z.id.
Qed.

Lemma halfLength_bounds (values : list num) :
  0 <= halfLength values <= Z.of_nat (List.length values).
Proof.
  unfold halfLength. split.
  - apply Z.div_pos; lia.
  - apply Z.div_le_upper_bound; lia.
Qed.

(** The two slices are the prefix of length floor(n/2) and the rest. *)
Lemma halves (values : list num) :
  JS.slice 0 (Some (halfLength values)) values
    = firstn (List.length values / 2) values
  /\ JS.slice (halfLength values) None values
    = skipn (List.length values / 2) values.
Proof.
  pose proof (halfLength_bounds values) as Hb.
  rewrite Windows.slice_prefix, Windows.slice_suffix by exact Hb.
  rewrite halfLength_nat. split; reflexivity.
Qed.

Lemma half_lengths (n : nat) : (2 <= n -> 1 <= n / 2 /\ n / 2 < n)%nat.
Proof.
  intros H. split.
  - apply Nat.div_le_lower_bound; lia.
  - apply Nat.div_lt; lia.
Qed.

Lemma calculateTrend_long (values : list num) :
  (2 <= List.length values)%nat ->
  calculateTrend values
  = verdictOn (JS.sub (mean (skipn (List.length values / 2) values))
                      (mean (firstn (List.length values / 2) values))).
Proof.
  intros H. unfold calculateTrend, verdictOn.
  destruct (List.length values <? 2)%nat eqn:E; [ apply Nat.ltb_lt in E; lia | ].
  destruct (halves values) as [-> ->]. reflexivity.
Qed.

Lemma verdictOn_cases (diff : num) :
  (JS.Lt (JS.Math_abs diff) (num_of 5) -> verdictOn diff = Trend.stable)
  /\ (~ JS.Lt (JS.Math_abs diff) (num_of 5) -> JS.Lt (num_of 0) diff ->
      verdictOn diff = Trend.increasing)
  /\ (~ JS.Lt (JS.Math_abs diff) (num_of 5) -> JS.Lt diff (num_of 0) ->
      verdictOn diff = Trend.decreasing).
Proof.
  unfold verdictOn.
  destruct (JS.lt (JS.Math_abs diff) (num_of 5)) eqn:El.
  - apply JSFacts.lt_Lt in El. repeat split; intros; try reflexivity; contradiction.
  - assert (Hn : ~ JS.Lt (JS.Math_abs diff) (num_of 5)).
    { intros H. apply JSFacts.lt_Lt in H. congruence. }
    split; [ intros H; contradiction | ].
    destruct (JS.gt diff (num_of 0)) eqn:Eg.
    + split; [ reflexivity | ]. intros _ H. apply JSFacts.gt_Lt in Eg.
      destruct diff; simpl in *; try contradiction. lra.
    + split; [ | reflexivity ]. intros _ H. apply JSFacts.gt_Lt in H. congruence.
Qed.

(** On a finite difference the verdict is the comparison of rationals. *)
Lemma verdictOn_Fin (d : Q) :
  (Qabs d < 5 -> verdictOn (JS.Fin d) = Trend.stable)%Q
  /\ (5 <= d -> verdictOn (JS.Fin d) = Trend.increasing)%Q
  /\ (d <= - (5) -> verdictOn (JS.Fin d) = Trend.decreasing)%Q.
Proof.
  destruct (verdictOn_cases (JS.Fin d)) as [Hs [Hi Hd]].
  simpl in Hs, Hi, Hd. change (inject_Z 5) with 5%Q in *. change (inject_Z 0) with 0%Q in *.
  split; [ exact Hs | ]. split.
  - intros H. apply Hi; [ | lra ]. rewrite Qabs_pos by lra. lra.
  - intros H. apply Hd; [ | lra ]. rewrite Qabs_neg by lra. lra.
Qed.

End TrendFacts.

Module DoubleFacts.

Lemma half_length_nat (values : list Double.t) :
  Z.to_nat (Double.halfLength values) = (List.length values / 2)%nat.
Proof.
  unfold Double.halfLength. change 2 with (Z.of_nat 2).
  rewrite <- Nat2Z.inj_div. apply Nat2Z.id.
Qed.

Lemma half_length_bounds (values : list Double.t) :
  0 <= Double.halfLength values <= Z.of_nat (List.length values).
Proof.
  unfold Double.halfLength. split.
  - apply Z.div_pos; lia.
  - apply Z.div_le_upper_bound; lia.
Qed.

(** The two slices are the prefix of length floor(n/2) and the rest. *)
Lemma slices (values : list Double.t) :
  JS.slice 0 (Some (Double.halfLength values)) values
    = firstn (List.length values / 2) values
  /\ JS.slice (Double.halfLength values) None values
    = skipn (List.length values / 2) values.
Proof.
  pose proof (half_length_bounds values) as Hb.
  rewrite Windows.slice_prefix, Windows.slice_suffix by exact Hb.
  rewrite half_length_nat. split; reflexivity.
Qed.

(** On two values or more the verdict is decided by the two comparisons of
    the computed difference. *)
Lemma trend_cases (values : list Double.t) :
  (2 <= List.length values)%nat ->
  let diff := Double.sub (Double.mean (skipn (List.length values / 2) values))
                (Double.mean (firstn (List.length values / 2) values)) in
  (Double.calculateTrend values = Trend.stable
   <-> Double.lt (Double.Math_abs diff) (Double.of_Z 5) = true)
  /\ (Double.calculateTrend values = Trend.increasing
      <-> Double.lt (Double.Math_abs diff) (Double.of_Z 5) = false
          /\ Double.gt diff (Double.of_Z 0) = true)
  /\ (Double.calculateTrend values = Trend.decreasing
      <-> Double.lt (Double.Math_abs diff) (Double.of_Z 5) = false
          /\ Double.gt diff (Double.of_Z 0) = false).
Proof.
  intros H diff. unfold Double.calculateTrend.
  destruct (List.length values <? 2)%nat eqn:E; [ apply Nat.ltb_lt in E; lia | ].
  destruct (slices values) as [-> ->]. fold diff. cbv zeta.
  destruct (Double.lt (Double.Math_abs diff) (Double.of_Z 5));
    destruct (Double.gt diff (Double.of_Z 0));
    repeat split; intros; try reflexivity; try discriminate;
    match goal with
    | H : _ /\ _ |- _ => destruct H; discriminate
    end.
Qed.

Lemma add_nan_l (a : Double.t) : Double.add S754_nan a = S754_nan.
Proof. reflexivity. Qed.

Lemma add_nan_r (a : Double.t) : Double.add a S754_nan = S754_nan.
Proof. destruct a; reflexivity. Qed.

Lemma sub_nan_r (a : Double.t) : Double.sub a S754_nan = S754_nan.
Proof. destruct a; reflexivity. Qed.

Lemma fold_nan (xs : list Double.t) : fold_left Double.add xs S754_nan = S754_nan.
Proof. induction xs as [| x xs IH]; [ reflexivity | ]. cbn [fold_left]. exact IH. Qed.

(** A value that is not a number makes the sum, and so the mean, not a
    number. *)
Lemma fold_with_nan (xs : list Double.t) (acc : Double.t) :
  In S754_nan xs -> fold_left Double.add xs acc = S754_nan.
Proof.
  revert acc. induction xs as [| x xs IH]; intros acc H; [ contradiction | ].
  cbn [fold_left]. destruct H as [-> | H].
  - rewrite add_nan_r. apply fold_nan.
  - apply IH. exact H.
Qed.

Lemma mean_nan (xs : list Double.t) : In S754_nan xs -> Double.mean xs = S754_nan.
Proof.
  intros H. unfold Double.mean, Double.sum. rewrite (fold_with_nan xs _ H). reflexivity.
Qed.

End DoubleFacts.

Module ExactSums.

Lemma sameDouble_eq (a b : Double.t) : sameDouble a b = true -> a = b.
Proof.
  destruct a as [s | s | | s m e], b as [s' | s' | | s' m' e']; cbn; try discriminate.
  - intros H. apply Bool.eqb_prop in H. congruence.
  - intros H. apply Bool.eqb_prop in H. congruence.
  - reflexivity.
  - intros H. apply andb_true_iff in H as [H He]. apply andb_true_iff in H as [Hs Hm].
    apply Bool.eqb_prop in Hs. apply Pos.eqb_eq in Hm. apply Z.eqb_eq in He. congruence.
Qed.

Lemma allPairs_spec (f : nat -> nat -> bool) (A B : nat) :
  allPairs f A B = true ->
  forall a b, (a <= A)%nat -> (b <= B)%nat -> f a b = true.
Proof.
  unfold allPairs. intros H a b Ha Hb.
  rewrite forallb_forall in H.
  assert (Hina : In a (seq 0 (S A))) by (apply in_seq; lia).
  specialize (H a Hina). rewrite forallb_forall in H.
  apply H. apply in_seq. lia.
Qed.

Lemma additions_table : allPairs additionExact 400 100 = true.
Proof. vm_compute. reflexivity. Qed.

Lemma add_exact (a b : nat) :
  (a <= 400)%nat -> (b <= 100)%nat ->
  Double.add (Double.of_nat a) (Double.of_nat b) = Double.of_nat (a + b).
Proof.
  intros Ha Hb. apply sameDouble_eq.
  exact (allPairs_spec additionExact 400 100 additions_table a b Ha Hb).
Qed.

Lemma fold_exact (ns : list nat) (acc : nat) :
  Forall (fun n => (n <= 100)%nat) ns ->
  (acc + 100 * List.length ns <= 500)%nat ->
  fold_left Double.add (map Double.of_nat ns) (Double.of_nat acc)
  = Double.of_nat (fold_left Nat.add ns acc).
Proof.
  revert acc. induction ns as [| n ns IH]; intros acc Hall Hlen; [ reflexivity | ].
  inversion Hall as [| ? ? Hn Hrest]; subst.
  cbn [map fold_left List.length] in *.
  rewrite add_exact by lia. apply IH; [ exact Hrest | lia ].
Qed.

Lemma of_Z_of_nat (zs : list Z) :
  Forall wholePercent zs -> map Double.of_Z zs = map Double.of_nat (map Z.to_nat zs).
Proof.
  induction 1 as [| z zs Hz _ IH]; [ reflexivity | ].
  cbn [map]. rewrite IH. f_equal. unfold Double.of_nat.
  rewrite Z2Nat.id by (unfold wholePercent in Hz; lia). reflexivity.
Qed.

Lemma fold_add_nat (zs : list Z) (acc : nat) :
  Forall wholePercent zs ->
  Z.of_nat (fold_left Nat.add (map Z.to_nat zs) acc) = fold_left Z.add zs (Z.of_nat acc).
Proof.
  intros H. revert acc. induction H as [| z zs Hz _ IH]; intros acc; [ reflexivity | ].
  cbn [map fold_left]. rewrite IH. f_equal. unfold wholePercent in Hz. lia.
Qed.

(** The sum of at most five whole percentages is computed exactly. *)
Lemma sum_exact (zs : list Z) :
  Forall wholePercent zs -> (List.length zs <= 5)%nat ->
  Double.sum (map Double.of_Z zs) = Double.of_Z (Zsum zs).
Proof.
  intros H Hlen. unfold Double.sum, Zsum.
  rewrite (of_Z_of_nat zs H).
  change (Double.of_Z 0) with (Double.of_nat 0).
  rewrite fold_exact.
  - unfold Double.of_nat. rewrite (fold_add_nat zs 0 H). reflexivity.
  - clear Hlen. induction H as [| z zs Hz _ IH]; constructor; [ | exact IH ].
    unfold wholePercent in Hz. lia.
  - rewrite length_map. lia.
Qed.

Lemma mean_exact (zs : list Z) :
  Forall wholePercent zs -> (List.length zs <= 5)%nat ->
  Double.mean (map Double.of_Z zs)
  = Double.div (Double.of_Z (Zsum zs)) (Double.of_nat (List.length zs)).
Proof.
  intros H Hlen. unfold Double.mean. rewrite (sum_exact zs H Hlen), length_map.
  reflexivity.
Qed.

Lemma halves_wholePercent (zs : list Z) (k : nat) :
  Forall wholePercent zs ->
  Forall wholePercent (firstn k zs) /\ Forall wholePercent (skipn k zs).
Proof.
  intros H. rewrite <- (firstn_skipn k zs) in H. apply Forall_app in H. exact H.
Qed.

End ExactSums.




Module UsageFacts.

(** The memory usage of an enabled family with an answering provider is
    the unguarded rounded ratio. *)
Lemma memory_usage_formula p s w (mem : Mem.t) :
  MetricConfig.enabled (cfgMemory s) = true -> Provider.mem p = Ok mem ->
  Memory.usage (fst (getMemoryMetrics p s w)) = percent (Mem.used mem) (Mem.total mem).
Proof. intros He Hp. unfold getMemoryMetrics. rewrite He, Hp. reflexivity. Qed.

Lemma memory_usage_between p s w (u t : Q) (free available : num) :
  MetricConfig.enabled (cfgMemory s) = true ->
  Provider.mem p = Ok (Mem.mk (JS.Fin t) (JS.Fin u) free available) ->
  (0 <= u)%Q -> (u <= t)%Q -> (0 < t)%Q ->
  JS.between 0 100 (Memory.usage (fst (getMemoryMetrics p s w))).
Proof.
  intros He Hp H0 Hut Ht. rewrite (memory_usage_formula p s w _ He Hp).
  apply Rounding.percent_between; assumption.
Qed.

(** With a zero total the unguarded ratio is not a percentage. *)
Lemma percent_zero_total (u : Q) :
  percent (JS.Fin u) (num_of 0)
  = match (u ?= 0)%Q with Eq => JS.NaN | Lt => JS.NInf | Gt => JS.PInf end.
Proof.
  unfold percent. simpl. destruct (u ?= 0)%Q; reflexivity.
Qed.

(** The guarded ratio of the disk path: a percentage in [0, 100] whenever
    0 <= used <= total, and 0 at total 0. *)
Lemma guardedPercent_between (u t : Q) :
  (0 <= u)%Q -> (u <= t)%Q -> JS.between 0 100 (guardedPercent (JS.Fin u) (JS.Fin t)).
Proof.
  intros H0 Hut. unfold guardedPercent.
  destruct (JS.gt (JS.Fin t) (num_of 0)) eqn:E.
  - apply JSFacts.gt_Lt in E. simpl in E. change (inject_Z 0) with 0%Q in E.
    apply Rounding.percent_between; assumption.
  - simpl. split; discriminate.
Qed.

Lemma disk_usage_formula p s w (fs : list FsSize.t) :
  MetricConfig.enabled (cfgDisk s) = true -> Provider.fsSize p = Ok fs ->
  let d := fst (getDiskMetrics p s w) in
  Disk.usage d = guardedPercent (reduceSum FsSize.used fs) (reduceSum FsSize.size fs)
  /\ Disk.total d = reduceSum FsSize.size fs
  /\ Disk.used d = reduceSum FsSize.used fs
  /\ Forall (fun dev => Device.usage dev = guardedPercent (Device.used dev) (Device.total dev))
       (Disk.devices d).
Proof.
  intros He Hp. unfold getDiskMetrics. rewrite He, Hp. cbn.
  repeat split. apply Forall_forall. intros dev Hin.
  apply in_map_iff in Hin as [x [<- _]]. reflexivity.
Qed.

End UsageFacts.

(** C1 (defect in the memory path): on a running monitor with the default
    configuration, a provider reporting 0 bytes of total and of used memory
    yields a memory usage of NaN, in the collector and in the snapshot of the
    tick, not 0 and not a number in [0, 100]; the disk path on a file system
    of size 0 yields 0 for the aggregate and for the device. *)
Theorem memory_usage_unguarded_at_zero_total :
  Memory.usage (fst (getMemoryMetrics zeroTotalProvider runningMonitor runningWorld))
    = JS.NaN
  /\ memoryUsage (tickSnapshot zeroTotalProvider runningMonitor runningWorld) = JS.NaN
  /\ ~ JS.between 0 100
         (memoryUsage (tickSnapshot zeroTotalProvider runningMonitor runningWorld))
  /\ Disk.usage (fst (getDiskMetrics zeroSizeProvider runningMonitor runningWorld))
     = num_of 0
  /\ map Device.usage
       (Disk.devices (fst (getDiskMetrics zeroSizeProvider runningMonitor runningWorld)))
     = [num_of 0].
Proof.
  assert (H : memoryUsage (tickSnapshot zeroTotalProvider runningMonitor runningWorld)
              = JS.NaN) by (vm_compute; reflexivity).
  split; [ vm_compute; reflexivity | ].
  split; [ exact H | ].
  split; [ rewrite H; simpl; tauto | ].
  split; vm_compute; reflexivity.
Qed.

(** The scenarios of the test-suite: load 25.5 is recorded as 26, 4 GB of
    8 GB as 50, 50 GB of 100 GB as 50; a load of 90 against the default
    thresholds 70 / 85 / 95 raises exactly one alert, critical, for cpu. *)
Example sample_tick_values :
  map (fun m => (cpuUsage m, memoryUsage m, diskUsage m))
    (SystemMonitor.metrics (fst (afterOneTick sampleProvider)))
  = [(num_of 26, num_of 50, num_of 50)].
Proof. vm_compute. reflexivity. Qed.

Example busy_tick_alert :
  map (fun a => (Alert.severity a, Alert.metric a, Alert.value a, Alert.threshold a))
    (SystemMonitor.alerts (fst (afterOneTick busyProvider)))
  = [(Severity.critical, "cpu"%string, num_of 90, num_of 85)].
Proof. vm_compute. reflexivity. Qed.

Example boundary_load_is_emergency :
  map Alert.severity
    (SystemMonitor.alerts
       (fst (afterOneTick (withCurrentLoad (Ok (CurrentLoad.mk (num_of 95) 1 None))
                             sampleProvider))))
  = [Severity.emergency].
Proof. vm_compute. reflexivity. Qed.

(** ** Instances *)

(** The load of 90 percent: at most one cpu alert. *)
Lemma checkAlerts_one_alert_per_family_witness :
  (List.length (alertsOf Family.cpu (fst (evaluate busySnapshot runningMonitor runningWorld)))
   <= 1)%nat.
Proof.
  exact (proj1 (checkAlerts_one_alert_per_family_at_highest_severity
                  busySnapshot runningMonitor runningWorld Family.cpu)).
Defined.

(** The same evaluation holds no alert for the network. *)
Lemma alerts_never_name_network_witness :
  alertsOf Family.network (fst (evaluate busySnapshot runningMonitor runningWorld)) = [].
Proof.
  exact (proj1 (proj2 (alerts_never_name_network busySnapshot runningMonitor runningWorld))).
Defined.

(** Of the snapshots at 100, 200 and 300 the range [150, 300] selects the
    last two. *)
Lemma getMetrics_range_query_witness :
  getMetrics (Some (TimeRange.mk (num_of 150) (num_of 300))) threeSnapshotMonitor
    = [snapshotAt 200; snapshotAt 300]
  /\ In (snapshotAt 200)
       (getMetrics (Some (TimeRange.mk (num_of 150) (num_of 300))) threeSnapshotMonitor)
  /\ ~ In (snapshotAt 100)
         (getMetrics (Some (TimeRange.mk (num_of 150) (num_of 300))) threeSnapshotMonitor).
Proof.
  destruct (getMetrics_range_query threeSnapshotMonitor) as [_ [_ H]].
  split; [ vm_compute; reflexivity | ].
  split.
  - apply H. split; [ simpl; auto | simpl; lia ].
  - intros Hin. apply H in Hin. simpl in Hin. lia.
Defined.


(** * Further properties of the monitor *)

Module WorldFacts.

Lemma advances_refl (w : World.t) : advances w w.
Proof.
  unfold advances. repeat split; auto. exists []. symmetry. apply app_nil_r.
Qed.

Lemma advances_trans (w1 w2 w3 : World.t) :
  advances w1 w2 -> advances w2 w3 -> advances w1 w3.
Proof.
  unfold advances.
  intros [C1 [R1 [E1 [X1 [N1 [T1 [l1 L1]]]]]]] [C2 [R2 [E2 [X2 [N2 [T2 [l2 L2]]]]]]].
  repeat split; try congruence; try lia.
  exists (l1 ++ l2). rewrite L2, L1. symmetry. apply app_assoc.
Qed.

Lemma advances_ret {A : Type} (a : A) (w : World.t) : advances w (snd (ret a w)).
Proof. apply advances_refl. Qed.

Lemma advances_Date_now (w : World.t) : advances w (snd (Date_now w)).
Proof.
  unfold advances. simpl. repeat split; auto. exists []. symmetry. apply app_nil_r.
Qed.

Lemma advances_random (w : World.t) : advances w (snd (Math_random_suffix w)).
Proof.
  unfold advances. simpl. repeat split; auto. exists []. symmetry. apply app_nil_r.
Qed.

Lemma advances_emit (e : Event.t) (w : World.t) : advances w (snd (emit e w)).
Proof. unfold advances. simpl. repeat split; auto. exists [e]. reflexivity. Qed.

Lemma advances_bind {A B : Type} (m : M A) (f : A -> M B) (w : World.t) :
  advances w (snd (m w)) ->
  (forall a w', advances w' (snd (f a w'))) ->
  advances w (snd (bind m f w)).
Proof.
  intros Hm Hf. unfold bind. destruct (m w) as [a w1]. simpl in Hm.
  eapply advances_trans; [ exact Hm | apply Hf ].
Qed.

Ltac frame :=
  repeat first
    [ apply advances_refl
    | apply advances_ret
    | apply advances_Date_now
    | apply advances_random
    | apply advances_emit
    | apply advances_bind; [ | intros ? ? ] ].

Lemma advances_getCpuMetrics p s w : advances w (snd (getCpuMetrics p s w)).
Proof.
  unfold getCpuMetrics. destruct (negb _); [ frame | ].
  destruct (cpuReadings p) as [[[cpu speed] temp] | e]; frame.
Qed.

Lemma advances_getMemoryMetrics p s w : advances w (snd (getMemoryMetrics p s w)).
Proof.
  unfold getMemoryMetrics. destruct (negb _); [ frame | ].
  destruct (Provider.mem p); frame.
Qed.

Lemma advances_getDiskMetrics p s w : advances w (snd (getDiskMetrics p s w)).
Proof.
  unfold getDiskMetrics. destruct (negb _); [ frame | ].
  destruct (Provider.fsSize p); frame.
Qed.

Lemma advances_getNetworkMetrics p s w : advances w (snd (getNetworkMetrics p s w)).
Proof.
  unfold getNetworkMetrics. destruct (negb _); [ frame | ].
  destruct (Provider.networkStats p); frame.
Qed.

Lemma advances_createAlert metric value threshold sev msg w :
  advances w (snd (createAlert metric value threshold sev msg w)).
Proof. unfold createAlert. frame. Qed.

Lemma advances_familyAlerts metric label cfg usage w :
  advances w (snd (familyAlerts metric label cfg usage w)).
Proof.
  unfold familyAlerts. destruct (MetricConfig.enabled cfg); [ | frame ].
  destruct (reaches usage (Thresholds.emergency _));
    [ apply advances_bind; [ apply advances_createAlert | intros; frame ] | ].
  destruct (reaches usage (Thresholds.critical _));
    [ apply advances_bind; [ apply advances_createAlert | intros; frame ] | ].
  destruct (reaches usage (Thresholds.warning _));
    [ apply advances_bind; [ apply advances_createAlert | intros; frame ] | frame ].
Qed.

Lemma advances_evaluate m s w : advances w (snd (evaluate m s w)).
Proof.
  unfold evaluate.
  apply advances_bind; [ apply advances_familyAlerts | intros ].
  apply advances_bind; [ apply advances_familyAlerts | intros ].
  apply advances_bind; [ apply advances_familyAlerts | intros ].
  frame.
Qed.

Lemma advances_publishAlerts als s w : advances w (snd (publishAlerts als s w)).
Proof.
  revert s w. induction als as [| a als IH]; intros s w; cbn [publishAlerts]; [ frame | ].
  apply advances_bind; [ frame | intros; apply IH ].
Qed.

Lemma advances_checkAlerts m s w : advances w (snd (checkAlerts m s w)).
Proof.
  unfold checkAlerts.
  apply advances_bind; [ apply advances_evaluate | intros; apply advances_publishAlerts ].
Qed.

Lemma advances_cleanupOldMetrics s w : advances w (snd (cleanupOldMetrics s w)).
Proof. unfold cleanupOldMetrics. frame. Qed.

Lemma advances_collectMetrics p s w : advances w (snd (collectMetrics p s w)).
Proof.
  unfold collectMetrics. destruct (negb _); [ frame | ].
  apply advances_bind; [ frame | intros ].
  apply advances_bind; [ apply advances_getCpuMetrics | intros ].
  apply advances_bind; [ apply advances_getMemoryMetrics | intros ].
  apply advances_bind; [ apply advances_getDiskMetrics | intros ].
  apply advances_bind; [ apply advances_getNetworkMetrics | intros ].
  apply advances_bind; [ apply advances_cleanupOldMetrics | intros ].
  apply advances_bind.
  - destruct (AlertsConfig.enabled _); [ apply advances_checkAlerts | frame ].
  - intros. frame.
Qed.

Lemma advances_updateConfig n s w : advances w (snd (updateConfig n s w)).
Proof. unfold updateConfig. frame. Qed.

Lemma advances_getStatus s w : advances w (snd (getStatus s w)).
Proof.
  unfold getStatus. apply advances_bind; [ | intros; frame ].
  destruct (SystemMonitor.isRunning s); frame.
Qed.

Lemma advances_healthCheck s w : advances w (snd (healthCheck s w)).
Proof.
  unfold healthCheck. apply advances_bind.
  - destruct (SystemMonitor.isRunning s); frame.
  - intros. apply advances_bind; [ frame | intros ].
    destruct (hd_error _); frame.
Qed.

End WorldFacts.

Module TickLayout.

Lemma familyAlerts_wellFormed metric label cfg usage w :
  (metric = "cpu" \/ metric = "memory" \/ metric = "disk")%string ->
  Forall alertWellFormed (fst (familyAlerts metric label cfg usage w)).
Proof.
  intros Hm. unfold familyAlerts.
  destruct (MetricConfig.enabled cfg); [ | constructor ].
  destruct (reaches usage (Thresholds.emergency _)) as [t|] eqn:Ee.
  { apply AlertFacts.reaches_Some in Ee as [_ Hle].
    constructor; [ | constructor ]. unfold alertWellFormed. cbn. auto. }
  destruct (reaches usage (Thresholds.critical _)) as [t|] eqn:Ec.
  { apply AlertFacts.reaches_Some in Ec as [_ Hle].
    constructor; [ | constructor ]. unfold alertWellFormed. cbn. auto. }
  destruct (reaches usage (Thresholds.warning _)) as [t|] eqn:Ew.
  { apply AlertFacts.reaches_Some in Ew as [_ Hle].
    constructor; [ | constructor ]. unfold alertWellFormed. cbn. auto. }
  constructor.
Qed.

Lemma evaluate_wellFormed (m : SystemMetrics.t) (s : SystemMonitor.t) (w : World.t) :
  Forall alertWellFormed (fst (evaluate m s w)).
Proof.
  destruct (AlertFacts.evaluate_parts m s w) as [w1 [w2 ->]].
  rewrite !Forall_app. repeat split; apply familyAlerts_wellFormed; auto.
Qed.

Lemma advances_clock (w w' : World.t) :
  advances w w' ->
  exists i, (World.clockReads w <= i)%nat
            /\ World.clock w' (World.clockReads w') = World.clock w i.
Proof.
  intros [C [R _]]. exists (World.clockReads w'). split; [ exact R | ].
  rewrite C. reflexivity.
Qed.

Lemma collectors_clockReads p s w :
  World.clockReads (snd (getCpuMetrics p s w)) = World.clockReads w
  /\ World.clockReads (snd (getMemoryMetrics p s w)) = World.clockReads w
  /\ World.clockReads (snd (getDiskMetrics p s w)) = World.clockReads w
  /\ (World.clockReads (snd (getNetworkMetrics p s w)) <= S (World.clockReads w))%nat.
Proof.
  unfold getCpuMetrics, getMemoryMetrics, getDiskMetrics, getNetworkMetrics.
  repeat split.
  - destruct (negb _); [ reflexivity | ].
    destruct (cpuReadings p) as [[[cpu speed] temp] | e]; reflexivity.
  - destruct (negb _); [ reflexivity | ]. destruct (Provider.mem p); reflexivity.
  - destruct (negb _); [ reflexivity | ]. destruct (Provider.fsSize p); reflexivity.
  - destruct (negb _); [ simpl; lia | ].
    destruct (Provider.networkStats p); simpl; lia.
Qed.

(** One tick of a running monitor: what it leaves in the store, in the
    alert list and in the other fields, and which clock readings it used. *)
Lemma tick_layout (p : Provider.t) (s : SystemMonitor.t) (w : World.t) :
  SystemMonitor.isRunning s = true ->
  let snap := tickSnapshot p s w in
  let s' := fst (collectMetrics p s w) in
  exists (i1 i2 : nat) (new : list Alert.t),
    (World.clockReads w < i1 <= World.clockReads w + 2)%nat
    /\ (World.clockReads w < i2)%nat
    /\ SystemMetrics.timestamp snap = World.clock w (World.clockReads w)
    /\ SystemMonitor.metrics s'
       = filter (keepMetric (cutoffTime (World.clock w i1) s))
           (SystemMonitor.metrics s ++ [snap])
    /\ SystemMonitor.alerts s'
       = filter (keepAlert (alertCutoffTime (World.clock w i2))) (SystemMonitor.alerts s)
         ++ new
    /\ emitted (collectMetrics p s) w =
         errorEvents "CPU" (MetricConfig.enabled (cfgCpu s)) (cpuFailure p)
         ++ errorEvents "memory" (MetricConfig.enabled (cfgMemory s))
              (failure (Provider.mem p))
         ++ errorEvents "disk" (MetricConfig.enabled (cfgDisk s))
              (failure (Provider.fsSize p))
         ++ errorEvents "network" (MetricConfig.enabled (cfgNetwork s))
              (failure (Provider.networkStats p))
         ++ map Event.alert new
         ++ [Event.metrics snap; Event.metricsCollected snap]
    /\ Forall alertWellFormed new
    /\ (AlertsConfig.enabled (Config.alerts (SystemMonitor.config s)) = false -> new = [])
    /\ SystemMonitor.config s' = SystemMonitor.config s
    /\ SystemMonitor.startTime s' = SystemMonitor.startTime s
    /\ SystemMonitor.isRunning s' = true
    /\ SystemMonitor.intervalId s' = SystemMonitor.intervalId s.
Proof.
  intros Hrun snap s'. subst snap s'.
  unfold tickSnapshot, emitted.
  remember (collectMetrics p s w) as r eqn:E.
  unfold collectMetrics in E. rewrite Hrun in E. cbn [negb] in E. unfold bind in E.
  pose proof (WorldFacts.advances_Date_now w) as A0.
  destruct (Date_now w) as [t w0] eqn:Et.
  assert (Ht : t = World.clock w (World.clockReads w)
               /\ World.clockReads w0 = S (World.clockReads w)).
  { unfold Date_now in Et. injection Et as <- <-. split; reflexivity. }
  destruct Ht as [Ht Hr0].
  cbn [fst snd] in *.
  assert (L0 : World.log w0 = World.log w).
  { unfold Date_now in Et. injection Et as _ <-. reflexivity. }
  pose proof (CollectorFacts.getCpuMetrics_log p s w0) as Lc.
  pose proof (proj1 (collectors_clockReads p s w0)) as Q1.
  pose proof (WorldFacts.advances_getCpuMetrics p s w0) as A1.
  destruct (getCpuMetrics p s w0) as [cpu w1]. cbn [fst snd] in *.
  pose proof (CollectorFacts.getMemoryMetrics_log p s w1) as Lm.
  pose proof (proj1 (proj2 (collectors_clockReads p s w1))) as Q2.
  pose proof (WorldFacts.advances_getMemoryMetrics p s w1) as A2.
  destruct (getMemoryMetrics p s w1) as [mem w2]. cbn [fst snd] in *.
  pose proof (CollectorFacts.getDiskMetrics_log p s w2) as Ld.
  pose proof (proj1 (proj2 (proj2 (collectors_clockReads p s w2)))) as Q3.
  pose proof (WorldFacts.advances_getDiskMetrics p s w2) as A3.
  destruct (getDiskMetrics p s w2) as [dsk w3]. cbn [fst snd] in *.
  pose proof (CollectorFacts.getNetworkMetrics_log p s w3) as Ln.
  pose proof (proj2 (proj2 (proj2 (collectors_clockReads p s w3)))) as Q4.
  pose proof (WorldFacts.advances_getNetworkMetrics p s w3) as A4.
  pose proof (CollectorFacts.getNetworkMetrics_monitor p s w3) as Mn.
  destruct (getNetworkMetrics p s w3) as [[net sn] w4]. cbn [fst snd] in *.
  destruct Mn as [Mrun [Mid [Mcfg [Mst [Mmet Mal]]]]].
  set (snap := SystemMetrics.mk t cpu mem dsk net) in *.
  assert (A : advances w w4).
  { eapply WorldFacts.advances_trans; [ exact A0 | ].
    eapply WorldFacts.advances_trans; [ exact A1 | ].
    eapply WorldFacts.advances_trans; [ exact A2 | ].
    eapply WorldFacts.advances_trans; [ exact A3 | exact A4 ]. }
  assert (R4 : (World.clockReads w < World.clockReads w4 <= World.clockReads w + 2)%nat).
  { destruct A1 as [_ [R1 _]], A2 as [_ [R2 _]], A3 as [_ [R3 _]], A4 as [_ [R4 _]]. lia. }
  destruct A as [C4 _].
  pose proof (RetentionFacts.cleanupOldMetrics_reads (pushMetrics snap sn) w4) as [Cs Cl].
  destruct (cleanupOldMetrics (pushMetrics snap sn) w4) as [s1 w5] eqn:Ecl.
  cbn [fst snd] in *.
  exists (World.clockReads w4), (S (World.clockReads w4)),
         (if AlertsConfig.enabled (Config.alerts (SystemMonitor.config s1))
          then fst (evaluate snap s1 w5) else []).
  assert (Hs1 : SystemMonitor.isRunning s1 = true
                /\ SystemMonitor.intervalId s1 = SystemMonitor.intervalId s
                /\ SystemMonitor.config s1 = SystemMonitor.config s
                /\ SystemMonitor.startTime s1 = SystemMonitor.startTime s
                /\ SystemMonitor.metrics s1
                   = filter (keepMetric (cutoffTime (World.clock w (World.clockReads w4)) s))
                       (SystemMonitor.metrics s ++ [snap])
                /\ SystemMonitor.alerts s1
                   = filter (keepAlert (alertCutoffTime (World.clock w (S (World.clockReads w4)))))
                       (SystemMonitor.alerts s)).
  { subst s1. unfold cleanupAt, pushMetrics. cbn.
    rewrite Mrun, Mid, Mmet, Mcfg, Mst, Mal, C4.
    repeat split; auto. }
  destruct Hs1 as [R1 [I1 [K1 [S1 [M1 L1]]]]].
  pose proof (TickFacts.checkAlerts_monitor snap s1 w5) as Ma.
  pose proof (AlertPublication.checkAlerts_publishes snap s1 w5) as [Pa _].
  pose proof (TickFacts.checkAlerts_log snap s1 w5) as La.
  pose proof (evaluate_wellFormed snap s1 w5) as Wf.
  rewrite K1 in *.
  destruct (AlertsConfig.enabled (Config.alerts (SystemMonitor.config s))).
  - cbv iota in E. destruct (checkAlerts snap s1 w5) as [s2 w6]. cbn [fst snd] in *.
    destruct Ma as [Ra [Ia [Ka [Sa Mma]]]].
    unfold ret, emit in E. cbn [fst snd] in E. subst r. cbn [fst snd World.log].
    split; [ lia | ]. split; [ lia | ]. split; [ exact Ht | ].
    split; [ rewrite Mma; exact M1 | ].
    split; [ rewrite Pa, L1; reflexivity | ].
    split.
    { rewrite La, Cl, Ln, Ld, Lm, Lc, L0. rewrite <- !app_assoc.
      rewrite AlertPublication.skipn_app_exact. reflexivity. }
    split; [ exact Wf | ].
    split; [ intros; discriminate | ].
    repeat split; congruence.
  - unfold ret, emit in E. cbn [fst snd] in E. subst r. cbn [fst snd World.log].
    split; [ lia | ]. split; [ lia | ]. split; [ exact Ht | ].
    split; [ exact M1 | ].
    split; [ rewrite L1; symmetry; apply app_nil_r | ].
    split.
    { rewrite Cl, Ln, Ld, Lm, Lc, L0. rewrite <- !app_assoc.
      rewrite AlertPublication.skipn_app_exact. reflexivity. }
    split; [ constructor | ].
    split; [ reflexivity | ].
    repeat split; congruence.
Qed.

End TickLayout.

Module ConfigFacts.

(** Reading a configuration back as a caller's object and merging it over
    the defaults gives the configuration again. *)
Lemma merge_spread_empty (c : Config.t) :
  mergeDefaultConfig (spreadConfig c SystemMonitorConfig.empty) = c.
Proof.
  destruct c as [i e d l env [[? ? ? ?] [? ? ? ?] [? ? ? ?] [? ? ? ?]] [? ? ? ?]].
  reflexivity.
Qed.

Lemma merged_family (f : Family.t) (config : SystemMonitorConfig.t) :
  familyOf f (Config.metrics (mergeDefaultConfig config))
  = mergeMetric (familyOf f (Config.metrics defaultConfig)) (familyInput f config).
Proof.
  unfold mergeDefaultConfig, familyInput.
  destruct f; cbn [Config.metrics familyOf MetricsConfig.cpu MetricsConfig.memory
                   MetricsConfig.disk MetricsConfig.network];
    destruct (SystemMonitorConfig.metrics config); reflexivity.
Qed.

Lemma familyConfig_familyOf (f : Family.t) (s : SystemMonitor.t) :
  familyConfig f s = familyOf f (Config.metrics (SystemMonitor.config s)).
Proof. destruct f; reflexivity. Qed.

End ConfigFacts.

(** X1: [updateConfig({})] changes nothing: the configuration held after the
    call is the one held before, the rest of the monitor is untouched, and
    the one event emitted is [configUpdated] with that configuration.  More
    generally a property that the update leaves out keeps its current value
    at the top level. *)
Theorem updateConfig_empty_is_identity (s : SystemMonitor.t) (w : World.t) :
  fst (updateConfig SystemMonitorConfig.empty s w) = s
  /\ emitted (updateConfig SystemMonitorConfig.empty s) w
     = [Event.configUpdated (SystemMonitor.config s)]
  /\ (forall n,
        let c' := SystemMonitor.config (fst (updateConfig n s w)) in
        (SystemMonitorConfig.interval n = None ->
         Config.interval c' = Config.interval (SystemMonitor.config s))
        /\ (SystemMonitorConfig.debug n = None ->
            Config.debug c' = Config.debug (SystemMonitor.config s))
        /\ (SystemMonitorConfig.metrics n = None ->
            Config.metrics c' = Config.metrics (SystemMonitor.config s))
        /\ (SystemMonitorConfig.alerts n = None ->
            Config.alerts c' = Config.alerts (SystemMonitor.config s))).
Proof.
  split; [ | split ].
  - unfold updateConfig, bind. cbn. rewrite ConfigFacts.merge_spread_empty.
    destruct s; reflexivity.
  - unfold emitted, updateConfig, bind. cbn. rewrite ConfigFacts.merge_spread_empty.
    apply AlertPublication.skipn_app_exact.
  - intros n c'. subst c'. unfold updateConfig, bind. cbn.
    destruct (SystemMonitor.config s)
      as [i e d l env [[? ? ? ?] [? ? ? ?] [? ? ? ?] [? ? ? ?]] [? ? ? ?]].
    repeat split; intros H; unfold mergeDefaultConfig, spreadConfig; rewrite H;
      reflexivity.
Qed.

(** X2: an update that carries a [metrics] object rebuilds all four families
    from the defaults and that object alone: a family the object leaves out
    returns to its default, whatever the monitor held for it; likewise an
    [alerts] object is completed from the defaults, not from the current
    alert settings. *)
Theorem updateConfig_metrics_rebuilt_from_defaults
    (s : SystemMonitor.t) (w : World.t) (n : SystemMonitorConfig.t) :
  let c' := SystemMonitor.config (fst (updateConfig n s w)) in
  (SystemMonitorConfig.metrics n <> None ->
   forall f,
     familyOf f (Config.metrics c')
     = mergeMetric (familyOf f (Config.metrics defaultConfig)) (familyInput f n))
  /\ (SystemMonitorConfig.metrics n <> None ->
      forall f, familyInput f n = None ->
        familyOf f (Config.metrics c') = familyOf f (Config.metrics defaultConfig))
  /\ (forall a, SystemMonitorConfig.alerts n = Some a ->
        Config.alerts c'
        = AlertsConfig.mk
            (spread (AlertsConfig.enabled (Config.alerts defaultConfig)) (AlertsInput.enabled a))
            (spread (AlertsConfig.cooldownPeriod (Config.alerts defaultConfig))
               (AlertsInput.cooldownPeriod a))
            (spread (AlertsConfig.maxAlertsPerHour (Config.alerts defaultConfig))
               (AlertsInput.maxAlertsPerHour a))
            (spread (AlertsConfig.escalationEnabled (Config.alerts defaultConfig))
               (AlertsInput.escalationEnabled a))).
Proof.
  intros c'. subst c'. unfold updateConfig, bind, emit, ret.
  cbn [fst snd SystemMonitor.config].
  assert (H : SystemMonitorConfig.metrics n <> None ->
              forall f,
                familyOf f (Config.metrics
                              (mergeDefaultConfig (spreadConfig (SystemMonitor.config s) n)))
                = mergeMetric (familyOf f (Config.metrics defaultConfig)) (familyInput f n)).
  { intros Hm f. rewrite ConfigFacts.merged_family. f_equal.
    unfold familyInput, spreadConfig. cbn.
    destruct (SystemMonitorConfig.metrics n); [ reflexivity | congruence ]. }
  split; [ exact H | ]. split.
  - intros Hm f Hf. rewrite (H Hm f), Hf. reflexivity.
  - intros a Ha. unfold mergeDefaultConfig, spreadConfig. cbn. rewrite Ha. reflexivity.
Qed.

(** Switching the cpu family off by an update resets the memory retention a
    monitor was built with. *)
Lemma updateConfig_metrics_rebuilt_witness :
  MetricConfig.retention (cfgMemory (constructor shortRetentionConfig)) = num_of 1
  /\ MetricConfig.retention
       (cfgMemory (fst (updateConfig cpuOffUpdate (constructor shortRetentionConfig) world0)))
     = num_of 7.
Proof.
  split; [ reflexivity | ].
  destruct (updateConfig_metrics_rebuilt_from_defaults
              (constructor shortRetentionConfig) world0 cpuOffUpdate) as [_ [H _]].
  assert (Hm : SystemMonitorConfig.metrics cpuOffUpdate <> None) by discriminate.
  specialize (H Hm Family.memory eq_refl).
  unfold cfgMemory. change (MetricsConfig.memory ?m) with (familyOf Family.memory m).
  rewrite H. reflexivity.
Defined.

(** X3: thresholds given for a family replace the default triple as a
    whole: a severity the caller's object leaves out has no threshold, and
    the monitor never raises an alert of that severity for that family. *)
Theorem partial_thresholds_silence_missing_severities
    (config : SystemMonitorConfig.t) (f : Family.t) (fi : MetricInput.t)
    (th : Thresholds.t) :
  familyInput f config = Some fi ->
  MetricInput.thresholds fi = Some th ->
  MetricConfig.thresholds (familyConfig f (constructor config)) = th
  /\ forall sev m w,
       Thresholds.for_severity th sev = None ->
       Forall (fun a => Alert.severity a <> sev)
         (alertsOf f (fst (evaluate m (constructor config) w))).
Proof.
  intros Hfi Hth.
  assert (E : MetricConfig.thresholds (familyConfig f (constructor config)) = th).
  { rewrite ConfigFacts.familyConfig_familyOf. unfold constructor.
    cbn [SystemMonitor.config]. rewrite ConfigFacts.merged_family, Hfi.
    unfold mergeMetric. cbn. rewrite Hth. reflexivity. }
  split; [ exact E | ].
  intros sev m w Hsev.
  pose proof (AlertFacts.alertsOf_evaluate f m (constructor config) w) as H.
  destruct (familyUsage f m) as [u|].
  - destruct H as [[-> _] | [a [-> [_ [_ [_ [Hfor _]]]]]]]; [ constructor | ].
    constructor; [ | constructor ]. intros Heq.
    rewrite E, Heq, Hsev in Hfor. discriminate.
  - rewrite H. constructor.
Qed.

(** A monitor built with only a cpu warning threshold: a load of 99 raises
    a warning, the highest severity left. *)
Lemma partial_thresholds_witness :
  MetricConfig.thresholds (cfgCpu (constructor warningOnlyConfig))
    = Thresholds.mk (Some (num_of 50)) None None
  /\ Forall (fun a => Alert.severity a <> Severity.emergency)
       (alertsOf Family.cpu
          (fst (evaluate (tickSnapshot
                            (withCurrentLoad (Ok (CurrentLoad.mk (num_of 99) 1 None))
                               sampleProvider)
                            (constructor warningOnlyConfig) world0)
                  (constructor warningOnlyConfig) world0))).
Proof.
  destruct (partial_thresholds_silence_missing_severities warningOnlyConfig Family.cpu
              (MetricInput.mk None None (Some (Thresholds.mk (Some (num_of 50)) None None)) None)
              (Thresholds.mk (Some (num_of 50)) None None) eq_refl eq_refl) as [H1 H2].
  split; [ exact H1 | ].
  apply H2. reflexivity.
Defined.

Module ReportFacts.

Lemma hd_skipn {A : Type} (l : list A) (n : nat) : hd_error (skipn n l) = nth_error l n.
Proof.
  revert l. induction n as [| n IH]; intros [| x l]; simpl; auto.
Qed.

Lemma nth_error_last {A : Type} (l : list A) (m : A) :
  nth_error (l ++ [m]) (List.length (l ++ [m]) - 1) = Some m.
Proof.
  rewrite length_app. simpl. replace (List.length l + 1 - 1)%nat with (List.length l) by lia.
  rewrite nth_error_app2 by lia. rewrite Nat.sub_diag. reflexivity.
Qed.

(** [this.metrics.slice(-1)[0]] is the last snapshot, if there is one. *)
Lemma last_by_slice {A : Type} (l : list A) :
  hd_error (JS.slice (-1) None l)
  = match l with [] => None | _ => nth_error l (List.length l - 1) end.
Proof.
  destruct l as [| x l]; [ reflexivity | ].
  rewrite (Windows.slice_last 1) by lia. apply hd_skipn.
Qed.

Lemma last_by_slice_app {A : Type} (l : list A) (m : A) :
  hd_error (JS.slice (-1) None (l ++ [m])) = Some m.
Proof.
  rewrite last_by_slice. destruct (l ++ [m]) eqn:E.
  - destruct l; discriminate.
  - rewrite <- E. apply nth_error_last.
Qed.

Lemma Le_num_of_trans (lo hi : Z) (a : num) :
  lo <= hi -> JS.Le (num_of hi) a -> JS.Le (num_of lo) a.
Proof.
  intros H. destruct a as [x| | |]; simpl; auto.
  intros Hx. rewrite Zle_Qle in H. lra.
Qed.

Lemma grade_unhealthy (usage : num) (hi lo : Z) :
  grade usage hi lo = Health.unhealthy <-> JS.Le (num_of hi) usage.
Proof.
  unfold grade. rewrite <- JSFacts.ge_Le.
  destruct (JS.ge usage (num_of hi)); [ tauto | ].
  destruct (JS.ge usage (num_of lo)); split; intros; discriminate.
Qed.

Lemma grade_healthy (usage : num) (hi lo : Z) :
  lo <= hi ->
  (grade usage hi lo = Health.healthy <-> ~ JS.Le (num_of lo) usage).
Proof.
  intros Hlh. unfold grade.
  destruct (JS.ge usage (num_of hi)) eqn:Eh.
  - apply JSFacts.ge_Le in Eh. apply (Le_num_of_trans lo hi) in Eh; [ | exact Hlh ].
    split; [ discriminate | tauto ].
  - rewrite <- JSFacts.ge_Le.
    destruct (JS.ge usage (num_of lo)); split; intros; congruence.
Qed.

Lemma worst_unhealthy (l : list Health.t) :
  worst l = Health.unhealthy <-> In Health.unhealthy l.
Proof.
  unfold worst, includes.
  destruct (existsb (Health.eqb Health.unhealthy) l) eqn:E.
  - apply existsb_exists in E as [x [Hin Hx]]. destruct x; try discriminate. tauto.
  - split.
    + destruct (existsb (Health.eqb Health.degraded) l); discriminate.
    + intros Hin. assert (existsb (Health.eqb Health.unhealthy) l = true)
        by (apply existsb_exists; exists Health.unhealthy; auto).
      congruence.
Qed.

Lemma worst_healthy (l : list Health.t) :
  worst l = Health.healthy <-> Forall (fun h => h = Health.healthy) l.
Proof.
  unfold worst, includes.
  destruct (existsb (Health.eqb Health.unhealthy) l) eqn:Eu.
  { apply existsb_exists in Eu as [x [Hin Hx]]. destruct x; try discriminate.
    split; [ discriminate | ]. intros H. rewrite Forall_forall in H.
    specialize (H _ Hin). discriminate. }
  destruct (existsb (Health.eqb Health.degraded) l) eqn:Ed.
  { apply existsb_exists in Ed as [x [Hin Hx]]. destruct x; try discriminate.
    split; [ discriminate | ]. intros H. rewrite Forall_forall in H.
    specialize (H _ Hin). discriminate. }
  split; [ intros _ | reflexivity ].
  apply Forall_forall. intros h Hin. destruct h; [ reflexivity | | ].
  - assert (existsb (Health.eqb Health.degraded) l = true)
      by (apply existsb_exists; exists Health.degraded; auto). congruence.
  - assert (existsb (Health.eqb Health.unhealthy) l = true)
      by (apply existsb_exists; exists Health.unhealthy; auto). congruence.
Qed.

Lemma healthCheck_with_last (s : SystemMonitor.t) (w : World.t)
    (l : list SystemMetrics.t) (m : SystemMetrics.t) :
  SystemMonitor.metrics s = l ++ [m] ->
  let h := fst (healthCheck s w) in
  HealthStatus.components h
  = Components.mk
      (if SystemMonitor.isRunning s then Health.healthy else Health.unhealthy)
      (grade (cpuUsage m) 90 80) (grade (memoryUsage m) 95 85)
      (grade (diskUsage m) 95 85) Health.healthy
  /\ HealthStatus.status h = worst (Components.values (HealthStatus.components h))
  /\ HealthMetrics.lastMetricTime (HealthStatus.metrics h)
     = Some (SystemMetrics.timestamp m).
Proof.
  intros Hm h. subst h. unfold healthCheck. rewrite Hm, last_by_slice_app.
  unfold bind. destruct (SystemMonitor.isRunning s); cbn; repeat split.
Qed.

Lemma getStatus_last (s : SystemMonitor.t) (w : World.t)
    (l : list SystemMetrics.t) (m : SystemMetrics.t) :
  SystemMonitor.metrics s = l ++ [m] ->
  SystemStatus.lastMetricTime (fst (getStatus s w)) = Some (SystemMetrics.timestamp m).
Proof.
  intros H. unfold getStatus, bind.
  destruct (SystemMonitor.isRunning s); cbn; rewrite H;
    (destruct (l ++ [m]) eqn:E; [ destruct l; discriminate | ]);
    rewrite <- E, nth_error_last; reflexivity.
Qed.

End ReportFacts.

(** X4: [getStatus] and [healthCheck] taken at the same moment agree: the
    same uptime, snapshot count, alert count and last collection time.  The
    uptime is 0 on a stopped monitor and the time since [start] on a running
    one; the last collection time is absent on an empty store and is the
    timestamp of the newest stored snapshot otherwise. *)
Theorem status_and_health_report_agree (s : SystemMonitor.t) (w : World.t) :
  let st := fst (getStatus s w) in
  let h := HealthStatus.metrics (fst (healthCheck s w)) in
  SystemStatus.uptime st = HealthMetrics.uptime h
  /\ SystemStatus.metricsCount st = HealthMetrics.metricsCollected h
  /\ SystemStatus.alertsCount st = HealthMetrics.alertsGenerated h
  /\ SystemStatus.lastMetricTime st = HealthMetrics.lastMetricTime h
  /\ (SystemMonitor.isRunning s = false -> SystemStatus.uptime st = 0)
  /\ (SystemMonitor.isRunning s = true ->
      SystemStatus.uptime st
      = World.clock w (World.clockReads w) - SystemMonitor.startTime s)
  /\ (SystemMonitor.metrics s = [] -> SystemStatus.lastMetricTime st = None)
  /\ (forall l m, SystemMonitor.metrics s = l ++ [m] ->
        SystemStatus.lastMetricTime st = Some (SystemMetrics.timestamp m)).
Proof.
  intros st h. subst st h.
  assert (Hlast : HealthMetrics.lastMetricTime
                    (HealthStatus.metrics (fst (healthCheck s w)))
                  = SystemStatus.lastMetricTime (fst (getStatus s w))).
  { unfold healthCheck, getStatus, bind. rewrite ReportFacts.last_by_slice.
    destruct (SystemMonitor.isRunning s); cbn;
      destruct (SystemMonitor.metrics s) as [| x l] eqn:E; cbn; try reflexivity;
      destruct (nth_error (x :: l) (List.length l - 0)); reflexivity. }
  split.
  { unfold healthCheck, getStatus, bind.
    destruct (SystemMonitor.isRunning s); cbn;
      destruct (hd_error (JS.slice (-1) None (SystemMonitor.metrics s))); reflexivity. }
  split.
  { unfold healthCheck, getStatus, bind.
    destruct (SystemMonitor.isRunning s); cbn;
      destruct (hd_error (JS.slice (-1) None (SystemMonitor.metrics s))); reflexivity. }
  split.
  { unfold healthCheck, getStatus, bind.
    destruct (SystemMonitor.isRunning s); cbn;
      destruct (hd_error (JS.slice (-1) None (SystemMonitor.metrics s))); reflexivity. }
  split; [ symmetry; exact Hlast | ].
  split.
  { intros H. unfold getStatus, bind. rewrite H. reflexivity. }
  split.
  { intros H. unfold getStatus, bind. rewrite H. reflexivity. }
  split.
  { intros H. unfold getStatus, bind. rewrite H.
    destruct (SystemMonitor.isRunning s); reflexivity. }
  intros l m H. rewrite <- Hlast.
  apply (ReportFacts.healthCheck_with_last s w l m H).
Qed.

(** X5: once a snapshot is stored, the overall status of [healthCheck] is
    the worst of its five components, the liveness component included: it is
    unhealthy exactly when the monitor is not running or the newest snapshot
    has cpu >= 90, memory >= 95 or disk >= 95, and healthy exactly when the
    monitor is running and that snapshot has cpu < 80, memory < 85 and
    disk < 85 (or a usage that is not a number).  The network component is
    always healthy. *)
Theorem healthCheck_reports_worst_component
    (s : SystemMonitor.t) (w : World.t) (l : list SystemMetrics.t) (m : SystemMetrics.t) :
  SystemMonitor.metrics s = l ++ [m] ->
  let h := fst (healthCheck s w) in
  HealthStatus.status h = worst (Components.values (HealthStatus.components h))
  /\ Components.network (HealthStatus.components h) = Health.healthy
  /\ (HealthStatus.status h = Health.unhealthy <->
      SystemMonitor.isRunning s = false
      \/ JS.Le (num_of 90) (cpuUsage m) \/ JS.Le (num_of 95) (memoryUsage m)
      \/ JS.Le (num_of 95) (diskUsage m))
  /\ (HealthStatus.status h = Health.healthy <->
      SystemMonitor.isRunning s = true
      /\ ~ JS.Le (num_of 80) (cpuUsage m) /\ ~ JS.Le (num_of 85) (memoryUsage m)
      /\ ~ JS.Le (num_of 85) (diskUsage m)).
Proof.
  intros Hm h.
  destruct (ReportFacts.healthCheck_with_last s w l m Hm) as [Hc [Hs _]].
  fold h in Hc, Hs.
  split; [ exact Hs | ]. split; [ rewrite Hc; reflexivity | ].
  rewrite Hs, Hc. unfold Components.values. cbn [Components.systemMonitor Components.cpu
    Components.memory Components.disk Components.network].
  split.
  - rewrite ReportFacts.worst_unhealthy. simpl.
    rewrite !ReportFacts.grade_unhealthy.
    destruct (SystemMonitor.isRunning s); intuition discriminate.
  - rewrite ReportFacts.worst_healthy.
    rewrite !Forall_cons_iff.
    rewrite !ReportFacts.grade_healthy by lia.
    destruct (SystemMonitor.isRunning s); intuition (discriminate || auto).
Qed.

(** After start, one tick on an idle host and stop, the check reports
    unhealthy although every usage is low. *)
Lemma healthCheck_reports_worst_component_witness :
  SystemMonitor.isRunning stoppedWithHistory = false
  /\ HealthStatus.status (fst (healthCheck stoppedWithHistory world0)) = Health.unhealthy.
Proof.
  split; [ reflexivity | ].
  destruct (healthCheck_reports_worst_component stoppedWithHistory world0 []
              (tickSnapshot sampleProvider runningMonitor runningWorld))
    as [_ [_ [H _]]].
  - vm_compute. reflexivity.
  - apply H. left. reflexivity.
Defined.

Module RunFacts.

Lemma runAll_app (cs1 cs2 : list Call.t) (s : SystemMonitor.t) (w : World.t) :
  runAll (cs1 ++ cs2) s w
  = runAll cs2 (fst (runAll cs1 s w)) (snd (runAll cs1 s w)).
Proof.
  revert s w. induction cs1 as [| c cs1 IH]; intros s w; [ reflexivity | ].
  simpl. unfold bind. destruct (run c s w) as [s1 w1]. apply IH.
Qed.

Lemma runAll_cons (c : Call.t) (cs : list Call.t) (s : SystemMonitor.t) (w : World.t) :
  runAll (c :: cs) s w = runAll cs (fst (run c s w)) (snd (run c s w)).
Proof. simpl. unfold bind. destruct (run c s w); reflexivity. Qed.

Lemma stop_leaves_stopped (s : SystemMonitor.t) (w : World.t) :
  SystemMonitor.isRunning (fst (stop s w)) = false.
Proof.
  destruct (SystemMonitor.isRunning s) eqn:E.
  - apply (LifecycleFacts.stop_result s w E).
  - rewrite LifecycleFacts.stop_stopped by exact E. exact E.
Qed.

Lemma ticks_when_stopped (ps : list Provider.t) (s : SystemMonitor.t) (w : World.t) :
  SystemMonitor.isRunning s = false -> runAll (map Call.tick ps) s w = (s, w).
Proof.
  intros H. induction ps as [| p ps IH]; [ reflexivity | ].
  cbn [map]. rewrite runAll_cons. cbn [run].
  rewrite TickFacts.collectMetrics_stopped by exact H. exact IH.
Qed.

(** Every call but a tick leaves the stored snapshots and alerts alone. *)
Lemma history_frame (c : Call.t) (s : SystemMonitor.t) (w : World.t) :
  isTick c = false ->
  SystemMonitor.metrics (fst (run c s w)) = SystemMonitor.metrics s
  /\ SystemMonitor.alerts (fst (run c s w)) = SystemMonitor.alerts s.
Proof.
  destruct c as [p | | p | n]; cbn [isTick run]; intros H; try discriminate.
  - destruct (SystemMonitor.isRunning s) eqn:E.
    + rewrite LifecycleFacts.start_running by exact E. split; reflexivity.
    + destruct (LifecycleFacts.start_result p s w E) as [_ [_ [_ [Hm [Ha _]]]]].
      split; assumption.
  - destruct (SystemMonitor.isRunning s) eqn:E.
    + destruct (LifecycleFacts.stop_result s w E) as [_ [_ [Hm [Ha _]]]].
      split; assumption.
    + rewrite LifecycleFacts.stop_stopped by exact E. split; reflexivity.
  - split; reflexivity.
Qed.

Lemma start_timers (p : Provider.t) (s : SystemMonitor.t) (w : World.t) :
  SystemMonitor.isRunning s = false ->
  World.timers (snd (start p s w)) = World.nextTimer w :: World.timers w.
Proof.
  intros H. unfold start. rewrite H. unfold bind, when.
  destruct (Config.debug (SystemMonitor.config s)); reflexivity.
Qed.

Lemma stop_timers (s : SystemMonitor.t) (w : World.t) (id : nat) :
  SystemMonitor.isRunning s = true -> SystemMonitor.intervalId s = Some id ->
  World.timers (snd (stop s w))
  = filter (fun t => negb (Nat.eqb t id)) (World.timers w).
Proof.
  intros H Hid. unfold stop. rewrite H, Hid. unfold bind, when. cbn [negb].
  destruct (Config.debug (SystemMonitor.config s)); reflexivity.
Qed.

Lemma run_ownsTimers (c : Call.t) (s : SystemMonitor.t) (w : World.t) :
  ownsTimers s w -> ownsTimers (fst (run c s w)) (snd (run c s w)).
Proof.
  unfold ownsTimers. intros H.
  destruct c as [p | | p | n]; cbn [run].
  - destruct (SystemMonitor.isRunning s) eqn:E.
    + rewrite LifecycleFacts.start_running by exact E. cbn [fst snd]. rewrite E. exact H.
    + destruct (LifecycleFacts.start_result p s w E) as [-> [-> _]].
      rewrite (start_timers p s w E).
      destruct (SystemMonitor.intervalId s); [ contradiction | ]. rewrite H. reflexivity.
  - destruct (SystemMonitor.isRunning s) eqn:E.
    + destruct (LifecycleFacts.stop_result s w E) as [-> [-> _]].
      destruct (SystemMonitor.intervalId s) as [id|] eqn:Ei; [ | contradiction ].
      rewrite (stop_timers s w id E Ei), H. simpl. rewrite Nat.eqb_refl. reflexivity.
    + rewrite LifecycleFacts.stop_stopped by exact E. cbn [fst snd]. rewrite E. exact H.
  - pose proof (WorldFacts.advances_collectMetrics p s w) as [_ [_ [_ [_ [_ [T _]]]]]].
    rewrite T.
    destruct (SystemMonitor.isRunning s) eqn:E.
    + destruct (TickLayout.tick_layout p s w E)
        as [i1 [i2 [new [_ [_ [_ [_ [_ [_ [_ [_ [_ [_ [-> ->]]]]]]]]]]]]]].
      exact H.
    + rewrite TickFacts.collectMetrics_stopped by exact E. cbn [fst]. rewrite E. exact H.
  - pose proof (WorldFacts.advances_updateConfig n s w) as [_ [_ [_ [_ [_ [T _]]]]]].
    rewrite T. exact H.
Qed.

End RunFacts.

(** X6: once [stop] has returned, timer callbacks that still fire do
    nothing: whatever the provider would answer, the monitor and the world
    (clock reads, event log) stay exactly as [stop] left them; the same holds
    for a monitor that was never started. *)
Theorem ticks_after_stop_are_inert
    (s : SystemMonitor.t) (w : World.t) (ps : list Provider.t) :
  runAll (map Call.tick ps) (fst (stop s w)) (snd (stop s w)) = stop s w
  /\ forall config, runAll (map Call.tick ps) (constructor config) w
                    = (constructor config, w).
Proof.
  split.
  - rewrite RunFacts.ticks_when_stopped by apply RunFacts.stop_leaves_stopped.
    destruct (stop s w); reflexivity.
  - intros config. apply RunFacts.ticks_when_stopped. reflexivity.
Qed.

(** X7: only ticks change the history: over any sequence of [start],
    [stop] and [updateConfig] calls the stored snapshots and the alert list
    are the ones the monitor began with, so stopping does not clear them and
    a restart continues the same history. *)
Theorem lifecycle_calls_keep_history
    (cs : list Call.t) (s : SystemMonitor.t) (w : World.t) :
  forallb (fun c => negb (isTick c)) cs = true ->
  SystemMonitor.metrics (fst (runAll cs s w)) = SystemMonitor.metrics s
  /\ SystemMonitor.alerts (fst (runAll cs s w)) = SystemMonitor.alerts s.
Proof.
  revert s w. induction cs as [| c cs IH]; intros s w H; [ split; reflexivity | ].
  cbn [forallb] in H. apply andb_true_iff in H as [Hc Hcs].
  rewrite RunFacts.runAll_cons.
  destruct (IH (fst (run c s w)) (snd (run c s w)) Hcs) as [-> ->].
  apply RunFacts.history_frame. destruct (isTick c); [ discriminate | reflexivity ].
Qed.

(** Stopping, reconfiguring and restarting the monitor that holds one
    snapshot keeps that snapshot. *)
Lemma lifecycle_calls_keep_history_witness :
  SystemMonitor.metrics
    (fst (runAll [Call.stop; Call.updateConfig cpuOffUpdate; Call.start sampleProvider]
            (fst (afterOneTick sampleProvider)) (snd (afterOneTick sampleProvider))))
  = SystemMonitor.metrics (fst (afterOneTick sampleProvider)).
Proof.
  apply (lifecycle_calls_keep_history
           [Call.stop; Call.updateConfig cpuOffUpdate; Call.start sampleProvider]).
  reflexivity.
Defined.

Module ScheduleFacts.

Lemma steps_cons (c : Step.t) (cs : list Step.t) (t : Task.t) (w : World.t) :
  steps (c :: cs) t w = steps cs (fst (step c t w)) (snd (step c t w)).
Proof. simpl. unfold bind. destruct (step c t w); reflexivity. Qed.

Lemma steps_app (cs1 cs2 : list Step.t) (t : Task.t) (w : World.t) :
  steps (cs1 ++ cs2) t w = steps cs2 (fst (steps cs1 t w)) (snd (steps cs1 t w)).
Proof.
  revert t w. induction cs1 as [| c cs1 IH]; intros t w; [ reflexivity | ].
  cbn [app]. rewrite !steps_cons. apply IH.
Qed.

(** [start], the call awaited, is its first part followed by its second. *)
Lemma start_awaited (p : Provider.t) (s : SystemMonitor.t) (w : World.t) :
  start p s w
  = (let r := start_beforeAwait s w in
     if snd (fst r) then start_afterAwait (Provider.networkStats p) (fst (fst r)) (snd r)
     else (fst (fst r), snd r)).
Proof.
  unfold start, start_beforeAwait, start_afterAwait, start_armTimer, bind, when, ret.
  destruct (SystemMonitor.isRunning s); [ reflexivity | ].
  destruct (MetricConfig.enabled (cfgNetwork s));
    destruct (Config.debug (SystemMonitor.config s)) eqn:Ed;
    cbn; rewrite ?Ed; reflexivity.
Qed.

Lemma awaited_run (c : Call.t) (s : SystemMonitor.t) (w : World.t) :
  steps (awaited c) (Task.mk s 0) w = (Task.mk (fst (run c s w)) 0, snd (run c s w)).
Proof.
  destruct c as [p | | p | n]; cbn [awaited run].
  - rewrite !steps_cons. cbn [steps step Task.monitor Task.suspended].
    rewrite (start_awaited p s w). unfold bind, ret. cbv zeta.
    destruct (start_beforeAwait s w) as [[s1 suspended] w1]. cbn [fst snd].
    destruct suspended; cbn [Task.suspended Task.monitor fst snd].
    + destruct (start_afterAwait (Provider.networkStats p) s1 w1); reflexivity.
    + reflexivity.
  - cbn [steps step]. unfold bind, ret. cbn [Task.monitor Task.suspended].
    destruct (stop s w); reflexivity.
  - cbn [steps step]. unfold bind, ret. cbn [Task.monitor Task.suspended].
    destruct (collectMetrics p s w); reflexivity.
  - cbn [steps step]. unfold bind, ret. cbn [Task.monitor Task.suspended].
    destruct (updateConfig n s w); reflexivity.
Qed.

Lemma awaited_runAll (calls : list Call.t) (s : SystemMonitor.t) (w : World.t) :
  steps (flat_map awaited calls) (Task.mk s 0) w
  = (Task.mk (fst (runAll calls s w)) 0, snd (runAll calls s w)).
Proof.
  revert s w. induction calls as [| c calls IH]; intros s w; [ reflexivity | ].
  cbn [flat_map]. rewrite steps_app, awaited_run. cbn [fst snd].
  rewrite IH, RunFacts.runAll_cons. reflexivity.
Qed.

Lemma noStop_app (cs1 cs2 : list Step.t) (t : Task.t) (w : World.t) :
  noStopWhileSuspended cs1 t w ->
  noStopWhileSuspended cs2 (fst (steps cs1 t w)) (snd (steps cs1 t w)) ->
  noStopWhileSuspended (cs1 ++ cs2) t w.
Proof.
  revert t w. induction cs1 as [| c cs1 IH]; intros t w H1 H2; [ exact H2 | ].
  cbn [app noStopWhileSuspended] in *. destruct H1 as [Hc H1].
  split; [ exact Hc | ]. apply IH; [ exact H1 | ].
  rewrite steps_cons in H2. exact H2.
Qed.

Lemma awaited_noStop (c : Call.t) (s : SystemMonitor.t) (w : World.t) :
  noStopWhileSuspended (awaited c) (Task.mk s 0) w.
Proof.
  destruct c as [p | | p | n]; cbn [awaited noStopWhileSuspended];
    repeat split; try discriminate; reflexivity.
Qed.

Lemma awaited_all_noStop (calls : list Call.t) (s : SystemMonitor.t) (w : World.t) :
  noStopWhileSuspended (flat_map awaited calls) (Task.mk s 0) w.
Proof.
  revert s w. induction calls as [| c calls IH]; intros s w; [ exact I | ].
  cbn [flat_map]. apply noStop_app; [ apply awaited_noStop | ].
  rewrite awaited_run. apply IH.
Qed.

(** The second part of [start] arms one timer, the next one, and records
    it; it leaves [isRunning] as it finds it. *)
Lemma start_afterAwait_result r s w :
  SystemMonitor.isRunning (fst (start_afterAwait r s w)) = SystemMonitor.isRunning s
  /\ SystemMonitor.intervalId (fst (start_afterAwait r s w)) = Some (World.nextTimer w)
  /\ World.timers (snd (start_afterAwait r s w)) = World.nextTimer w :: World.timers w
  /\ World.nextTimer (snd (start_afterAwait r s w)) = S (World.nextTimer w).
Proof.
  unfold start_afterAwait, start_armTimer, bind, when, ret. cbn [setInterval fst snd].
  destruct (Config.debug _); cbn; repeat split; reflexivity.
Qed.

Lemma start_beforeAwait_cases s w :
  let r := start_beforeAwait s w in
  (SystemMonitor.isRunning s = true -> r = ((s, false), w))
  /\ (SystemMonitor.isRunning s = false -> MetricConfig.enabled (cfgNetwork s) = true ->
      snd (fst r) = true
      /\ SystemMonitor.isRunning (fst (fst r)) = true
      /\ SystemMonitor.intervalId (fst (fst r)) = SystemMonitor.intervalId s
      /\ SystemMonitor.config (fst (fst r)) = SystemMonitor.config s
      /\ World.timers (snd r) = World.timers w
      /\ World.nextTimer (snd r) = World.nextTimer w
      /\ World.log (snd r) = World.log w)
  /\ (SystemMonitor.isRunning s = false -> MetricConfig.enabled (cfgNetwork s) = false ->
      snd (fst r) = false
      /\ SystemMonitor.isRunning (fst (fst r)) = true
      /\ SystemMonitor.intervalId (fst (fst r)) = Some (World.nextTimer w)
      /\ World.timers (snd r) = World.nextTimer w :: World.timers w).
Proof.
  unfold start_beforeAwait, start_armTimer, bind, when, ret.
  destruct (SystemMonitor.isRunning s); (split; [ | split ]); intros; try discriminate;
    try reflexivity.
  - match goal with H : MetricConfig.enabled _ = true |- _ => rewrite H end.
    cbn. repeat split; reflexivity.
  - match goal with H : MetricConfig.enabled _ = false |- _ => rewrite H end.
    cbn [Date_now setInterval fst snd].
    destruct (Config.debug _); cbn; repeat split; reflexivity.
Qed.

(** A tick or a reconfiguration leaves the lifecycle fields and the timers
    alone. *)
Lemma tick_keeps_lifecycle p s w :
  SystemMonitor.isRunning (fst (collectMetrics p s w)) = SystemMonitor.isRunning s
  /\ SystemMonitor.intervalId (fst (collectMetrics p s w)) = SystemMonitor.intervalId s
  /\ World.timers (snd (collectMetrics p s w)) = World.timers w.
Proof.
  pose proof (WorldFacts.advances_collectMetrics p s w) as [_ [_ [_ [_ [_ [T _]]]]]].
  destruct (SystemMonitor.isRunning s) eqn:E.
  - destruct (TickLayout.tick_layout p s w E)
      as [i1 [i2 [new [_ [_ [_ [_ [_ [_ [_ [_ [_ [_ [H1 H2]]]]]]]]]]]]]].
    rewrite H1, H2. split; [ | split ]; auto.
  - rewrite TickFacts.collectMetrics_stopped by exact E. cbn [fst snd].
    split; [ | split ]; auto.
Qed.

Lemma updateConfig_keeps_lifecycle n s w :
  SystemMonitor.isRunning (fst (updateConfig n s w)) = SystemMonitor.isRunning s
  /\ SystemMonitor.intervalId (fst (updateConfig n s w)) = SystemMonitor.intervalId s
  /\ World.timers (snd (updateConfig n s w)) = World.timers w.
Proof. repeat split. Qed.

Lemma step_timersInHand (c : Step.t) (t : Task.t) (w : World.t) :
  (c = Step.stop -> Task.suspended t = 0%nat) ->
  timersInHand t w -> timersInHand (fst (step c t w)) (snd (step c t w)).
Proof.
  intros Hstop H. destruct t as [s k]. unfold timersInHand in *.
  cbn [Task.suspended Task.monitor] in *.
  destruct c as [ | r | | p | n]; cbn [step Task.monitor Task.suspended]; unfold bind, ret.
  - (* start() is called *)
    destruct (start_beforeAwait_cases s w) as [Hr [He Hd]].
    destruct (SystemMonitor.isRunning s) eqn:Erun.
    + rewrite (Hr eq_refl). cbn [fst snd Task.suspended Task.monitor].
      rewrite ?Erun. exact H.
    + destruct k as [| [| k]]; [ | destruct H as [H _]; congruence | contradiction ].
      unfold ownsTimers in H. rewrite Erun in H.
      destruct (SystemMonitor.intervalId s) eqn:Eid; [ contradiction | ].
      destruct (MetricConfig.enabled (cfgNetwork s)) eqn:En.
      * destruct (He eq_refl eq_refl) as [H1 [H2 [H3 [_ [H5 _]]]]].
        destruct (start_beforeAwait s w) as [[s1 b] w1]. cbn [fst snd] in *.
        subst b. cbn [Task.suspended Task.monitor].
        split; [ exact H2 | ]. split; [ congruence | congruence ].
      * destruct (Hd eq_refl eq_refl) as [H1 [H2 [H3 H4]]].
        destruct (start_beforeAwait s w) as [[s1 b] w1]. cbn [fst snd] in *.
        subst b. cbn [Task.suspended Task.monitor]. unfold ownsTimers.
        rewrite H2, H3, H4, H. reflexivity.
  - (* a suspended start() resumes *)
    destruct k as [| [| k]]; [ exact H | | contradiction ].
    destruct H as [Hrun [Hid Ht]].
    destruct (start_afterAwait_result r s w) as [H1 [H2 [H3 _]]].
    destruct (start_afterAwait r s w) as [s1 w1]. cbn [fst snd] in *.
    cbn [Task.suspended Task.monitor]. unfold ownsTimers.
    rewrite H1, H2, H3, Hrun, Ht. reflexivity.
  - (* stop() *)
    rewrite (Hstop eq_refl) in *.
    pose proof (RunFacts.run_ownsTimers Call.stop s w H) as Hs. cbn [run] in Hs.
    destruct (stop s w) as [s1 w1]. exact Hs.
  - (* a tick *)
    destruct (tick_keeps_lifecycle p s w) as [H1 [H2 H3]].
    destruct (collectMetrics p s w) as [s1 w1]. cbn [fst snd] in *.
    cbn [Task.suspended Task.monitor]. unfold ownsTimers in *.
    rewrite H1, H2, H3. exact H.
  - (* updateConfig() *)
    destruct (updateConfig_keeps_lifecycle n s w) as [H1 [H2 H3]].
    destruct (updateConfig n s w) as [s1 w1]. cbn [fst snd] in *.
    cbn [Task.suspended Task.monitor]. unfold ownsTimers in *.
    rewrite H1, H2, H3. exact H.
Qed.

Lemma steps_timersInHand (cs : list Step.t) (t : Task.t) (w : World.t) :
  noStopWhileSuspended cs t w ->
  timersInHand t w -> timersInHand (fst (steps cs t w)) (snd (steps cs t w)).
Proof.
  revert t w. induction cs as [| c cs IH]; intros t w Hq H; [ exact H | ].
  destruct Hq as [Hc Hq]. rewrite steps_cons.
  apply IH; [ exact Hq | ]. apply step_timersInHand; assumption.
Qed.

End ScheduleFacts.

(** X8: as long as [stop()] is not called while a [start()] is suspended at
    its [await], a monitor never has more than one interval timer armed: over
    any schedule of steps (the two parts of [start()], [stop()], ticks,
    [updateConfig()]) at most one [start()] is suspended; while none is, no
    timer is armed on a stopped monitor and exactly the timer recorded in
    [intervalId] on a running one; while one is, the monitor is marked
    running and no timer is armed yet.  Calls that are each awaited before
    the next is made form such a schedule, and run as the call sequences of
    the rest of this development do. *)
Theorem at_most_one_timer_armed (cs : list Step.t) (t : Task.t) (w : World.t) :
  Task.suspended t = 0%nat ->
  ownsTimers (Task.monitor t) w ->
  noStopWhileSuspended cs t w ->
  let t' := fst (steps cs t w) in
  let w' := snd (steps cs t w) in
  (List.length (World.timers w') <= 1)%nat
  /\ (Task.suspended t' <= 1)%nat
  /\ (Task.suspended t' = 0%nat -> ownsTimers (Task.monitor t') w')
  /\ (Task.suspended t' = 1%nat ->
      SystemMonitor.isRunning (Task.monitor t') = true /\ World.timers w' = [])
  /\ (SystemMonitor.isRunning (Task.monitor t') = false -> World.timers w' = [])
  /\ (forall calls s0 w0,
        steps (flat_map awaited calls) (Task.mk s0 0) w0
        = (Task.mk (fst (runAll calls s0 w0)) 0, snd (runAll calls s0 w0))
        /\ noStopWhileSuspended (flat_map awaited calls) (Task.mk s0 0) w0)
  /\ (forall p s0 w0,
        start p s0 w0
        = (let r := start_beforeAwait s0 w0 in
           if snd (fst r)
           then start_afterAwait (Provider.networkStats p) (fst (fst r)) (snd r)
           else (fst (fst r), snd r))).
Proof.
  intros Hk Hown Hq t' w'.
  assert (H0 : timersInHand t w) by (unfold timersInHand; rewrite Hk; exact Hown).
  pose proof (ScheduleFacts.steps_timersInHand cs t w Hq H0) as H.
  fold t' w' in H. unfold timersInHand, ownsTimers in H. unfold ownsTimers.
  split; [ | split; [ | split; [ | split; [ | split; [ | split ] ] ] ] ].
  - destruct (Task.suspended t') as [| [| k]]; [ | | contradiction ].
    + destruct (SystemMonitor.isRunning (Task.monitor t'));
        destruct (SystemMonitor.intervalId (Task.monitor t'));
        try contradiction; rewrite H; simpl; lia.
    + destruct H as [_ [_ ->]]. simpl. lia.
  - destruct (Task.suspended t') as [| [| k]]; [ lia | lia | contradiction ].
  - intros E. rewrite E in H. exact H.
  - intros E. rewrite E in H. destruct H as [H1 [_ H2]]. split; assumption.
  - intros E. destruct (Task.suspended t') as [| [| k]]; [ | | contradiction ].
    + rewrite E in H.
      destruct (SystemMonitor.intervalId (Task.monitor t')); [ contradiction | exact H ].
    + destruct H as [_ [_ H]]. exact H.
  - intros calls s0 w0.
    split; [ apply ScheduleFacts.awaited_runAll | apply ScheduleFacts.awaited_all_noStop ].
  - intros p s0 w0. apply ScheduleFacts.start_awaited.
Qed.

(** On the new monitor: [start()] not awaited, a second [start()], a tick,
    an [updateConfig()], and the first [start()] resuming leave one timer
    armed; a [stop()] after that leaves none. *)
Lemma at_most_one_timer_armed_witness :
  Task.suspended (Task.mk defaultMonitor 0) = 0%nat
  /\ ownsTimers defaultMonitor world0
  /\ World.timers
       (snd (steps [Step.startCalled; Step.startCalled; Step.tick sampleProvider;
                    Step.updateConfig cpuOffUpdate;
                    Step.startResumed (Provider.networkStats sampleProvider)]
               (Task.mk defaultMonitor 0) world0)) = [0%nat]
  /\ World.timers
       (snd (steps [Step.startCalled; Step.startCalled; Step.tick sampleProvider;
                    Step.updateConfig cpuOffUpdate;
                    Step.startResumed (Provider.networkStats sampleProvider); Step.stop]
               (Task.mk defaultMonitor 0) world0)) = [].
Proof.
  assert (H0 : ownsTimers defaultMonitor world0) by reflexivity.
  split; [ reflexivity | ]. split; [ exact H0 | ].
  split; [ vm_compute; reflexivity | ].
  assert (Hq : noStopWhileSuspended
                 [Step.startCalled; Step.startCalled; Step.tick sampleProvider;
                  Step.updateConfig cpuOffUpdate;
                  Step.startResumed (Provider.networkStats sampleProvider); Step.stop]
                 (Task.mk defaultMonitor 0) world0).
  { cbn [noStopWhileSuspended]. repeat split; try discriminate. }
  destruct (at_most_one_timer_armed _ (Task.mk defaultMonitor 0) world0 eq_refl H0 Hq)
    as [_ [_ [_ [_ [H _]]]]].
  apply H. vm_compute. reflexivity.
Defined.


Module PassThrough.

Lemma orZero_passedThrough (o : option num) : passedThrough o (orZero o).
Proof.
  unfold passedThrough, orZero, JS.or_else.
  destruct o as [v|]; [ | reflexivity ]. destruct (JS.truthy v); reflexivity.
Qed.

Lemma orZero_not_NaN (o : option num) : orZero o <> JS.NaN.
Proof.
  unfold orZero. destruct o as [v|]; [ | discriminate ].
  apply RetentionFacts.or_else_not_NaN.
Qed.

End PassThrough.

(** X9: an enabled network family whose provider call answers records one
    interface per provider entry, in the provider's order and under the
    provider's name; each counter is the provider's value, or 0 when the
    provider reports null, 0 or NaN, so no recorded counter is NaN; and the
    monitor remembers the provider's answer in [lastNetworkStats].  A
    disabled family or a failed call records no interface and leaves
    [lastNetworkStats] as it was. *)
Theorem network_counters_pass_through
    (p : Provider.t) (s : SystemMonitor.t) (w : World.t) :
  let r := fst (getNetworkMetrics p s w) in
  (MetricConfig.enabled (cfgNetwork s) = true ->
   forall stats, Provider.networkStats p = Ok stats ->
     Forall2 ifacePassedThrough stats (Network.interfaces (fst r))
     /\ map Iface.name (Network.interfaces (fst r)) = map NetStats.iface stats
     /\ Forall (fun i => Iface.bytesReceived i <> JS.NaN /\ Iface.bytesSent i <> JS.NaN
                         /\ Iface.packetsReceived i <> JS.NaN
                         /\ Iface.packetsSent i <> JS.NaN)
          (Network.interfaces (fst r))
     /\ SystemMonitor.lastNetworkStats (snd r) = stats)
  /\ (MetricConfig.enabled (cfgNetwork s) = false
      \/ failure (Provider.networkStats p) <> None ->
      Network.interfaces (fst r) = []
      /\ SystemMonitor.lastNetworkStats (snd r) = SystemMonitor.lastNetworkStats s).
Proof.
  intros r. subst r. split.
  - intros He stats Hp. unfold getNetworkMetrics. rewrite He, Hp. cbn.
    split; [ | split; [ | split; [ | reflexivity ] ] ].
    + clear Hp. induction stats as [| x stats IH]; cbn [map]; constructor;
        [ | exact IH ].
      unfold ifacePassedThrough. cbn.
      repeat split; apply PassThrough.orZero_passedThrough.
    + rewrite map_map. reflexivity.
    + apply Forall_forall. intros i Hi. apply in_map_iff in Hi as [x [<- _]]. cbn.
      repeat split; apply PassThrough.orZero_not_NaN.
  - unfold getNetworkMetrics, failure. intros [-> | H]; [ split; reflexivity | ].
    destruct (MetricConfig.enabled (cfgNetwork s)); [ | split; reflexivity ].
    cbn. destruct (Provider.networkStats p); [ congruence | split; reflexivity ].
Qed.

(** The first answer of the provider, with null rates: the rates are
    recorded as 0. *)
Lemma network_counters_pass_through_witness :
  map (fun i => (Iface.name i, Iface.bytesReceived i, Iface.packetsReceived i))
    (Network.interfaces (fst (fst (getNetworkMetrics firstCallProvider defaultMonitor world0))))
  = [("eth0"%string, num_of 1000000, num_of 0)]
  /\ SystemMonitor.lastNetworkStats
       (snd (fst (getNetworkMetrics firstCallProvider defaultMonitor world0)))
     = [NetStats.mk "eth0" (Some (num_of 1000000)) (Some (num_of 500000)) None None].
Proof.
  split; [ vm_compute; reflexivity | ].
  destruct (network_counters_pass_through firstCallProvider defaultMonitor world0)
    as [H _].
  apply (H eq_refl _ eq_refl).
Defined.

Module DiskFacts.

Lemma withinWhole_Fin (used total : num) :
  withinWhole used total ->
  exists u t, used = JS.Fin u /\ total = JS.Fin t /\ (0 <= u)%Q /\ (u <= t)%Q.
Proof.
  destruct used as [u| | |], total as [t| | |]; simpl; try tauto.
  intros [H0 H1]. exists u, t. auto.
Qed.

Lemma sums_withinWhole (fs : list FsSize.t) (u0 t0 : Q) :
  Forall (fun f => withinWhole (FsSize.used f) (FsSize.size f)) fs ->
  (0 <= u0)%Q -> (u0 <= t0)%Q ->
  withinWhole
    (fold_left (fun sum x => JS.add sum (FsSize.used x)) fs (JS.Fin u0))
    (fold_left (fun sum x => JS.add sum (FsSize.size x)) fs (JS.Fin t0)).
Proof.
  intros H. revert u0 t0. induction H as [| f fs Hf _ IH]; intros u0 t0 H0 H1.
  - simpl. auto.
  - simpl. destruct (withinWhole_Fin _ _ Hf) as [u [t [-> [-> [Hu Hut]]]]].
    simpl. apply IH; lra.
Qed.

Lemma guardedPercent_withinWhole (used total : num) :
  withinWhole used total -> JS.between 0 100 (guardedPercent used total).
Proof.
  intros H. destruct (withinWhole_Fin _ _ H) as [u [t [-> [-> [Hu Hut]]]]].
  apply UsageFacts.guardedPercent_between; assumption.
Qed.

Lemma zero_records_in_range :
  JS.between 0 100 (num_of 0).
Proof. simpl. split; discriminate. Qed.

(** The disk record of readings within their wholes. *)
Lemma disk_record_in_range p s w :
  (forall fs, Provider.fsSize p = Ok fs ->
     Forall (fun f => withinWhole (FsSize.used f) (FsSize.size f)) fs) ->
  JS.between 0 100 (Disk.usage (fst (getDiskMetrics p s w)))
  /\ Forall (fun d => JS.between 0 100 (Device.usage d))
       (Disk.devices (fst (getDiskMetrics p s w))).
Proof.
  intros H. unfold getDiskMetrics.
  destruct (MetricConfig.enabled (cfgDisk s)); cbn;
    [ | split; [ apply zero_records_in_range | constructor ] ].
  destruct (Provider.fsSize p) as [fs | e]; cbn;
    [ | split; [ apply zero_records_in_range | constructor ] ].
  specialize (H fs eq_refl). split.
  - apply guardedPercent_withinWhole. unfold reduceSum, num_of, JS.of_Z.
    apply sums_withinWhole; [ exact H | discriminate | discriminate ].
  - apply Forall_forall. intros d Hd. apply in_map_iff in Hd as [f [<- Hf]]. cbn.
    apply guardedPercent_withinWhole. rewrite Forall_forall in H. apply H. exact Hf.
Qed.

Lemma reduceSum_zero {A : Type} (g : A -> num) (l : list A) :
  Forall (fun x => g x = num_of 0) l -> reduceSum g l = num_of 0.
Proof.
  unfold reduceSum. induction 1 as [| x l Hx _ IH]; [ reflexivity | ].
  cbn [fold_left]. rewrite Hx.
  change (JS.add (num_of 0) (num_of 0)) with (num_of 0). exact IH.
Qed.

End DiskFacts.

(** X10: for an enabled disk family whose provider answers with file
    systems that each have 0 <= used <= size, the aggregate usage and every
    device usage lie in [0, 100]; the devices
    follow the provider's order under their mount points; the totals are the
    sums over the file systems; and with no file system at all, or only file
    systems of size 0, the aggregate usage is 0. *)
Theorem disk_usage_is_a_percentage
    (p : Provider.t) (s : SystemMonitor.t) (w : World.t) (fs : list FsSize.t) :
  MetricConfig.enabled (cfgDisk s) = true ->
  Provider.fsSize p = Ok fs ->
  Forall (fun f => withinWhole (FsSize.used f) (FsSize.size f)) fs ->
  let d := fst (getDiskMetrics p s w) in
  JS.between 0 100 (Disk.usage d)
  /\ Forall (fun dev => JS.between 0 100 (Device.usage dev)) (Disk.devices d)
  /\ map Device.name (Disk.devices d) = map FsSize.mount fs
  /\ map Device.total (Disk.devices d) = map FsSize.size fs
  /\ Disk.total d = reduceSum FsSize.size fs
  /\ Disk.used d = reduceSum FsSize.used fs
  /\ Disk.free d = reduceSum FsSize.available fs
  /\ (Forall (fun f => FsSize.size f = num_of 0) fs -> Disk.usage d = num_of 0).
Proof.
  intros He Hp Hfs d.
  destruct (DiskFacts.disk_record_in_range p s w) as [H1 H2].
  { intros fs' Hp'. rewrite Hp in Hp'. injection Hp' as <-. exact Hfs. }
  fold d in H1, H2. split; [ exact H1 | ]. split; [ exact H2 | ].
  subst d. unfold getDiskMetrics. rewrite He, Hp. cbn.
  rewrite !map_map. cbn.
  repeat split.
  intros Hz. unfold guardedPercent.
  assert (Hs : reduceSum FsSize.size fs = num_of 0)
    by (apply DiskFacts.reduceSum_zero; exact Hz).
  rewrite Hs. reflexivity.
Qed.

(** A root file system half full beside a pseudo file system of size 0:
    usages 50 and 0, aggregate 50. *)
Lemma disk_usage_is_a_percentage_witness :
  JS.between 0 100 (Disk.usage (fst (getDiskMetrics twoDiskProvider defaultMonitor world0)))
  /\ map Device.usage
       (Disk.devices (fst (getDiskMetrics twoDiskProvider defaultMonitor world0)))
     = [num_of 50; num_of 0].
Proof.
  split; [ | vm_compute; reflexivity ].
  apply (disk_usage_is_a_percentage twoDiskProvider defaultMonitor world0
           [FsSize.mk "/" (num_of 100) (num_of 50) (num_of 50);
            FsSize.mk "/proc" (num_of 0) (num_of 0) (num_of 0)] eq_refl eq_refl).
  repeat constructor; discriminate.
Defined.

Module RangeFacts.

Lemma between_Fin (a : num) (lo hi : Q) :
  JS.between lo hi a -> exists x, a = JS.Fin x /\ (lo <= x)%Q /\ (x <= hi)%Q.
Proof. destruct a as [x| | |]; simpl; try tauto. intros [H1 H2]. exists x. auto. Qed.

Lemma cpu_record_in_range p s w :
  (forall load, Provider.currentLoad p = Ok load ->
     JS.between 0 100 (CurrentLoad.currentLoad load)) ->
  JS.between 0 100 (Cpu.usage (fst (getCpuMetrics p s w))).
Proof.
  intros H. unfold getCpuMetrics, cpuReadings.
  destruct (MetricConfig.enabled (cfgCpu s)); cbn;
    [ | apply DiskFacts.zero_records_in_range ].
  destruct (Provider.currentLoad p) as [load | e];
    destruct (Provider.cpuCurrentSpeed p) as [speed | e'];
    try apply DiskFacts.zero_records_in_range.
  cbn. destruct (between_Fin _ _ _ (H load eq_refl)) as [x [-> [H0 H1]]].
  apply Rounding.round_between; assumption.
Qed.

Lemma memory_record_in_range p s w :
  (forall mem, Provider.mem p = Ok mem ->
     withinWhole (Mem.used mem) (Mem.total mem) /\ JS.Lt (num_of 0) (Mem.total mem)) ->
  JS.between 0 100 (Memory.usage (fst (getMemoryMetrics p s w))).
Proof.
  intros H. unfold getMemoryMetrics.
  destruct (MetricConfig.enabled (cfgMemory s)); cbn;
    [ | apply DiskFacts.zero_records_in_range ].
  destruct (Provider.mem p) as [mem | e]; [ | apply DiskFacts.zero_records_in_range ].
  cbn. destruct (H mem eq_refl) as [Hw Hpos].
  destruct (DiskFacts.withinWhole_Fin _ _ Hw) as [u [t [Eu [Et [H0 H1]]]]].
  rewrite Eu, Et in *. simpl in Hpos. change (inject_Z 0) with 0%Q in Hpos.
  apply Rounding.percent_between; assumption.
Qed.

Lemma tickSnapshot_in_range p s w :
  saneProvider p -> usagesInRange (tickSnapshot p s w).
Proof.
  intros [Hc [Hm Hd]]. unfold usagesInRange, tickSnapshot, cpuUsage, memoryUsage, diskUsage.
  cbn [SystemMetrics.cpu SystemMetrics.memory SystemMetrics.disk].
  split; [ apply cpu_record_in_range; exact Hc | ].
  split; [ apply memory_record_in_range; exact Hm | ].
  apply DiskFacts.disk_record_in_range. exact Hd.
Qed.

Lemma Forall_filter {A : Type} (P : A -> Prop) (keep : A -> bool) (l : list A) :
  Forall P l -> Forall P (filter keep l).
Proof.
  intros H. rewrite Forall_forall in *. intros x Hx.
  apply filter_In in Hx as [Hx _]. auto.
Qed.

Lemma run_in_range (c : Call.t) (s : SystemMonitor.t) (w : World.t) :
  Forall usagesInRange (SystemMonitor.metrics s) ->
  match c with Call.tick p => saneProvider p | _ => True end ->
  Forall usagesInRange (SystemMonitor.metrics (fst (run c s w))).
Proof.
  intros H Hc. destruct (isTick c) eqn:Et.
  - destruct c as [| | p |]; try discriminate. cbn [run].
    destruct (SystemMonitor.isRunning s) eqn:E.
    + destruct (TickLayout.tick_layout p s w E) as [i1 [i2 [new [_ [_ [_ [-> _]]]]]]].
      apply Forall_filter. apply Forall_app. split; [ exact H | ].
      constructor; [ | constructor ]. apply tickSnapshot_in_range. exact Hc.
    + rewrite TickFacts.collectMetrics_stopped by exact E. exact H.
  - destruct (RunFacts.history_frame c s w Et) as [-> _]. exact H.
Qed.

Lemma usagesInRange_valid (m : SystemMetrics.t) : usagesInRange m -> validUsages m.
Proof.
  intros [Hc [Hm [Hd _]]]. unfold validUsages.
  destruct (between_Fin _ _ _ Hc) as [x [-> [? ?]]].
  destruct (between_Fin _ _ _ Hm) as [y [-> [? ?]]].
  destruct (between_Fin _ _ _ Hd) as [z [-> [? ?]]].
  simpl. auto.
Qed.

End RangeFacts.

(** X11: as long as every tick meets sane provider readings (a load in
    [0, 100], used memory within a positive total, used space within the size
    of each file system), every usage of every stored snapshot, device usages
    included, is a number in [0, 100], over any sequence of calls; the health
    score is then in [0, 100] and so is the score of every analysis. *)
Theorem sane_readings_keep_usages_in_range
    (cs : list Call.t) (s : SystemMonitor.t) (w : World.t) :
  Forall usagesInRange (SystemMonitor.metrics s) ->
  saneCalls cs ->
  let s' := fst (runAll cs s w) in
  Forall usagesInRange (SystemMonitor.metrics s')
  /\ JS.between 0 100 (calculateHealthScore s')
  /\ (forall a, getAnalysis s' = Some a ->
        JS.between 0 100 (Summary.score (Analysis.summary a))).
Proof.
  intros H Hcs s'.
  assert (Hall : Forall usagesInRange (SystemMonitor.metrics s')).
  { subst s'. revert s w H. induction Hcs as [| c cs Hc _ IH]; intros s w H; [ exact H | ].
    rewrite RunFacts.runAll_cons. apply IH. apply RangeFacts.run_in_range; assumption. }
  assert (Hscore : JS.between 0 100 (calculateHealthScore s')).
  { apply AnalysisFacts.calculateHealthScore_valid.
    apply (Windows.Forall_slice_last _ 5); [ lia | ].
    eapply Forall_impl; [ | exact Hall ]. apply RangeFacts.usagesInRange_valid. }
  split; [ exact Hall | ]. split; [ exact Hscore | ].
  intros a Ha. unfold getAnalysis in Ha.
  destruct (SystemMonitor.metrics s'); [ discriminate | ].
  injection Ha as <-. exact Hscore.
Qed.

(** The sample readings are sane; after a start and three ticks the store
    is in range. *)
Lemma sane_readings_witness :
  saneCalls [Call.start sampleProvider; Call.tick sampleProvider;
             Call.tick twoDiskProvider; Call.tick sampleProvider]
  /\ Forall usagesInRange
       (SystemMonitor.metrics
          (fst (runAll [Call.start sampleProvider; Call.tick sampleProvider;
                        Call.tick twoDiskProvider; Call.tick sampleProvider]
                  defaultMonitor world0))).
Proof.
  assert (S1 : saneProvider sampleProvider).
  { unfold saneProvider. split; [ | split ].
    - intros load H. injection H as <-. simpl. split; discriminate.
    - intros mem H. injection H as <-. simpl. repeat split; discriminate || reflexivity.
    - intros fs H. injection H as <-. repeat constructor; discriminate. }
  assert (S2 : saneProvider twoDiskProvider).
  { unfold saneProvider. split; [ | split ].
    - intros load H. injection H as <-. simpl. split; discriminate.
    - intros mem H. injection H as <-. simpl. repeat split; discriminate || reflexivity.
    - intros fs H. injection H as <-. repeat constructor; discriminate. }
  assert (Hc : saneCalls [Call.start sampleProvider; Call.tick sampleProvider;
                          Call.tick twoDiskProvider; Call.tick sampleProvider]).
  { unfold saneCalls. constructor; [ exact I | ]. constructor; [ exact S1 | ].
    constructor; [ exact S2 | ]. constructor; [ exact S1 | constructor ]. }
  split; [ exact Hc | ].
  apply (sane_readings_keep_usages_in_range _ defaultMonitor world0); [ constructor | exact Hc ].
Defined.

Module AlertHistory.

Lemma alertsIn_app (t1 t2 : list Event.t) : alertsIn (t1 ++ t2) = alertsIn t1 ++ alertsIn t2.
Proof. apply flat_map_app. Qed.

Lemma alertsIn_errorEvents label enabled fail : alertsIn (errorEvents label enabled fail) = [].
Proof. unfold errorEvents. destruct enabled; [ destruct fail | ]; reflexivity. Qed.

Lemma alertsIn_alerts (als : list Alert.t) : alertsIn (map Event.alert als) = als.
Proof. induction als as [| a als IH]; [ reflexivity | ]. simpl. f_equal. exact IH. Qed.

Lemma run_alerts_wellFormed (c : Call.t) (s : SystemMonitor.t) (w : World.t) :
  Forall alertWellFormed (SystemMonitor.alerts s) ->
  Forall alertWellFormed (SystemMonitor.alerts (fst (run c s w))).
Proof.
  intros H. destruct (isTick c) eqn:Et.
  - destruct c as [| | p |]; try discriminate. cbn [run].
    destruct (SystemMonitor.isRunning s) eqn:E.
    + destruct (TickLayout.tick_layout p s w E)
        as [i1 [i2 [new [_ [_ [_ [_ [-> [_ [Hw _]]]]]]]]]].
      apply Forall_app. split; [ apply RangeFacts.Forall_filter; exact H | exact Hw ].
    + rewrite TickFacts.collectMetrics_stopped by exact E. exact H.
  - destruct (RunFacts.history_frame c s w Et) as [_ ->]. exact H.
Qed.

End AlertHistory.

(** X12: in a tick of a running monitor the alert list afterwards is the
    old list without the alerts that are 30 days old or older, followed by
    exactly the alerts carried by the [alert] events of that tick, in the
    order they were emitted; with alerts disabled in the configuration the
    tick emits no [alert] event and adds nothing to the list. *)
Theorem stored_alerts_are_the_emitted_alerts
    (p : Provider.t) (s : SystemMonitor.t) (w : World.t) :
  SystemMonitor.isRunning s = true ->
  exists now : Z,
    SystemMonitor.alerts (fst (collectMetrics p s w))
    = filter (keepAlert (alertCutoffTime now)) (SystemMonitor.alerts s)
      ++ alertsIn (emitted (collectMetrics p s) w)
    /\ (exists i, (World.clockReads w < i)%nat /\ now = World.clock w i)
    /\ (AlertsConfig.enabled (Config.alerts (SystemMonitor.config s)) = false ->
        alertsIn (emitted (collectMetrics p s) w) = []
        /\ Subseq (SystemMonitor.alerts (fst (collectMetrics p s w)))
             (SystemMonitor.alerts s)).
Proof.
  intros Hrun.
  destruct (TickLayout.tick_layout p s w Hrun)
    as [i1 [i2 [new [_ [Hi2 [_ [_ [Ha [Htr [_ [Hoff _]]]]]]]]]]].
  assert (Hin : alertsIn (emitted (collectMetrics p s) w) = new).
  { rewrite Htr. rewrite !AlertHistory.alertsIn_app, !AlertHistory.alertsIn_errorEvents,
      AlertHistory.alertsIn_alerts. simpl. apply app_nil_r. }
  exists (World.clock w i2).
  split; [ rewrite Hin; exact Ha | ].
  split; [ exists i2; split; [ exact Hi2 | reflexivity ] | ].
  intros Hd. specialize (Hoff Hd). rewrite Hin, Ha, Hoff. split; [ reflexivity | ].
  rewrite app_nil_r. apply StoreFacts.filter_Subseq.
Qed.

(** A tick under a load of 90 percent stores the one alert it emits. *)
Lemma stored_alerts_witness :
  SystemMonitor.isRunning runningMonitor = true
  /\ SystemMonitor.alerts (fst (collectMetrics busyProvider runningMonitor runningWorld))
     = alertsIn (emitted (collectMetrics busyProvider runningMonitor) runningWorld)
  /\ List.length
       (SystemMonitor.alerts (fst (collectMetrics busyProvider runningMonitor runningWorld)))
     = 1%nat.
Proof.
  split; [ reflexivity | ].
  destruct (stored_alerts_are_the_emitted_alerts busyProvider runningMonitor runningWorld
              eq_refl) as [now [H _]].
  split; [ rewrite H; reflexivity | vm_compute; reflexivity ].
Defined.

(** X13: every alert a monitor ever stores is one that [checkAlerts] built:
    unresolved, for the cpu, memory or disk family, with an id that starts
    with its metric, a message showing its value, and a value that meets its
    threshold; this holds over any sequence of calls from a new monitor. *)
Theorem stored_alerts_are_well_formed
    (cs : list Call.t) (config : SystemMonitorConfig.t) (w : World.t) :
  Forall alertWellFormed (SystemMonitor.alerts (fst (runAll cs (constructor config) w)))
  /\ forall s, Forall alertWellFormed (SystemMonitor.alerts s) ->
               Forall alertWellFormed (SystemMonitor.alerts (fst (runAll cs s w))).
Proof.
  assert (H : forall s w', Forall alertWellFormed (SystemMonitor.alerts s) ->
               Forall alertWellFormed (SystemMonitor.alerts (fst (runAll cs s w')))).
  { induction cs as [| c cs IH]; intros s w' Hs; [ exact Hs | ].
    rewrite RunFacts.runAll_cons. apply IH. apply AlertHistory.run_alerts_wellFormed.
    exact Hs. }
  split; [ apply H; constructor | intros s Hs; apply H; exact Hs ].
Qed.

Module Chronology.

Lemma Chronological_filter (keep : SystemMetrics.t -> bool) (l : list SystemMetrics.t) :
  Chronological l -> Chronological (filter keep l).
Proof.
  induction 1 as [| m l Hm _ IH]; simpl; [ constructor | ].
  destruct (keep m); [ | exact IH ].
  constructor; [ apply RangeFacts.Forall_filter; exact Hm | exact IH ].
Qed.

Lemma Chronological_snoc (l : list SystemMetrics.t) (m : SystemMetrics.t) :
  Chronological l ->
  Forall (fun m' => SystemMetrics.timestamp m' <= SystemMetrics.timestamp m) l ->
  Chronological (l ++ [m]).
Proof.
  induction 1 as [| x l Hx _ IH]; intros Hb; simpl.
  - constructor; constructor.
  - inversion Hb as [| ? ? Hxm Hl]; subst. constructor.
    + apply Forall_app. split; [ exact Hx | ]. constructor; [ exact Hxm | constructor ].
    + apply IH. exact Hl.
Qed.

Lemma start_clock (p : Provider.t) (s : SystemMonitor.t) (w : World.t) :
  World.clock (snd (start p s w)) = World.clock w
  /\ (World.clockReads w <= World.clockReads (snd (start p s w)))%nat.
Proof.
  unfold start. destruct (SystemMonitor.isRunning s); [ split; auto | ].
  unfold bind, when. destruct (Config.debug (SystemMonitor.config s)); cbn; split; auto.
Qed.

Lemma stop_clock (s : SystemMonitor.t) (w : World.t) :
  World.clock (snd (stop s w)) = World.clock w
  /\ (World.clockReads w <= World.clockReads (snd (stop s w)))%nat.
Proof.
  unfold stop. destruct (negb (SystemMonitor.isRunning s)); [ split; auto | ].
  unfold bind, when.
  destruct (SystemMonitor.intervalId s);
    destruct (Config.debug (SystemMonitor.config s)); cbn; split; auto.
Qed.

Lemma run_clock (c : Call.t) (s : SystemMonitor.t) (w : World.t) :
  World.clock (snd (run c s w)) = World.clock w
  /\ (World.clockReads w <= World.clockReads (snd (run c s w)))%nat.
Proof.
  destruct c as [p | | p | n]; cbn [run].
  - apply start_clock.
  - apply stop_clock.
  - destruct (WorldFacts.advances_collectMetrics p s w) as [C [R _]]. auto.
  - destruct (WorldFacts.advances_updateConfig n s w) as [C [R _]]. auto.
Qed.

Lemma run_inOrder (c : Call.t) (s : SystemMonitor.t) (w : World.t) :
  inOrder s w -> inOrder (fst (run c s w)) (snd (run c s w)).
Proof.
  intros [Hmono [Hch Hfut]].
  destruct (run_clock c s w) as [Hc Hr].
  assert (Hmono' : monotoneClock (snd (run c s w))).
  { unfold monotoneClock. rewrite Hc. exact Hmono. }
  assert (Hnext : World.clock w (World.clockReads w)
                  <= World.clock (snd (run c s w)) (World.clockReads (snd (run c s w)))).
  { rewrite Hc. apply Hmono. exact Hr. }
  unfold inOrder, notFromTheFuture in *. split; [ exact Hmono' | ].
  destruct (isTick c) eqn:Et.
  - destruct c as [| | p |]; try discriminate. cbn [run] in *.
    destruct (SystemMonitor.isRunning s) eqn:E.
    + destruct (TickLayout.tick_layout p s w E) as [i1 [i2 [new [_ [_ [Hts [-> _]]]]]]].
      split.
      * apply Chronological_filter. apply Chronological_snoc; [ exact Hch | ].
        rewrite Hts. exact Hfut.
      * apply RangeFacts.Forall_filter. apply Forall_app. split.
        -- eapply Forall_impl; [ | exact Hfut ]. cbv beta. intros m Hm. lia.
        -- constructor; [ rewrite Hts; exact Hnext | constructor ].
    + rewrite TickFacts.collectMetrics_stopped by exact E. cbn [fst snd]. auto.
  - destruct (RunFacts.history_frame c s w Et) as [-> _]. split; [ exact Hch | ].
    eapply Forall_impl; [ | exact Hfut ]. cbv beta. intros m Hm. lia.
Qed.

End Chronology.

(** X14: under a clock that never goes back, the store stays in time
    order: over any sequence of calls from a new monitor (or from any
    monitor whose store is in order and not dated after the clock) the
    timestamps of the stored snapshots are non-decreasing, and so are those
    of every [getMetrics] answer. *)
Theorem store_stays_chronological
    (cs : list Call.t) (s : SystemMonitor.t) (w : World.t) :
  monotoneClock w ->
  Chronological (SystemMonitor.metrics s) ->
  notFromTheFuture s w ->
  let s' := fst (runAll cs s w) in
  Chronological (SystemMonitor.metrics s')
  /\ notFromTheFuture s' (snd (runAll cs s w))
  /\ forall range, Chronological (getMetrics range s').
Proof.
  intros Hm Hc Hf s'. subst s'.
  assert (H : inOrder (fst (runAll cs s w)) (snd (runAll cs s w))).
  { assert (H0 : inOrder s w) by (repeat split; assumption).
    clear Hm Hc Hf. revert s w H0.
    induction cs as [| c cs IH]; intros s w H0; [ exact H0 | ].
    rewrite RunFacts.runAll_cons. apply IH. apply Chronology.run_inOrder. exact H0. }
  destruct H as [_ [H1 H2]].
  split; [ exact H1 | ]. split; [ exact H2 | ].
  intros [r|]; simpl; [ apply Chronology.Chronological_filter | ]; exact H1.
Qed.

(** The sample clock advances by five seconds per reading; a new monitor
    run through a start and two ticks keeps its two snapshots in order. *)
Lemma store_stays_chronological_witness :
  monotoneClock world0
  /\ Chronological
       (SystemMonitor.metrics
          (fst (runAll [Call.start sampleProvider; Call.tick sampleProvider;
                        Call.tick busyProvider] defaultMonitor world0)))
  /\ map SystemMetrics.timestamp
       (SystemMonitor.metrics
          (fst (runAll [Call.start sampleProvider; Call.tick sampleProvider;
                        Call.tick busyProvider] defaultMonitor world0)))
     = [1700000005000; 1700000025000].
Proof.
  assert (Hm : monotoneClock world0).
  { intros i j Hij. unfold world0. cbn [World.clock]. lia. }
  split; [ exact Hm | ]. split; [ | vm_compute; reflexivity ].
  destruct (store_stays_chronological
              [Call.start sampleProvider; Call.tick sampleProvider; Call.tick busyProvider]
              defaultMonitor world0 Hm Chronological_nil (Forall_nil _)) as [H _].
  exact H.
Defined.

Module Survival.

Lemma cutoff_above (now ts : Z) (s : SystemMonitor.t) :
  JS.Le (maxRetention s) (num_of 0) -> ts <= now ->
  JS.Le (num_of ts) (cutoffTime now s).
Proof.
  intros Hneg Hle. unfold cutoffTime.
  destruct (maxRetention s) as [d| | |]; simpl in Hneg; try contradiction.
  - simpl. rewrite Zle_Qle in Hle.
    change (inject_Z 0) with 0%Q in Hneg.
    change (inject_Z 24) with 24%Q. change (inject_Z 60) with 60%Q.
    change (inject_Z 1000) with 1000%Q. lra.
  - simpl. exact I.
Qed.

End Survival.

(** X15: the snapshot of a tick of a running monitor is stored, as the
    newest entry after what the sweep kept of the old store, provided the
    sweep of that tick (which reads the clock one or two readings after the
    timestamp) still finds the timestamp above its cut-off, that is, provided
    the tick lasts less than the retention horizon; [getStatus] then reports
    that timestamp as the last collection time.  Under a clock that never
    goes back and a horizon of 0 days or less the sweep removes the snapshot
    in the very tick that took it. *)
Theorem tick_keeps_its_snapshot
    (p : Provider.t) (s : SystemMonitor.t) (w : World.t) :
  SystemMonitor.isRunning s = true ->
  let snap := tickSnapshot p s w in
  let s' := fst (collectMetrics p s w) in
  let r := World.clockReads w in
  ((forall i, (r < i <= r + 2)%nat ->
      JS.Lt (cutoffTime (World.clock w i) s) (num_of (World.clock w r))) ->
   (exists older, SystemMonitor.metrics s' = older ++ [snap]
                  /\ Subseq older (SystemMonitor.metrics s))
   /\ forall w', SystemStatus.lastMetricTime (fst (getStatus s' w'))
                 = Some (World.clock w r))
  /\ (monotoneClock w -> JS.Le (maxRetention s) (num_of 0) ->
      ~ In snap (SystemMonitor.metrics s')).
Proof.
  intros Hrun snap s' r.
  destruct (TickLayout.tick_layout p s w Hrun) as [i1 [i2 [new [Hi1 [_ [Hts [Hmet _]]]]]]].
  fold snap in Hts, Hmet. fold s' in Hmet. fold r in Hi1, Hts.
  split.
  - intros Hfresh.
    assert (Hk : keepMetric (cutoffTime (World.clock w i1) s) snap = true).
    { apply RetentionFacts.keepMetric_spec. rewrite Hts. apply Hfresh. exact Hi1. }
    assert (Hm : SystemMonitor.metrics s'
                 = filter (keepMetric (cutoffTime (World.clock w i1) s))
                     (SystemMonitor.metrics s) ++ [snap]).
    { rewrite Hmet, filter_app. simpl. rewrite Hk. reflexivity. }
    split.
    + eexists. split; [ exact Hm | apply StoreFacts.filter_Subseq ].
    + intros w'.
      rewrite (ReportFacts.getStatus_last s' w' _ _ Hm), Hts. reflexivity.
  - intros Hmono Hneg Hin.
    assert (Hle : SystemMetrics.timestamp snap <= World.clock w i1).
    { rewrite Hts. apply Hmono. lia. }
    rewrite Hmet in Hin. apply filter_In in Hin as [_ Hk].
    apply RetentionFacts.keepMetric_spec in Hk.
    apply (JSFacts.Le_Lt_exclusive _ _ (Survival.cutoff_above _ _ s Hneg Hle) Hk).
Qed.

(** A tick under a load of 97 percent on the sample clock, five seconds
    per reading against a horizon of seven days: the snapshot is the newest
    entry. *)
Lemma tick_keeps_its_snapshot_witness :
  SystemMonitor.isRunning runningMonitor = true
  /\ exists older,
       SystemMonitor.metrics (fst (collectMetrics overloadedProvider runningMonitor runningWorld))
       = older ++ [tickSnapshot overloadedProvider runningMonitor runningWorld].
Proof.
  split; [ reflexivity | ].
  destruct (tick_keeps_its_snapshot overloadedProvider runningMonitor runningWorld
              eq_refl) as [H _].
  destruct H as [[older [Ho _]] _].
  - intros i Hi.
    assert (Hc : i = 2%nat \/ i = 3%nat) by (vm_compute in Hi; lia).
    destruct Hc as [-> | ->]; vm_compute; reflexivity.
  - exists older. exact Ho.
Defined.

Module SummaryFacts.

Lemma ge_weaken (a : num) (lo hi : Z) :
  lo <= hi -> JS.ge a (num_of hi) = true -> JS.ge a (num_of lo) = true.
Proof.
  intros H Hge. apply JSFacts.ge_Le. apply JSFacts.ge_Le in Hge.
  apply (ReportFacts.Le_num_of_trans lo hi); assumption.
Qed.

(** The shape shared by the summary functions on a non-empty window. *)
Lemma texts_and_health (c90 c80 m95 m85 d95 d85 : bool) (t1 t2 t3 u1 u2 u3 : string) :
  (c90 = true -> c80 = true) -> (m95 = true -> m85 = true) -> (d95 = true -> d85 = true) ->
  let issues := (if c80 then [t1] else []) ++ (if m85 then [t2] else [])
                ++ (if d85 then [t3] else []) in
  let recs := (if c80 then [u1] else []) ++ (if m85 then [u2] else [])
              ++ (if d85 then [u3] else []) in
  let health := if c90 || m95 || d95 then Health.unhealthy
                else if c80 || m85 || d85 then Health.degraded else Health.healthy in
  (issues = [] <-> health = Health.healthy)
  /\ (recs = [] <-> health = Health.healthy)
  /\ List.length issues = List.length recs
  /\ (List.length issues <= 3)%nat.
Proof.
  intros Hc Hm Hd.
  destruct c90, c80, m95, m85, d95, d85; simpl;
    try (specialize (Hc eq_refl); discriminate);
    try (specialize (Hm eq_refl); discriminate);
    try (specialize (Hd eq_refl); discriminate);
    repeat split; intros; try discriminate; try reflexivity; lia.
Qed.

End SummaryFacts.

(** X16: the summary is consistent: the list of key issues is empty exactly
    when the overall health is healthy, the recommendations likewise, and
    there is one recommendation per issue (at most three of each), in the
    order cpu, memory, disk. *)
Theorem key_issues_match_overall_health (s : SystemMonitor.t) :
  (identifyKeyIssues s = [] <-> calculateOverallHealth s = Health.healthy)
  /\ (generateRecommendations s = [] <-> calculateOverallHealth s = Health.healthy)
  /\ List.length (identifyKeyIssues s) = List.length (generateRecommendations s)
  /\ (List.length (identifyKeyIssues s) <= 3)%nat
  /\ (forall a, getAnalysis s = Some a ->
        (Summary.keyIssues (Analysis.summary a) = [] <->
         Summary.overallHealth (Analysis.summary a) = Health.healthy)).
Proof.
  assert (H : (identifyKeyIssues s = [] <-> calculateOverallHealth s = Health.healthy)
              /\ (generateRecommendations s = [] <->
                  calculateOverallHealth s = Health.healthy)
              /\ List.length (identifyKeyIssues s) = List.length (generateRecommendations s)
              /\ (List.length (identifyKeyIssues s) <= 3)%nat).
  { unfold identifyKeyIssues, generateRecommendations, perFamilyTexts,
      calculateOverallHealth.
    destruct (healthWindow s) as [| m W].
    - simpl. repeat split; auto.
    - apply SummaryFacts.texts_and_health; apply SummaryFacts.ge_weaken; lia. }
  destruct H as [H1 [H2 [H3 H4]]].
  repeat split; try tauto; try assumption.
  - intros Hk. unfold getAnalysis in H. destruct (SystemMonitor.metrics s); [ discriminate | ].
    injection H as <-. simpl in *. tauto.
  - intros Hk. unfold getAnalysis in H. destruct (SystemMonitor.metrics s); [ discriminate | ].
    injection H as <-. simpl in *. tauto.
Qed.

Module OrderFacts.

Lemma Le_trans (a b c : num) : JS.Le a b -> JS.Le b c -> JS.Le a c.
Proof.
  destruct a as [x| | |], b as [y| | |], c as [z| | |]; simpl; try tauto. lra.
Qed.

Lemma Le_Lt_trans (a b c : num) : JS.Le a b -> JS.Lt b c -> JS.Lt a c.
Proof.
  destruct a as [x| | |], b as [y| | |], c as [z| | |]; simpl; try tauto. lra.
Qed.

Lemma Lt_not_both (a b t : num) : JS.Lt b a -> JS.Le a t -> JS.Le t b -> False.
Proof.
  destruct a as [x| | |], b as [y| | |], t as [z| | |]; simpl; try tauto. lra.
Qed.

Lemma filter_none {A : Type} (keep : A -> bool) (l : list A) :
  (forall x, keep x = false) -> filter keep l = [].
Proof.
  intros H. induction l as [| x l IH]; [ reflexivity | ]. simpl. rewrite H. exact IH.
Qed.

Lemma filter_filter_weaker {A : Type} (f g : A -> bool) (l : list A) :
  (forall x, f x = true -> g x = true) -> filter f (filter g l) = filter f l.
Proof.
  intros H. induction l as [| x l IH]; [ reflexivity | ]. simpl.
  destruct (g x) eqn:Eg; simpl.
  - rewrite IH. reflexivity.
  - destruct (f x) eqn:Ef; [ rewrite (H x Ef) in Eg; discriminate | exact IH ].
Qed.

End OrderFacts.

(** X17: degenerate ranges of [getMetrics]: a range whose [to] lies below
    its [from], or with a bound that is NaN, selects nothing; the range from
    -Infinity to +Infinity selects the whole store; and narrowing a range
    narrows the answer: the answer for the inner range is the inner range
    applied to the answer for the outer one. *)
Theorem getMetrics_degenerate_and_nested_ranges (s : SystemMonitor.t) :
  (forall r, JS.Lt (TimeRange.to r) (TimeRange.from r) -> getMetrics (Some r) s = [])
  /\ (forall r, TimeRange.from r = JS.NaN \/ TimeRange.to r = JS.NaN ->
        getMetrics (Some r) s = [])
  /\ getMetrics (Some (TimeRange.mk JS.NInf JS.PInf)) s = SystemMonitor.metrics s
  /\ (forall r r', JS.Le (TimeRange.from r') (TimeRange.from r) ->
        JS.Le (TimeRange.to r) (TimeRange.to r') ->
        getMetrics (Some r) s = filter (inRange r) (getMetrics (Some r') s)
        /\ Subseq (getMetrics (Some r) s) (getMetrics (Some r') s)).
Proof.
  split; [ | split; [ | split ] ].
  - intros r Hinv. simpl. apply OrderFacts.filter_none. intros m.
    destruct (inRange r m) eqn:E; [ | reflexivity ].
    apply StoreFacts.inRange_spec in E as [H1 H2].
    exfalso. exact (OrderFacts.Lt_not_both _ _ _ Hinv H1 H2).
  - intros r Hnan. simpl. apply OrderFacts.filter_none. intros m.
    destruct (inRange r m) eqn:E; [ | reflexivity ].
    apply StoreFacts.inRange_spec in E as [H1 H2].
    destruct Hnan as [Hn | Hn]; rewrite Hn in *; simpl in *; contradiction.
  - simpl. induction (SystemMonitor.metrics s) as [| m l IH]; [ reflexivity | ].
    simpl. f_equal. exact IH.
  - intros r r' Hf Ht.
    assert (E : getMetrics (Some r) s = filter (inRange r) (getMetrics (Some r') s)).
    { simpl. symmetry. apply OrderFacts.filter_filter_weaker. intros m Hm.
      apply StoreFacts.inRange_spec in Hm as [H1 H2]. apply StoreFacts.inRange_spec.
      split; eapply OrderFacts.Le_trans; eassumption. }
    split; [ exact E | ]. rewrite E. apply StoreFacts.filter_Subseq.
Qed.

(** On the snapshots at 100, 200 and 300, the range [300, 100] is empty
    and [150, 250] selects within the answer for [150, 300]. *)
Lemma getMetrics_degenerate_ranges_witness :
  getMetrics (Some (TimeRange.mk (num_of 300) (num_of 100))) threeSnapshotMonitor = []
  /\ Subseq (getMetrics (Some (TimeRange.mk (num_of 150) (num_of 250))) threeSnapshotMonitor)
       (getMetrics (Some (TimeRange.mk (num_of 150) (num_of 300))) threeSnapshotMonitor).
Proof.
  destruct (getMetrics_degenerate_and_nested_ranges threeSnapshotMonitor)
    as [H1 [_ [_ H4]]].
  split.
  - apply H1. simpl. reflexivity.
  - apply (H4 (TimeRange.mk (num_of 150) (num_of 250))
              (TimeRange.mk (num_of 150) (num_of 300))); simpl; discriminate.
Defined.

Module SweepFacts.

Lemma cutoff_monotone (n n' : Z) (s : SystemMonitor.t) :
  n <= n' -> JS.Le (cutoffTime n s) (cutoffTime n' s).
Proof.
  intros H. unfold cutoffTime.
  pose proof (RetentionFacts.daysToMs_not_NaN _ (RetentionFacts.maxRetention_not_NaN s)) as Hn.
  destruct (daysToMs (maxRetention s)) as [x| | |]; simpl; try exact I; try congruence.
  rewrite Zle_Qle in H. lra.
Qed.

Lemma cleanupAt_config (n1 n2 : Z) (s : SystemMonitor.t) (n : Z) :
  cutoffTime n (cleanupAt n1 n2 s) = cutoffTime n s.
Proof. reflexivity. Qed.

End SweepFacts.

(** X18: sweeps compose: a sweep followed by a sweep at later clock
    readings leaves exactly what the later sweep alone leaves, for snapshots
    and for alerts; in particular a sweep repeated at the same readings
    changes nothing more. *)
Theorem successive_sweeps_compose
    (s : SystemMonitor.t) (now1 now2 later1 later2 : Z) :
  now1 <= later1 -> now2 <= later2 ->
  cleanupAt later1 later2 (cleanupAt now1 now2 s) = cleanupAt later1 later2 s
  /\ cleanupAt now1 now2 (cleanupAt now1 now2 s) = cleanupAt now1 now2 s.
Proof.
  assert (H : forall a b c d, a <= c -> b <= d ->
                cleanupAt c d (cleanupAt a b s) = cleanupAt c d s).
  { intros a b c d Hac Hbd. unfold cleanupAt at 1.
    rewrite SweepFacts.cleanupAt_config.
    unfold cleanupAt. cbn [SystemMonitor.isRunning SystemMonitor.intervalId
      SystemMonitor.config SystemMonitor.startTime SystemMonitor.metrics
      SystemMonitor.alerts SystemMonitor.lastNetworkStats].
    f_equal.
    - apply OrderFacts.filter_filter_weaker. intros m Hm.
      apply RetentionFacts.keepMetric_spec in Hm. apply RetentionFacts.keepMetric_spec.
      eapply OrderFacts.Le_Lt_trans; [ | exact Hm ].
      apply SweepFacts.cutoff_monotone. exact Hac.
    - apply OrderFacts.filter_filter_weaker. intros x Hx.
      apply RetentionFacts.keepAlert_spec in Hx. apply RetentionFacts.keepAlert_spec.
      unfold alertCutoffTime in *. lia. }
  intros H1 H2. split; [ apply H; assumption | apply H; lia ].
Qed.

(** A sweep on day 10 followed by one on day 20 equals the sweep on day 20. *)
Lemma successive_sweeps_compose_witness :
  cleanupAt (20 * dayMs) (20 * dayMs) (cleanupAt (10 * dayMs) (10 * dayMs) shortRetentionMonitor)
  = cleanupAt (20 * dayMs) (20 * dayMs) shortRetentionMonitor.
Proof.
  apply (successive_sweeps_compose shortRetentionMonitor
           (10 * dayMs) (10 * dayMs) (20 * dayMs) (20 * dayMs)); unfold dayMs; lia.
Defined.

Module MeanFacts.

Lemma fold_Qplus_bounds (qs : list Q) (lo hi acc : Q) :
  Forall (fun q => lo <= q /\ q <= hi)%Q qs ->
  (acc + inject_Z (Z.of_nat (List.length qs)) * lo <= fold_left Qplus qs acc
   /\ fold_left Qplus qs acc <= acc + inject_Z (Z.of_nat (List.length qs)) * hi)%Q.
Proof.
  intros H. revert acc. induction H as [| q qs [Hlo Hhi] _ IH]; intros acc.
  - simpl. change (inject_Z 0) with 0%Q. split; lra.
  - cbn [fold_left List.length]. destruct (IH (acc + q)%Q) as [I1 I2].
    rewrite Nat2Z.inj_succ. unfold Z.succ. rewrite inject_Z_plus.
    change (inject_Z 1) with 1%Q.
    set (N := inject_Z (Z.of_nat (List.length qs))) in *.
    split.
    + apply Qle_trans with (acc + q + N * lo)%Q; [ | exact I1 ].
      setoid_replace ((N + 1) * lo)%Q with (N * lo + lo)%Q by ring.
      set (X := (N * lo)%Q). lra.
    + apply Qle_trans with (acc + q + N * hi)%Q; [ exact I2 | ].
      setoid_replace ((N + 1) * hi)%Q with (N * hi + hi)%Q by ring.
      set (X := (N * hi)%Q). lra.
Qed.

(** The mean of numbers between two bounds lies between the bounds. *)
Lemma Qmean_bounds (qs : list Q) (lo hi : Q) :
  qs <> [] -> Forall (fun q => lo <= q /\ q <= hi)%Q qs ->
  (lo <= Qmean qs /\ Qmean qs <= hi)%Q.
Proof.
  intros Hne H. unfold Qmean, Qsum.
  destruct (fold_Qplus_bounds qs lo hi (inject_Z 0) H) as [H1 H2].
  assert (Hn : (0 < inject_Z (Z.of_nat (List.length qs)))%Q).
  { change 0%Q with (inject_Z 0). rewrite <- Zlt_Qlt.
    destruct qs; [ congruence | simpl; lia ]. }
  change (inject_Z 0) with 0%Q in *.
  set (N := inject_Z (Z.of_nat (List.length qs))) in *.
  split.
  - apply Qle_shift_div_l; [ exact Hn | ].
    setoid_replace (lo * N)%Q with (0 + N * lo)%Q by ring. exact H1.
  - apply Qle_shift_div_r; [ exact Hn | ].
    setoid_replace (hi * N)%Q with (0 + N * hi)%Q by ring. exact H2.
Qed.

Lemma Forall_firstn {A : Type} (P : A -> Prop) (n : nat) (l : list A) :
  Forall P l -> Forall P (firstn n l).
Proof.
  intros H. rewrite Forall_forall in *. intros x Hx. apply H.
  rewrite <- (firstn_skipn n l). apply in_or_app. left. exact Hx.
Qed.

Lemma Forall_skipn {A : Type} (P : A -> Prop) (n : nat) (l : list A) :
  Forall P l -> Forall P (skipn n l).
Proof.
  intros H. rewrite Forall_forall in *. intros x Hx. apply H.
  eapply Windows.In_skipn. exact Hx.
Qed.

End MeanFacts.



(** X20: the cpu record of an answering provider: the usage is the integer
    nearest to the reported load, a half going up; the core count is the
    number of cpus reported; the load averages are always a list; and the
    temperature is present only when the sensor value is a non-zero number:
    a reading of 0 degrees, like a missing or failed reading, is recorded as
    absent. *)
Theorem cpu_record_of_answering_provider
    (p : Provider.t) (s : SystemMonitor.t) (w : World.t)
    (load : CurrentLoad.t) (speed : CpuSpeed.t) :
  MetricConfig.enabled (cfgCpu s) = true ->
  Provider.currentLoad p = Ok load ->
  Provider.cpuCurrentSpeed p = Ok speed ->
  let c := fst (getCpuMetrics p s w) in
  (forall x, CurrentLoad.currentLoad load = JS.Fin x ->
     exists z : Z, Cpu.usage c = num_of z
                   /\ (x - (1 # 2) < inject_Z z /\ inject_Z z <= x + (1 # 2))%Q)
  /\ Cpu.cores c = CurrentLoad.cpus load
  /\ Cpu.loadAverage c <> None
  /\ (forall v, Cpu.temperature c = Some v ->
        JS.truthy v = true
        /\ exists t, Provider.cpuTemperature p = Ok t /\ CpuTemperature.main t = Some v)
  /\ (forall t, Provider.cpuTemperature p = Ok t ->
        CpuTemperature.main t = Some (num_of 0) -> Cpu.temperature c = None)
  /\ emitted (getCpuMetrics p s) w = [].
Proof.
  intros He Hl Hs c. subst c.
  unfold emitted, getCpuMetrics, cpuReadings. rewrite He, Hl, Hs. cbn.
  split.
  { intros x Hx. rewrite Hx. exists (Qfloor (x + (1 # 2))). split; [ reflexivity | ].
    apply Rounding.round_nearest. }
  split; [ reflexivity | ].
  split; [ discriminate | ].
  split.
  { intros v Hv. destruct (Provider.cpuTemperature p) as [t | e]; [ | discriminate ].
    destruct (CpuTemperature.main t) as [v'|] eqn:Em; [ | discriminate ].
    destruct (JS.truthy v') eqn:Et; [ | discriminate ].
    injection Hv as <-. split; [ exact Et | ]. exists t. auto. }
  split.
  { intros t Ht Hm. rewrite Ht, Hm. reflexivity. }
  rewrite <- (app_nil_r (World.log w)) at 2. apply AlertPublication.skipn_app_exact.
Qed.

(** A sensor reading 0 degrees beside a load of 25.5: usage 26, no
    temperature. *)
Lemma cpu_record_witness :
  Cpu.usage (fst (getCpuMetrics freezingProvider defaultMonitor world0)) = num_of 26
  /\ Cpu.temperature (fst (getCpuMetrics freezingProvider defaultMonitor world0)) = None.
Proof.
  split; [ vm_compute; reflexivity | ].
  destruct (cpu_record_of_answering_provider freezingProvider defaultMonitor world0
              (CurrentLoad.mk (JS.Fin (51 # 2)) 1
                 (Some [JS.Fin (12 # 10); JS.Fin (15 # 10); JS.Fin (18 # 10)]))
              (CpuSpeed.mk (num_of 2400)) eq_refl eq_refl eq_refl)
    as [_ [_ [_ [_ [H _]]]]].
  apply (H (CpuTemperature.mk (Some (num_of 0)))); reflexivity.
Defined.

Module ScoreFacts.

Lemma round_upper (x : Q) (k : Z) :
  (x + (1 # 2) < inject_Z (k + 1))%Q -> Qfloor (x + (1 # 2)) <= k.
Proof.
  intros H. pose proof (Qfloor_le (x + (1 # 2))) as Hf.
  assert (Hz : (inject_Z (Qfloor (x + (1 # 2))) < inject_Z (k + 1))%Q) by lra.
  rewrite <- Zlt_Qlt in Hz. lia.
Qed.

(** A family score is max(0, 100 - avg): between 0 and 100, and at most
    100 - c once the average reaches c. *)
Lemma familyScore_Fin (a : Q) :
  (0 <= a)%Q ->
  exists f, familyScore (JS.Fin a) = JS.Fin f
            /\ (0 <= f)%Q /\ (f <= 100)%Q
            /\ forall c : Q, (c <= a)%Q -> (c <= 100)%Q -> (f <= 100 - c)%Q.
Proof.
  intros Ha. unfold familyScore, JS.Math_max. simpl.
  match goal with |- context [Qcompare ?u ?v] => JSFacts.qcase u v end;
    eexists; (split; [ reflexivity | ]);
    change (inject_Z 0) with 0%Q in *; change (inject_Z 100) with 100%Q in *;
    repeat split; try lra; intros c Hc Hc100; lra.
Qed.

Lemma score_Fin (x y z : Q) :
  JS.Math_round (JS.div (JS.add (JS.add (JS.Fin x) (JS.Fin y)) (JS.Fin z)) (num_of 3))
  = num_of (Qfloor ((x + y + z) / inject_Z 3 + (1 # 2))).
Proof. reflexivity. Qed.

End ScoreFacts.

(** X21: score and classification agree on valid snapshots: when every
    usage in the five-snapshot window is a finite non-negative number, an
    unhealthy verdict comes with a score of at most 70 and a degraded one
    with a score of at most 73, so a score above 73 means healthy. *)
Theorem score_bounded_by_overall_health (s : SystemMonitor.t) :
  Forall validUsages (healthWindow s) ->
  (calculateOverallHealth s = Health.unhealthy ->
   JS.Le (calculateHealthScore s) (num_of 70))
  /\ (calculateOverallHealth s = Health.degraded ->
      JS.Le (calculateHealthScore s) (num_of 73))
  /\ (JS.Lt (num_of 73) (calculateHealthScore s) ->
      calculateOverallHealth s = Health.healthy).
Proof.
  intros Hv.
  assert (H : (calculateOverallHealth s = Health.unhealthy ->
               JS.Le (calculateHealthScore s) (num_of 70))
              /\ (calculateOverallHealth s = Health.degraded ->
                  JS.Le (calculateHealthScore s) (num_of 73))).
  { unfold calculateOverallHealth, calculateHealthScore.
    destruct (healthWindow s) as [| m W] eqn:EW; [ split; discriminate | ].
    assert (Hne : m :: W <> []) by discriminate.
    assert (Ac : JS.fin_nonneg (average cpuUsage (m :: W))).
    { apply Windows.average_nonneg; [ exact Hne | ].
      eapply Forall_impl; [ | exact Hv ]. intros x [Hx _]. exact Hx. }
    assert (Am : JS.fin_nonneg (average memoryUsage (m :: W))).
    { apply Windows.average_nonneg; [ exact Hne | ].
      eapply Forall_impl; [ | exact Hv ]. intros x [_ [Hx _]]. exact Hx. }
    assert (Ad : JS.fin_nonneg (average diskUsage (m :: W))).
    { apply Windows.average_nonneg; [ exact Hne | ].
      eapply Forall_impl; [ | exact Hv ]. intros x [_ [_ Hx]]. exact Hx. }
    destruct (average cpuUsage (m :: W)) as [a| | |]; simpl in Ac; try contradiction.
    destruct (average memoryUsage (m :: W)) as [b| | |]; simpl in Am; try contradiction.
    destruct (average diskUsage (m :: W)) as [c| | |]; simpl in Ad; try contradiction.
    destruct (ScoreFacts.familyScore_Fin a Ac) as [fa [-> [Fa0 [Fa1 Fa]]]].
    destruct (ScoreFacts.familyScore_Fin b Am) as [fb [-> [Fb0 [Fb1 Fb]]]].
    destruct (ScoreFacts.familyScore_Fin c Ad) as [fc [-> [Fc0 [Fc1 Fc]]]].
    rewrite ScoreFacts.score_Fin.
    assert (HU : JS.ge (JS.Fin a) (num_of 90) || JS.ge (JS.Fin b) (num_of 95)
                 || JS.ge (JS.Fin c) (num_of 95) = true ->
                 (fa + fb + fc <= 210)%Q).
    { rewrite AnalysisFacts.orb3_true, !JSFacts.ge_Le. simpl.
      change (inject_Z 90) with 90%Q. change (inject_Z 95) with 95%Q.
      intros [G | [G | G]].
      - specialize (Fa 90%Q G ltac:(lra)). lra.
      - specialize (Fb 95%Q G ltac:(lra)). lra.
      - specialize (Fc 95%Q G ltac:(lra)). lra. }
    assert (HD : JS.ge (JS.Fin a) (num_of 80) || JS.ge (JS.Fin b) (num_of 85)
                 || JS.ge (JS.Fin c) (num_of 85) = true ->
                 (fa + fb + fc <= 220)%Q).
    { rewrite AnalysisFacts.orb3_true, !JSFacts.ge_Le. simpl.
      change (inject_Z 80) with 80%Q. change (inject_Z 85) with 85%Q.
      intros [G | [G | G]].
      - specialize (Fa 80%Q G ltac:(lra)). lra.
      - specialize (Fb 85%Q G ltac:(lra)). lra.
      - specialize (Fc 85%Q G ltac:(lra)). lra. }
    destruct (JS.ge (JS.Fin a) (num_of 90) || JS.ge (JS.Fin b) (num_of 95)
              || JS.ge (JS.Fin c) (num_of 95)) eqn:EU.
    - split; [ intros _ | discriminate ].
      specialize (HU eq_refl). apply StoreFacts.Le_of_Z. apply ScoreFacts.round_upper.
      change (inject_Z 3) with 3%Q. change (inject_Z (70 + 1)) with 71%Q.
      assert ((fa + fb + fc) / 3 <= 70)%Q by (apply Qle_shift_div_r; lra). lra.
    - destruct (JS.ge (JS.Fin a) (num_of 80) || JS.ge (JS.Fin b) (num_of 85)
                || JS.ge (JS.Fin c) (num_of 85)) eqn:ED.
      + split; [ discriminate | intros _ ].
        specialize (HD eq_refl). apply StoreFacts.Le_of_Z. apply ScoreFacts.round_upper.
        change (inject_Z 3) with 3%Q. change (inject_Z (73 + 1)) with 74%Q.
        assert ((fa + fb + fc) / 3 <= 220 # 3)%Q by (apply Qle_shift_div_r; lra). lra.
      + split; discriminate. }
  destruct H as [H1 H2]. split; [ exact H1 | ]. split; [ exact H2 | ].
  intros Hs. destruct (calculateOverallHealth s); [ reflexivity | | ]; exfalso.
  - specialize (H2 eq_refl).
    apply (JSFacts.Le_Lt_exclusive _ _ H2).
    eapply OrderFacts.Le_Lt_trans; [ | exact Hs ].
    apply StoreFacts.Le_of_Z. lia.
  - specialize (H1 eq_refl).
    apply (JSFacts.Le_Lt_exclusive _ _ H1).
    eapply OrderFacts.Le_Lt_trans; [ | exact Hs ].
    apply StoreFacts.Le_of_Z. lia.
Qed.

(** One snapshot with a cpu usage of 97: unhealthy, and the score, 34, is
    at most 70. *)
Lemma score_bounded_witness :
  Forall validUsages (healthWindow overloadedMonitor)
  /\ calculateOverallHealth overloadedMonitor = Health.unhealthy
  /\ calculateHealthScore overloadedMonitor = num_of 34
  /\ JS.Le (calculateHealthScore overloadedMonitor) (num_of 70).
Proof.
  assert (V : Forall validUsages (healthWindow overloadedMonitor)).
  { vm_compute. constructor; [ | constructor ]. repeat split; discriminate. }
  assert (U : calculateOverallHealth overloadedMonitor = Health.unhealthy)
    by (vm_compute; reflexivity).
  split; [ exact V | ]. split; [ exact U | ]. split; [ vm_compute; reflexivity | ].
  destruct (score_bounded_by_overall_health overloadedMonitor V) as [H _].
  exact (H U).
Defined.

(** X22: [start()] is not atomic.  On a stopped monitor whose network
    family is enabled, [start()] marks the monitor running and then waits for
    the provider; a [stop()] called before it resumes finds no timer to
    clear and marks the monitor stopped; the resumed [start()] then arms a
    timer all the same and emits [started] after [stopped].  The monitor is
    left stopped with that timer armed: a later [stop()] returns at once and
    does not clear it, the ticks it fires do nothing, a later [start()] arms
    a second timer beside it, and the [stop()] after that clears the
    second only. *)
Theorem stop_during_start_leaves_a_timer
    (s : SystemMonitor.t) (w : World.t) (r : Result (list NetStats.t)) :
  SystemMonitor.isRunning s = false ->
  ownsTimers s w ->
  MetricConfig.enabled (cfgNetwork s) = true ->
  let raced := steps (stopDuringStart r) (Task.mk s 0) w in
  let s' := Task.monitor (fst raced) in
  let w' := snd raced in
  let id := World.nextTimer w in
  Task.suspended (fst raced) = 0%nat
  /\ SystemMonitor.isRunning s' = false
  /\ SystemMonitor.intervalId s' = Some id
  /\ World.timers w' = [id]
  /\ emitted (steps (stopDuringStart r) (Task.mk s 0)) w
     = (if Config.debug (SystemMonitor.config s)
        then [Event.console_log "SystemMonitor stopped"] else [])
       ++ [Event.stopped]
       ++ (if Config.debug (SystemMonitor.config s)
           then [Event.console_log "SystemMonitor started"] else [])
       ++ [Event.started]
  /\ stop s' w' = (s', w')
  /\ (forall ps, runAll (map Call.tick ps) s' w' = (s', w'))
  /\ (forall p, World.timers (snd (start p s' w')) = [S id; id])
  /\ (forall p,
        SystemMonitor.isRunning (fst (runAll [Call.start p; Call.stop] s' w')) = false
        /\ World.timers (snd (runAll [Call.start p; Call.stop] s' w')) = [id]).
Proof.
  intros Hrun Hown Hnet raced s' w' id.
  unfold ownsTimers in Hown. rewrite Hrun in Hown.
  destruct (SystemMonitor.intervalId s) eqn:Hid; [ contradiction | ].
  assert (E : raced
              = (Task.mk
                   (SystemMonitor.mk false (Some id) (SystemMonitor.config s)
                      (World.clock w (World.clockReads w)) (SystemMonitor.metrics s)
                      (SystemMonitor.alerts s)
                      (match r with Ok stats => stats | Err _ => [] end))
                   0,
                 World.mk (World.clock w) (S (World.clockReads w)) (World.entropy w)
                   (World.entropyReads w) (S id) [id]
                   (World.log w
                    ++ (if Config.debug (SystemMonitor.config s)
                        then [Event.console_log "SystemMonitor stopped"] else [])
                    ++ [Event.stopped]
                    ++ (if Config.debug (SystemMonitor.config s)
                        then [Event.console_log "SystemMonitor started"] else [])
                    ++ [Event.started]))).
  { unfold raced, stopDuringStart, id.
    cbn [steps step Task.monitor Task.suspended].
    unfold bind, ret, start_beforeAwait, start_afterAwait, start_armTimer, stop, when, bind, ret.
    rewrite Hrun, Hnet. cbn [Date_now fst snd negb SystemMonitor.isRunning
      SystemMonitor.intervalId SystemMonitor.config Task.monitor Task.suspended].
    rewrite Hid.
    destruct (Config.debug (SystemMonitor.config s)) eqn:Ed; cbn;
      rewrite ?Ed, ?Hown; cbn; rewrite <- ?app_assoc; reflexivity. }
  unfold s', w'. rewrite E. cbn [fst snd Task.monitor Task.suspended].
  split; [ reflexivity | ]. split; [ reflexivity | ]. split; [ reflexivity | ].
  split; [ reflexivity | ].
  split.
  { unfold emitted. fold raced. rewrite E. cbn [snd World.log].
    apply AlertPublication.skipn_app_exact. }
  split; [ reflexivity | ].
  split.
  { intros ps. apply RunFacts.ticks_when_stopped. reflexivity. }
  split.
  { intros p. rewrite RunFacts.start_timers by reflexivity. reflexivity. }
  intros p. rewrite RunFacts.runAll_cons. cbn [run].
  match goal with
  | |- context [start p ?m ?v] =>
      destruct (LifecycleFacts.start_result p m v eq_refl) as [H1 [H2 _]];
      pose proof (RunFacts.start_timers p m v eq_refl) as H3
  end.
  cbn [World.nextTimer World.timers] in H2, H3.
  cbn [runAll]. unfold bind, ret.
  match goal with
  | |- context [start p ?m ?v] => destruct (start p m v) as [s1 w1]
  end.
  cbn [fst snd run] in *.
  pose proof (RunFacts.stop_leaves_stopped s1 w1) as Hstopped.
  pose proof (RunFacts.stop_timers s1 w1 (S id) H1 H2) as Hs.
  destruct (stop s1 w1) as [s2 w2]. cbn [fst snd] in *.
  split; [ exact Hstopped | ].
  rewrite Hs, H3. cbn [filter]. rewrite Nat.eqb_refl.
  replace (Nat.eqb id (S id)) with false
    by (symmetry; apply Nat.eqb_neq; lia).
  reflexivity.
Qed.

(** The race on the new monitor: the monitor ends stopped with timer 0
    armed, the log reads stopped, then started; starting and stopping once
    more leaves timer 0 armed. *)
Lemma stop_during_start_leaves_a_timer_witness :
  SystemMonitor.isRunning defaultMonitor = false
  /\ ownsTimers defaultMonitor world0
  /\ MetricConfig.enabled (cfgNetwork defaultMonitor) = true
  /\ SystemMonitor.isRunning
       (Task.monitor
          (fst (steps (stopDuringStart (Provider.networkStats sampleProvider))
                  (Task.mk defaultMonitor 0) world0))) = false
  /\ World.timers
       (snd (steps (stopDuringStart (Provider.networkStats sampleProvider))
               (Task.mk defaultMonitor 0) world0)) = [0%nat]
  /\ emitted (steps (stopDuringStart (Provider.networkStats sampleProvider))
                (Task.mk defaultMonitor 0)) world0
     = [Event.stopped; Event.started].
Proof.
  assert (H0 : ownsTimers defaultMonitor world0) by reflexivity.
  split; [ reflexivity | ]. split; [ exact H0 | ]. split; [ reflexivity | ].
  destruct (stop_during_start_leaves_a_timer defaultMonitor world0
              (Provider.networkStats sampleProvider) eq_refl H0 eq_refl)
    as [_ [H2 [_ [H4 [H5 _]]]]].
  split; [ exact H2 | ]. split; [ exact H4 | exact H5 ].
Defined.
